(** * DebouncedRotaryEncoder: the polling core of [RotaryEncoder]

    A shallow embedding of the class [RotaryEncoder] (RotaryEncoder.h and
    RotaryEncoder.cpp): the two rotary debouncers, the push-button
    classifier and [loop()], followed by the properties of the
    specification that concern them.

    Conventions of the embedding.
    - Every [uint8_t], [uint16_t] and [unsigned long] member is a [Z]; the
      wrap-around of the C++ arithmetic is written out ([u8], [u16],
      [wsub]).  [unsigned long] is 32 bits wide on the ESP32 board the
      program is written for.
    - One call of [loop()] consumes one [Input]: the level each
      [digitalRead] returns and the value each [millis()] returns, in
      program order.
    - One call of [loop()] produces a [Trace]: every [digitalRead],
      [digitalWrite], [millis] and callback invocation, in program order.
      The five callbacks are opaque to the class; a [Call] names the
      member function pointer that is invoked.  In [loop] and [run] a
      callback is taken not to call back into the encoder while the poll
      runs, and the debouncing mode is set between polls.  Callbacks that
      select the debouncing mode within the poll, as [onClick] and
      [onLongClick] of the sketch do, are the subject of [loop_selecting]
      and [sketch_loop] further down. *)

From Stdlib Require Import ZArith List Bool Lia.
Import ListNotations.
Local Open Scope Z_scope.

(** ** Platform constants (Arduino.h, esp32 gpio numbers) *)

Definition HIGH : Z := 1.
Definition LOW : Z := 0.
Definition GPIO_NUM_2 : Z := 2.
Definition GPIO_NUM_4 : Z := 4.

(** The value a [digitalRead] stores for a sampled level. *)
Definition level (b : bool) : Z := if b then HIGH else LOW.

(** ** Fixed-width arithmetic *)

Definition u8 (x : Z) : Z := x mod 256.
Definition u16 (x : Z) : Z := x mod 65536.
Definition u32 (x : Z) : Z := x mod 4294967296.

(** [a - b] on [unsigned long]. *)
Definition wsub (a b : Z) : Z := u32 (a - b).

(** ** Data model *)

(** The five callback members. *)
Inductive Callback : Set :=
| onClick | onLongClick | onDoubleClick | onCW | onCCW.

Definition Callback_eqb (a b : Callback) : bool :=
  match a, b with
  | onClick, onClick | onLongClick, onLongClick
  | onDoubleClick, onDoubleClick | onCW, onCW | onCCW, onCCW => true
  | _, _ => false
  end.

(** What a poll does to the outside world. *)
Inductive Action : Set :=
| DigitalRead (pin : Z)
| DigitalWrite (pin : Z) (val : Z)
| Millis
| Call (cb : Callback).

Definition Trace : Set := list Action.

(** What the outside world answers during one poll. *)
Record Input : Set := mkInput {
  in_button : bool;   (* digitalRead(_pinButton) *)
  in_clk : bool;      (* digitalRead(_pinClk) *)
  in_data : bool;     (* digitalRead(_pinData) *)
  in_millis1 : Z;     (* first millis() of the poll *)
  in_millis2 : Z;     (* second millis() of the poll *)
  in_millis3 : Z      (* third millis() of the poll *)
}.

(** The data members of [RotaryEncoder] that a poll reads or writes.
    [_msDebounce], [_msLongClick], [_msDoubleClickGap] and
    [_validTransitions] are initialised in the header and never assigned;
    they are the constants below. *)
Record State : Set := mkState {
  _clkState : Z;
  _prevClkState : Z;
  _cleanedClkState : Z;
  _prevCleanedClkState : Z;
  _buttonState : Z;
  _prevButtonState : Z;
  _dataState : Z;
  _prevDataState : Z;
  _cleanedDataState : Z;
  _prevCleanedDataState : Z;
  _pinClk : Z;
  _pinData : Z;
  _pinButton : Z;
  _clickCount : Z;
  _msButtonDown : Z;
  _msFirstClick : Z;
  _newTransition : Z;
  _transitions : Z;
  _debouncingRotEncByTable : bool
}.

Definition _msDebounce : Z := 50.
Definition _msLongClick : Z := 300.
Definition _msDoubleClickGap : Z := 250.
Definition _validTransitions : list Z :=
  [0;1;1;0; 1;0;0;1; 1;0;0;1; 0;1;1;0].

(** [_validTransitions[k]]. *)
Definition valid_at (k : Z) : Z := nth (Z.to_nat k) _validTransitions 0.

(** Assignments to single members. *)
Definition set_clkState (v : Z) (s : State) : State :=
  let 'mkState _ b c d e f g h i j k l m n o p q r t := s in
  mkState v b c d e f g h i j k l m n o p q r t.
Definition set_prevClkState (v : Z) (s : State) : State :=
  let 'mkState a _ c d e f g h i j k l m n o p q r t := s in
  mkState a v c d e f g h i j k l m n o p q r t.
Definition set_cleanedClkState (v : Z) (s : State) : State :=
  let 'mkState a b _ d e f g h i j k l m n o p q r t := s in
  mkState a b v d e f g h i j k l m n o p q r t.
Definition set_prevCleanedClkState (v : Z) (s : State) : State :=
  let 'mkState a b c _ e f g h i j k l m n o p q r t := s in
  mkState a b c v e f g h i j k l m n o p q r t.
Definition set_buttonState (v : Z) (s : State) : State :=
  let 'mkState a b c d _ f g h i j k l m n o p q r t := s in
  mkState a b c d v f g h i j k l m n o p q r t.
Definition set_prevButtonState (v : Z) (s : State) : State :=
  let 'mkState a b c d e _ g h i j k l m n o p q r t := s in
  mkState a b c d e v g h i j k l m n o p q r t.
Definition set_dataState (v : Z) (s : State) : State :=
  let 'mkState a b c d e f _ h i j k l m n o p q r t := s in
  mkState a b c d e f v h i j k l m n o p q r t.
Definition set_prevDataState (v : Z) (s : State) : State :=
  let 'mkState a b c d e f g _ i j k l m n o p q r t := s in
  mkState a b c d e f g v i j k l m n o p q r t.
Definition set_cleanedDataState (v : Z) (s : State) : State :=
  let 'mkState a b c d e f g h _ j k l m n o p q r t := s in
  mkState a b c d e f g h v j k l m n o p q r t.
Definition set_prevCleanedDataState (v : Z) (s : State) : State :=
  let 'mkState a b c d e f g h i _ k l m n o p q r t := s in
  mkState a b c d e f g h i v k l m n o p q r t.
Definition set_clickCount (v : Z) (s : State) : State :=
  let 'mkState a b c d e f g h i j k l m _ o p q r t := s in
  mkState a b c d e f g h i j k l m v o p q r t.
Definition set_msButtonDown (v : Z) (s : State) : State :=
  let 'mkState a b c d e f g h i j k l m n _ p q r t := s in
  mkState a b c d e f g h i j k l m n v p q r t.
Definition set_msFirstClick (v : Z) (s : State) : State :=
  let 'mkState a b c d e f g h i j k l m n o _ q r t := s in
  mkState a b c d e f g h i j k l m n o v q r t.
Definition set_newTransition (v : Z) (s : State) : State :=
  let 'mkState a b c d e f g h i j k l m n o p _ r t := s in
  mkState a b c d e f g h i j k l m n o p v r t.
Definition set_transitions (v : Z) (s : State) : State :=
  let 'mkState a b c d e f g h i j k l m n o p q _ t := s in
  mkState a b c d e f g h i j k l m n o p q v t.

(** ** Construction *)

(** The members without an initialiser hold whatever the storage of the
    object held before the constructor ran. *)
Record Indeterminate : Set := mkIndeterminate {
  any_cleanedClkState : Z;
  any_prevButtonState : Z;
  any_prevDataState : Z;
  any_cleanedDataState : Z;
  any_prevCleanedDataState : Z;
  any_msButtonDown : Z;
  any_pinButton : Z
}.

(** Storage of an object with static storage duration: zero-initialised. *)
Definition zeroed : Indeterminate := mkIndeterminate 0 0 0 0 0 0 0.

(** [RotaryEncoder(pinClk, pinData, pinButton)]: encoders with axial
    pushbutton.  (The [pinMode] calls of the constructors configure the
    pins and touch no member.) *)
Definition RotaryEncoder3 (pinClk pinData pinButton : Z)
    (u : Indeterminate) : State :=
  {| _clkState := HIGH;
     _prevClkState := LOW;
     _cleanedClkState := any_cleanedClkState u;
     _prevCleanedClkState := HIGH;
     _buttonState := HIGH;
     _prevButtonState := any_prevButtonState u;
     _dataState := HIGH;
     _prevDataState := any_prevDataState u;
     _cleanedDataState := any_cleanedDataState u;
     _prevCleanedDataState := any_prevCleanedDataState u;
     _pinClk := pinClk;
     _pinData := pinData;
     _pinButton := pinButton;
     _clickCount := 0;
     _msButtonDown := any_msButtonDown u;
     _msFirstClick := 0;
     _newTransition := 0;
     _transitions := 0;
     _debouncingRotEncByTable := true |}.

(** [RotaryEncoder(pinClk, pinData)]: encoders without pushbutton.
    [_pinButton] is not in the initialiser list. *)
Definition RotaryEncoder2 (pinClk pinData : Z) (u : Indeterminate) : State :=
  RotaryEncoder3 pinClk pinData (any_pinButton u) u.

(** ** Operations *)

Definition setDebouncingRotEncByTable (byTable : bool) (s : State) : State :=
  let 'mkState a b c d e f g h i j k l m n o p q r _ := s in
  mkState a b c d e f g h i j k l m n o p q r byTable.

(** Debounce rotary encoder by cleaning clock and data signal. *)
Definition _debounceRotaryByCleaning (i : Input) (s : State) : State * Trace :=
  let s := set_clkState (level (in_clk i)) s in
  let s := set_dataState (level (in_data i)) s in
  let t := [DigitalRead (_pinClk s); DigitalRead (_pinData s)] in
  let '(s, t) :=
    if negb (_prevClkState s =? _clkState s) then
      let s := set_prevClkState (_clkState s) s in
      let s := set_cleanedClkState (_dataState s) s in
      (s, t ++ [DigitalWrite GPIO_NUM_2 (_cleanedClkState s)])
    else (s, t) in
  let '(s, t) :=
    if negb (_prevDataState s =? _dataState s) then
      let s := set_prevDataState (_dataState s) s in
      let s := set_cleanedDataState (_clkState s) s in
      (s, t ++ [DigitalWrite GPIO_NUM_4 (_cleanedDataState s)])
    else (s, t) in
  let risingClk :=
    (_prevCleanedClkState s =? LOW) && (_cleanedClkState s =? HIGH) in
  let risingData :=
    (_prevCleanedDataState s =? LOW) && (_cleanedDataState s =? HIGH) in
  let t := if risingClk && (_cleanedDataState s =? LOW)
           then t ++ [Call onCW] else t in
  let t := if risingData && (_cleanedClkState s =? LOW)
           then t ++ [Call onCCW] else t in
  let s := set_prevCleanedClkState (_cleanedClkState s) s in
  let s := set_prevCleanedDataState (_cleanedDataState s) s in
  (s, t).

(** Debounce rotary encoder by table lookup. *)
Definition _debounceRotaryByTable (i : Input) (s : State) : State * Trace :=
  let nt := u8 (Z.shiftl (_newTransition s) 2) in
  let nt := if in_clk i then Z.lor nt 2 else nt in
  let nt := if in_data i then Z.lor nt 1 else nt in
  let nt := Z.land nt 15 in
  let s := set_newTransition nt s in
  let t := [DigitalRead (_pinClk s); DigitalRead (_pinData s)] in
  if negb (valid_at (_newTransition s) =? 0) then
    let s := set_transitions (u16 (Z.shiftl (_transitions s) 4)) s in
    let s := set_transitions (Z.lor (_transitions s) (_newTransition s)) s in
    let t := if Z.land (_transitions s) 255 =? 23
             then t ++ [Call onCW] else t in
    let t := if Z.land (_transitions s) 255 =? 43
             then t ++ [Call onCCW] else t in
    (s, t)
  else (s, t).

(** Debounce the pushbutton. *)
Definition _debounceButton (i : Input) (s : State) : State * Trace :=
  let s := set_prevButtonState (_buttonState s) s in
  let s := set_buttonState (level (in_button i)) s in
  let t := [DigitalRead (_pinButton s)] in
  if (_prevButtonState s =? HIGH) && (_buttonState s =? LOW) then
    (set_msButtonDown (in_millis1 i) s, t ++ [Millis])
  else if (_prevButtonState s =? LOW) && (_buttonState s =? HIGH) then
    if wsub (in_millis1 i) (_msButtonDown s) <? _msDebounce then
      (s, t ++ [Millis])
    else if wsub (in_millis2 i) (_msButtonDown s) >? _msLongClick then
      (s, t ++ [Millis; Millis; Call onLongClick])
    else
      let s := set_clickCount (u8 (_clickCount s + 1)) s in
      if _clickCount s =? 1 then
        (set_msFirstClick (in_millis3 i) s, t ++ [Millis; Millis; Millis])
      else (s, t ++ [Millis; Millis])
  else
    if _clickCount s =? 1 then
      if wsub (in_millis1 i) (_msFirstClick s) >? _msDoubleClickGap then
        let s := set_msFirstClick 0 s in
        let s := set_clickCount 0 s in
        (s, t ++ [Millis; Call onClick])
      else (s, t ++ [Millis])
    else if _clickCount s >? 1 then
      let s := set_msFirstClick 0 s in
      let s := set_clickCount 0 s in
      (s, t ++ [Call onDoubleClick])
    else (s, t).

(** Call this method in your main loop. *)
Definition loop (i : Input) (s : State) : State * Trace :=
  let '(s, t1) := _debounceButton i s in
  let '(s, t2) :=
    if _debouncingRotEncByTable s
    then _debounceRotaryByTable i s
    else _debounceRotaryByCleaning i s in
  (s, t1 ++ t2).

(** The caller's main loop: one poll per input. *)
Fixpoint run (ins : list Input) (s : State) : State * Trace :=
  match ins with
  | [] => (s, [])
  | i :: ins' =>
      let '(s1, t1) := loop i s in
      let '(s2, t2) := run ins' s1 in
      (s2, t1 ++ t2)
  end.

(** ** Observations on traces *)

(** The callbacks a trace invokes, in order. *)
Definition calls (t : Trace) : list Callback :=
  flat_map (fun a => match a with Call c => [c] | _ => [] end) t.

(** The pin writes of a trace, in order. *)
Definition writes (t : Trace) : Trace :=
  filter (fun a => match a with DigitalWrite _ _ => true | _ => false end) t.

Definition is_rotary (c : Callback) : bool :=
  match c with onCW | onCCW => true | _ => false end.

(** Rotation events and button events of a trace. *)
Definition rotary_calls (t : Trace) : list Callback :=
  filter is_rotary (calls t).
Definition button_calls (t : Trace) : list Callback :=
  filter (fun c => negb (is_rotary c)) (calls t).

(** How often a trace invokes callback [c]. *)
Definition count_call (c : Callback) (t : Trace) : nat :=
  length (filter (Callback_eqb c) (calls t)).

(** ** Vocabulary of the properties *)

(** The table index of a transition from the pair [pc pd] to the pair
    [c d]: bits 3 and 1 are clock, bits 2 and 0 are data. *)
Definition transition_index (pc pd c d : bool) : Z :=
  8 * Z.b2z pc + 4 * Z.b2z pd + 2 * Z.b2z c + Z.b2z d.

(** The index [_debounceRotaryByTable] looks up in this poll. *)
Definition looked_up (i : Input) (s : State) : Z :=
  _newTransition (fst (_debounceRotaryByTable i s)).

(** The actions a poll may perform: anything but a pin write, except in
    cleaning mode the writes to GPIO 2 and GPIO 4. *)
Definition permitted (byTable : bool) (a : Action) : Prop :=
  match a with
  | DigitalWrite pin _ =>
      byTable = false /\ (pin = GPIO_NUM_2 \/ pin = GPIO_NUM_4)
  | _ => True
  end.

(** The pin writes of the cleaning debouncer: the cleaned clock on a raw
    clock change, the cleaned data on a raw data change. *)
Definition cleaning_writes (i : Input) (s : State) : Trace :=
  (if negb (_prevClkState s =? level (in_clk i))
   then [DigitalWrite GPIO_NUM_2 (level (in_data i))] else []) ++
  (if negb (_prevDataState s =? level (in_data i))
   then [DigitalWrite GPIO_NUM_4 (level (in_clk i))] else []).

(** A poll at time [t]: every clock reading of the poll returns [t]. *)
Definition poll_at (t : Z) (button clk data : bool) : Input :=
  mkInput button clk data t t t.

(** The members of each of the three machines, and the configuration. *)
Definition button_members (s : State) : Z * Z * Z * Z * Z :=
  (_buttonState s, _prevButtonState s, _clickCount s,
   _msButtonDown s, _msFirstClick s).
Definition table_members (s : State) : Z * Z :=
  (_newTransition s, _transitions s).
Definition cleaning_members (s : State) : Z * Z * Z * Z * Z * Z * Z * Z :=
  (_clkState s, _prevClkState s, _cleanedClkState s, _prevCleanedClkState s,
   _dataState s, _prevDataState s, _cleanedDataState s,
   _prevCleanedDataState s).
Definition config_members (s : State) : Z * Z * Z * bool :=
  (_pinClk s, _pinData s, _pinButton s, _debouncingRotEncByTable s).

(** The click accumulator, cleared. *)
Definition accumulator_cleared (s : State) : State :=
  set_clickCount 0 (set_msFirstClick 0 s).

(** Two polls sample the same raw levels. *)
Definition same_levels (i1 i2 : Input) : Prop :=
  in_button i1 = in_button i2 /\
  in_clk i1 = in_clk i2 /\
  in_data i1 = in_data i2.

(** The state right after a poll that sampled the levels of [i]: the raw
    levels are stored and the edge memories of the active debouncer agree
    with them. *)
Definition polled (i : Input) (s : State) : Prop :=
  _buttonState s = level (in_button i) /\
  if _debouncingRotEncByTable s then
    _newTransition s mod 4 = 2 * Z.b2z (in_clk i) + Z.b2z (in_data i)
  else
    _clkState s = level (in_clk i) /\
    _prevClkState s = level (in_clk i) /\
    _dataState s = level (in_data i) /\
    _prevDataState s = level (in_data i) /\
    _prevCleanedClkState s = _cleanedClkState s /\
    _prevCleanedDataState s = _cleanedDataState s.

(** The edge memories after a further poll at unchanged levels: the
    previous button level is the current one, and in table mode the packed
    index holds the last pair twice. *)
Definition caught_up (s : State) : State :=
  let s := set_prevButtonState (_buttonState s) s in
  if _debouncingRotEncByTable s
  then set_newTransition (5 * (_newTransition s mod 4)) s
  else s.

(** The clock and data levels a poll samples. *)
Definition levels (i : Input) : bool * bool := (in_clk i, in_data i).

Definition levels_eqb (x y : bool * bool) : bool :=
  Bool.eqb (fst x) (fst y) && Bool.eqb (snd x) (snd y).

(** The successive distinct level pairs of a sequence of samples: a pair
    sampled by several polls in a row is kept once. *)
Fixpoint compress (l : list (bool * bool)) : list (bool * bool) :=
  match l with
  | [] => []
  | x :: r =>
      match r with
      | [] => [x]
      | y :: _ => if levels_eqb x y then compress r else x :: compress r
      end
  end.

(** One detent, from rest to rest, as (clock, data) pairs: clockwise
    11 -> 10 -> 00 -> 01 -> 11, counter-clockwise 11 -> 01 -> 00 -> 10 -> 11. *)
Definition cw_detent : list (bool * bool) :=
  [(true, true); (true, false); (false, false); (false, true); (true, true)].
Definition ccw_detent : list (bool * bool) :=
  [(true, true); (false, true); (false, false); (true, false); (true, true)].

(** The polls [ins] take the encoder along [path], each pair sampled by
    one or more polls; the polls at the rest position before the first
    step may be absent. *)
Definition walks (path : list (bool * bool)) (ins : list Input) : Prop :=
  compress (map levels ins) = path \/ compress (map levels ins) = tl path.

(** A pair as two bits: clock is bit 1, data is bit 0. *)
Definition pair_code (l : bool * bool) : Z := 2 * Z.b2z (fst l) + Z.b2z (snd l).

(** What the table debouncer depends on: the last sampled pair and the
    history. *)
Definition table_view (s : State) : Z * Z :=
  (_newTransition s mod 4, _transitions s).

(** The table debouncer on that view. *)
Definition table_step (v : Z * Z) (l : bool * bool) : (Z * Z) * list Callback :=
  let k := 4 * fst v + 2 * Z.b2z (fst l) + Z.b2z (snd l) in
  if valid_at k =? 0 then ((k mod 4, snd v), [])
  else
    let h := Z.lor (u16 (Z.shiftl (snd v) 4)) k in
    ((k mod 4, h),
     (if Z.land h 255 =? 23 then [onCW] else []) ++
     (if Z.land h 255 =? 43 then [onCCW] else [])).

Fixpoint table_run (v : Z * Z) (ls : list (bool * bool))
  : (Z * Z) * list Callback :=
  match ls with
  | [] => (v, [])
  | l :: ls' =>
      let '(v1, c1) := table_step v l in
      let '(v2, c2) := table_run v1 ls' in
      (v2, c1 ++ c2)
  end.

(** *** Button schedules *)

(** The part of the button classifier's state that outlives a poll
    ([_prevButtonState] is overwritten before it is read). *)
Definition button_core (s : State) : Z * Z * Z * Z :=
  (_buttonState s, _clickCount s, _msButtonDown s, _msFirstClick s).

(** Poll [i] samples button level [fst p] at clock value [snd p]. *)
Definition observes (i : Input) (p : bool * Z) : Prop :=
  in_button i = fst p /\
  in_millis1 i = snd p /\ in_millis2 i = snd p /\ in_millis3 i = snd p.

(** The clock value [o] milliseconds after [t0]. *)
Definition at_ms (t0 o : Z) : Z := u32 (t0 + o).

(** Polls at the offsets [offs] from [t0], all sampling level [b]. *)
Definition polls (b : bool) (t0 : Z) (offs : list Z) : list (bool * Z) :=
  map (fun o => (b, at_ms t0 o)) offs.

(** Two presses of 100 ms each, the second one [gap] ms after the first
    release: the press is seen at [t0], the release 100 ms later, the second
    press at [t0 + 100 + gap], the second release at [t0 + 200 + gap]; the
    button is polled at the offsets [hold1] during the first press, [idle]
    between the presses, [hold2] during the second press, and at [after]
    and [rest] once it is released for good. *)
Definition double_press (t0 gap : Z) (hold1 idle hold2 : list Z)
    (after : Z) (rest : list Z) : list (bool * Z) :=
  [(false, at_ms t0 0)] ++ polls false t0 hold1 ++
  [(true, at_ms t0 100)] ++ polls true t0 idle ++
  [(false, at_ms t0 (100 + gap))] ++ polls false t0 hold2 ++
  [(true, at_ms t0 (200 + gap))] ++ polls true t0 (after :: rest).

(** All offsets lie between [lo] and [hi]. *)
Definition within (lo hi : Z) (offs : list Z) : Prop :=
  Forall (fun o => lo <= o <= hi) offs.

(** The polls of a double press fall into their phases. *)
Definition double_press_timed (gap : Z) (hold1 idle hold2 : list Z) : Prop :=
  0 <= gap < 250 /\
  within 0 100 hold1 /\
  within 100 (100 + gap) idle /\
  within (100 + gap) (200 + gap) hold2.

(** *** Further vocabulary *)

(** The table debouncer's members fit the 4-bit index and the 16-bit
    history. *)
Definition table_in_range (s : State) : Prop :=
  0 <= _newTransition s < 16 /\ 0 <= _transitions s < 65536.

(** Half a detent and back to rest, as (clock, data) pairs: starting
    clockwise, 11 -> 10 -> 00 -> 10 -> 11, and starting counter-clockwise,
    11 -> 01 -> 00 -> 01 -> 11. *)
Definition cw_half_and_back : list (bool * bool) :=
  [(true, true); (true, false); (false, false); (true, false); (true, true)].
Definition ccw_half_and_back : list (bool * bool) :=
  [(true, true); (false, true); (false, false); (false, true); (true, true)].

(** The polls [ins] take the encoder along [path], each pair sampled by
    one or more polls, the rest position included. *)
Definition walks_from_rest (path : list (bool * bool)) (ins : list Input)
  : Prop :=
  compress (map levels ins) = path.

(** A state that holds the cleaning debouncer's members [v]; the other
    members do not matter to that debouncer. *)
Definition cleaning_state_of (v : Z * Z * Z * Z * Z * Z * Z * Z) : State :=
  let '(a, b, c, d, e, f, g, h) := v in
  mkState a b c d 0 0 e f g h 0 0 0 0 0 0 0 0 false.

(** The cleaning debouncer on its own members: the code, run on
    [cleaning_state_of]. *)
Definition cleaning_step (v : Z * Z * Z * Z * Z * Z * Z * Z) (l : bool * bool)
  : (Z * Z * Z * Z * Z * Z * Z * Z) * list Callback :=
  let r := _debounceRotaryByCleaning (mkInput true (fst l) (snd l) 0 0 0)
             (cleaning_state_of v) in
  (cleaning_members (fst r), rotary_calls (snd r)).

Fixpoint cleaning_run (v : Z * Z * Z * Z * Z * Z * Z * Z)
    (ls : list (bool * bool))
  : (Z * Z * Z * Z * Z * Z * Z * Z) * list Callback :=
  match ls with
  | [] => (v, [])
  | l :: ls' =>
      let '(v1, c1) := cleaning_step v l in
      let '(v2, c2) := cleaning_run v1 ls' in
      (v2, c1 ++ c2)
  end.

(** The members right after a poll that sampled the pair [l]. *)
Definition cleaning_settled (l : bool * bool)
    (v : Z * Z * Z * Z * Z * Z * Z * Z) : Prop :=
  let '(a, b, c, d, e, f, g, h) := v in
  a = level (fst l) /\ b = level (fst l) /\
  e = level (snd l) /\ f = level (snd l) /\
  d = c /\ h = g.

(** The data line is steady at [d]: the data edge memory holds [d] and
    both cleaned signals have been copied to their shadows. *)
Definition data_steady (d : bool) (v : Z * Z * Z * Z * Z * Z * Z * Z) : Prop :=
  let '(_, _, cc, pcc, _, pd, cd, pcd) := v in
  pd = level d /\ pcc = cc /\ pcd = cd.

(** The clock line is steady at [c]. *)
Definition clk_steady (c : bool) (v : Z * Z * Z * Z * Z * Z * Z * Z) : Prop :=
  let '(_, pc, cc, pcc, _, _, cd, pcd) := v in
  pc = level c /\ pcc = cc /\ pcd = cd.

(** The cleaned clock, and the cleaned data, of the members [v]. *)
Definition cleaned_clk_of (v : Z * Z * Z * Z * Z * Z * Z * Z) : Z :=
  let '(_, _, cc, _, _, _, _, _) := v in cc.
Definition cleaned_data_of (v : Z * Z * Z * Z * Z * Z * Z * Z) : Z :=
  let '(_, _, _, _, _, _, cd, _) := v in cd.

(** What the button classifier consumes in a poll: the sampled level and
    the three clock readings. *)
Definition button_input (i : Input) : bool * Z * Z * Z :=
  (in_button i, in_millis1 i, in_millis2 i, in_millis3 i).

(** A state that holds the button classifier's members [v]. *)
Definition button_state_of (v : Z * Z * Z * Z) : State :=
  let '(b, n, d, f) := v in
  mkState 0 0 0 0 b 0 0 0 0 0 0 0 0 n d f 0 0 false.

(** The button classifier on its own members: the code, run on
    [button_state_of]. *)
Definition button_step (v : Z * Z * Z * Z) (x : bool * Z * Z * Z)
  : (Z * Z * Z * Z) * list Callback :=
  let '(b, m1, m2, m3) := x in
  let r := _debounceButton (mkInput b true true m1 m2 m3)
             (button_state_of v) in
  (button_core (fst r), calls (snd r)).

Fixpoint button_run (v : Z * Z * Z * Z) (xs : list (bool * Z * Z * Z))
  : (Z * Z * Z * Z) * list Callback :=
  match xs with
  | [] => (v, [])
  | x :: xs' =>
      let '(v1, c1) := button_step v x in
      let '(v2, c2) := button_run v1 xs' in
      (v2, c1 ++ c2)
  end.

(** One press of [d] ms: the press is seen at [t0], the release at
    [t0 + d]; the button is polled at the offsets [hold] while pressed and
    [idle] after the release. *)
Definition single_press (t0 d : Z) (hold idle : list Z) : list (bool * Z) :=
  [(false, at_ms t0 0)] ++ polls false t0 hold ++
  [(true, at_ms t0 d)] ++ polls true t0 idle.

(** ** The caller: testRotaryEncoder.cpp

    The sketch owns one encoder [ctrlKnob] with a pushbutton and an [int]
    [counter]; [setup()] registers its five functions as the callbacks and
    [loop()] polls the encoder.  What the functions print on Serial is
    recorded as [SerialLine]s.  [counter] is an [int]: the model is that of
    the sketch as long as [counter] and [18 * counter] stay within [int]. *)

(** The lines the sketch prints. *)
Inductive SerialLine : Set :=
| TableSelected (c : Z)      (* "Debouncing by table lookup, counter set to %d" *)
| CleaningSelected (c : Z)   (* "Debouncing by cleaning ..., counter set to %d" *)
| Position (degrees : Z)     (* "Position = %d" *)
| Count (c : Z).             (* "count = %4d" *)

Record Sketch : Set := mkSketch {
  ctrlKnob : State;
  counter : Z;
  serial : list SerialLine
}.

(** The values of an [int] (32 bits on the ESP32). *)
Definition int_range (z : Z) : Prop := -2147483648 <= z <= 2147483647.

(** [(18 * counter) % 360]: the remainder of C++ truncates towards zero. *)
Definition position (c : Z) : Z := Z.rem (18 * c) 360.

(** Reset the counter and select debouncing by table lookup. *)
Definition sketch_onClick (k : Sketch) : Sketch :=
  mkSketch (setDebouncingRotEncByTable true (ctrlKnob k)) 0
    (serial k ++ [TableSelected 0]).

(** Reset the counter and select debouncing by cleaning. *)
Definition sketch_onLongClick (k : Sketch) : Sketch :=
  mkSketch (setDebouncingRotEncByTable false (ctrlKnob k)) 0
    (serial k ++ [CleaningSelected 0]).

(** Show the angular position of the encoder. *)
Definition sketch_onDoubleClick (k : Sketch) : Sketch :=
  mkSketch (ctrlKnob k) (counter k)
    (serial k ++ [Position (position (counter k))]).

Definition countUp (k : Sketch) : Sketch :=
  mkSketch (ctrlKnob k) (counter k + 1) (serial k ++ [Count (counter k + 1)]).

Definition countDown (k : Sketch) : Sketch :=
  mkSketch (ctrlKnob k) (counter k - 1) (serial k ++ [Count (counter k - 1)]).

(** The callbacks as [setup()] registers them. *)
Definition registered (cb : Callback) : Sketch -> Sketch :=
  match cb with
  | onClick => sketch_onClick
  | onLongClick => sketch_onLongClick
  | onDoubleClick => sketch_onDoubleClick
  | onCW => countUp
  | onCCW => countDown
  end.

(** Run the registered callbacks a part of the poll invokes, on the
    encoder state [s] that part leaves. *)
Definition dispatch (s : State) (t : Trace) (k : Sketch) : Sketch :=
  fold_left (fun k cb => registered cb k) (calls t)
    (mkSketch s (counter k) (serial k)).

(** [ctrlKnob.loop()] with the registered callbacks.  The button
    classifier invokes a callback as the last statement of its branch, so
    a mode the callback selects is the mode [loop()] tests next; the
    rotation callbacks touch nothing but [counter] and Serial. *)
Definition sketch_loop (i : Input) (k : Sketch) : Sketch :=
  let '(s1, t1) := _debounceButton i (ctrlKnob k) in
  let k1 := dispatch s1 t1 k in
  let '(s2, t2) :=
    if _debouncingRotEncByTable (ctrlKnob k1)
    then _debounceRotaryByTable i (ctrlKnob k1)
    else _debounceRotaryByCleaning i (ctrlKnob k1) in
  dispatch s2 t2 k1.

Fixpoint sketch_run (ins : list Input) (k : Sketch) : Sketch :=
  match ins with
  | [] => k
  | i :: ins' => sketch_run ins' (sketch_loop i k)
  end.

(** The sketch after its global initialisers: the encoder on pins 27, 26
    and 25 in zero-initialised storage, the counter at 0. *)
Definition sketch_start : Sketch :=
  mkSketch (RotaryEncoder3 27 26 25 zeroed) 0 [].

(** The net rotation a trace reports: clockwise steps minus
    counter-clockwise steps. *)
Definition net_steps (t : Trace) : Z :=
  Z.of_nat (count_call onCW t) - Z.of_nat (count_call onCCW t).

(** ** Callbacks that select the debouncing mode

    A registered callback may call [setDebouncingRotEncByTable], as
    [onClick] and [onLongClick] of the sketch do.  [loop_selecting] is
    [loop()] with such callbacks: the button classifier invokes its
    callback as the last statement of a branch, so the mode the callback
    selects is the mode [loop()] tests next; the rotary debouncers never
    read the mode, so a mode selected by a rotation callback takes effect
    after the rotary pass. *)

(** The mode a callback selects, if it selects one. *)
Definition Selection : Set := Callback -> option bool.

Definition select_mode (sel : Selection) (s : State) (c : Callback) : State :=
  match sel c with
  | Some byTable => setDebouncingRotEncByTable byTable s
  | None => s
  end.

(** The encoder after the callbacks of the trace [t] have run. *)
Definition selecting (sel : Selection) (t : Trace) (s : State) : State :=
  fold_left (select_mode sel) (calls t) s.

Definition loop_selecting (sel : Selection) (i : Input) (s : State)
  : State * Trace :=
  let '(s, t1) := _debounceButton i s in
  let s := selecting sel t1 s in
  let '(s, t2) :=
    if _debouncingRotEncByTable s
    then _debounceRotaryByTable i s
    else _debounceRotaryByCleaning i s in
  (selecting sel t2 s, t1 ++ t2).

Fixpoint run_selecting (sel : Selection) (ins : list Input) (s : State)
  : State * Trace :=
  match ins with
  | [] => (s, [])
  | i :: ins' =>
      let '(s1, t1) := loop_selecting sel i s in
      let '(s2, t2) := run_selecting sel ins' s1 in
      (s2, t1 ++ t2)
  end.

(** What the callbacks of the sketch select. *)
Definition sketch_selects : Selection :=
  fun c => match c with
           | onClick => Some true
           | onLongClick => Some false
           | _ => None
           end.

(** No callback that the trace [t] invokes selects a mode. *)
Definition selects_nothing (sel : Selection) (t : Trace) : Prop :=
  forall c, In c (calls t) -> sel c = None.

(** The pins of an encoder. *)
Definition pins (s : State) : Z * Z * Z := (_pinClk s, _pinData s, _pinButton s).

(* ================================================================== *)
(** * Properties *)

#[local] Arguments level : simpl never.
#[local] Arguments wsub : simpl never.
#[local] Arguments u8 : simpl never.
#[local] Arguments u16 : simpl never.
#[local] Arguments valid_at : simpl never.
#[local] Arguments Z.eqb : simpl never.
#[local] Arguments Z.ltb : simpl never.
#[local] Arguments Z.gtb : simpl never.
#[local] Arguments Z.land : simpl never.
#[local] Arguments Z.lor : simpl never.
#[local] Arguments Z.shiftl : simpl never.
#[local] Arguments Z.mul : simpl never.
#[local] Arguments Z.add : simpl never.
#[local] Arguments Z.sub : simpl never.
#[local] Arguments Z.modulo : simpl never.

(** Run the code symbolically: simplify, split on the next condition. *)
Ltac break_if :=
  repeat (cbn;
          match goal with
          | |- context [if ?c then _ else _] => destruct c eqn:?
          end);
  cbn.

Ltac solve_permitted :=
  repeat (apply Forall_cons; [cbn; auto|]); apply Forall_nil.

(** ** The validity table *)

(** C4 (as stated, refuted): the entry of a repeated pair, here index
    0b0101, is 0 and not 1. *)
Lemma validTransitions_repeat_invalid :
  valid_at (transition_index false true false true) = 0 /\
  valid_at (transition_index false true false true) <> 1.
Proof. split; [reflexivity | discriminate]. Qed.

(** C4 (amended): an entry of the validity table is 1 exactly when one of
    the two bits, clock or data, changes between the previous and the
    current pair; it is 0 when both flip and 0 when the pair repeats. *)
Theorem validTransitions_single_bit_change :
  forall pc pd c d : bool,
    valid_at (transition_index pc pd c d) =
    if xorb (xorb pc c) (xorb pd d) then 1 else 0.
Proof. intros [] [] [] []; reflexivity. Qed.

(** ** The looked-up index *)

Lemma land15 (x : Z) : Z.land x 15 = x mod 16.
Proof. change 15 with (Z.ones 4). rewrite Z.land_ones by lia. reflexivity. Qed.

(** The index as the code composes it. *)
Lemma looked_up_unfold (i : Input) (s : State) :
  looked_up i s =
  Z.land
    (let x := u8 (Z.shiftl (_newTransition s) 2) in
     let x := if in_clk i then Z.lor x 2 else x in
     if in_data i then Z.lor x 1 else x) 15.
Proof.
  unfold looked_up. destruct s; unfold _debounceRotaryByTable.
  break_if; reflexivity.
Qed.

(** The index of a poll is the previous pair followed by the sampled
    pair. *)
Lemma looked_up_formula (i : Input) (s : State) :
  looked_up i s =
  4 * (_newTransition s mod 4) + 2 * Z.b2z (in_clk i) + Z.b2z (in_data i).
Proof.
  rewrite looked_up_unfold. generalize (_newTransition s). intros nt.
  assert (H0 : Z.land (u8 (Z.shiftl nt 2)) 15 = 4 * (nt mod 4)).
  { rewrite land15. unfold u8. rewrite Z.shiftl_mul_pow2 by lia.
    change (2 ^ 2) with 4.
    rewrite Z.mod_mod_divide by (exists 16; reflexivity).
    change 16 with (4 * 4). rewrite (Z.mul_comm nt 4).
    rewrite Z.mul_mod_distr_l by lia. reflexivity. }
  assert (Hc : nt mod 4 = 0 \/ nt mod 4 = 1 \/ nt mod 4 = 2 \/ nt mod 4 = 3).
  { pose proof (Z.mod_pos_bound nt 4). lia. }
  destruct (in_clk i), (in_data i); cbv zeta;
    rewrite ?Z.land_lor_distr_l, H0;
    destruct Hc as [E|[E|[E|E]]]; rewrite E; reflexivity.
Qed.

Lemma looked_up_range (i : Input) (s : State) : 0 <= looked_up i s < 16.
Proof.
  rewrite looked_up_formula.
  pose proof (Z.mod_pos_bound (_newTransition s) 4).
  destruct (in_clk i), (in_data i); cbn [Z.b2z]; lia.
Qed.

(** The table debouncer in terms of the looked-up index. *)
Lemma table_poll (i : Input) (s : State) :
  _debounceRotaryByTable i s =
  let k := looked_up i s in
  let t := [DigitalRead (_pinClk s); DigitalRead (_pinData s)] in
  if valid_at k =? 0 then (set_newTransition k s, t)
  else
    let h := Z.lor (u16 (Z.shiftl (_transitions s) 4)) k in
    (set_transitions h (set_newTransition k s),
     (if Z.land h 255 =? 43
      then (if Z.land h 255 =? 23 then t ++ [Call onCW] else t) ++ [Call onCCW]
      else (if Z.land h 255 =? 23 then t ++ [Call onCW] else t))).
Proof.
  rewrite looked_up_unfold.
  destruct s; unfold _debounceRotaryByTable.
  cbn [set_newTransition _newTransition _transitions _pinClk _pinData].
  cbv zeta.
  match goal with
  | |- context [valid_at ?k =? 0] => generalize k
  end.
  intros k.
  destruct (valid_at k =? 0) eqn:E; cbn [negb]; [reflexivity|].
  break_if; try reflexivity; congruence.
Qed.

(** ** The table debouncer: polls with an invalid index *)

(** C5 (as stated, refuted): the first poll of a freshly constructed
    encoder at rest (clock and data high) looks up index 0b0011, which is
    invalid, and yet changes [_newTransition] from 0 to 3. *)
Lemma table_invalid_poll_changes_newTransition :
  let s := RotaryEncoder3 27 26 25 zeroed in
  let i := mkInput true true true 0 0 0 in
  valid_at (looked_up i s) = 0 /\
  _newTransition s = 0 /\
  _newTransition (fst (_debounceRotaryByTable i s)) = 3 /\
  fst (_debounceRotaryByTable i s) <> s.
Proof.
  cbv zeta. repeat split. intro H.
  apply (f_equal _newTransition) in H. discriminate H.
Qed.

(** C5 (amended): a table-mode poll whose looked-up index is invalid
    stores that index in [_newTransition] and changes no other member, in
    particular not the history [_transitions]; it reads the two pins and
    invokes no callback. *)
Theorem table_invalid_poll_frame :
  forall (i : Input) (s : State),
    valid_at (looked_up i s) = 0 ->
    _debounceRotaryByTable i s =
      (set_newTransition (looked_up i s) s,
       [DigitalRead (_pinClk s); DigitalRead (_pinData s)]) /\
    _transitions (fst (_debounceRotaryByTable i s)) = _transitions s /\
    calls (snd (_debounceRotaryByTable i s)) = [].
Proof.
  intros i s. unfold looked_up.
  destruct s; unfold _debounceRotaryByTable; cbn [set_newTransition
    _newTransition _transitions _pinClk _pinData].
  match goal with
  | |- context [valid_at ?k =? 0] => generalize k
  end.
  intros idx. destruct (valid_at idx =? 0) eqn:E; cbn [negb].
  - intros _. cbn. repeat split.
  - cbn [fst set_transitions _newTransition]. intros H.
    rewrite H in E. discriminate E.
Qed.

(** The first poll of an encoder at rest: index 0b0011. *)
Lemma table_invalid_poll_frame_witness :
  let s := RotaryEncoder3 27 26 25 zeroed in
  let i := mkInput true true true 0 0 0 in
  valid_at (looked_up i s) = 0 /\
  _transitions (fst (_debounceRotaryByTable i s)) = _transitions s.
Proof.
  cbv zeta. split; [reflexivity|].
  apply (table_invalid_poll_frame (mkInput true true true 0 0 0)
           (RotaryEncoder3 27 26 25 zeroed)).
  reflexivity.
Defined.

(** ** Pin writes *)

Lemma Forall_permitted_app (b : bool) (t1 t2 : Trace) :
  Forall (permitted b) t1 -> Forall (permitted b) t2 ->
  Forall (permitted b) (t1 ++ t2).
Proof. intros H1 H2. apply Forall_app. split; assumption. Qed.

Lemma button_trace_no_write (i : Input) (s : State) (b : bool) :
  Forall (permitted b) (snd (_debounceButton i s)) /\
  writes (snd (_debounceButton i s)) = [].
Proof.
  destruct s; unfold _debounceButton.
  break_if; split; try reflexivity; solve_permitted.
Qed.

Lemma table_trace_no_write (i : Input) (s : State) (b : bool) :
  Forall (permitted b) (snd (_debounceRotaryByTable i s)) /\
  writes (snd (_debounceRotaryByTable i s)) = [].
Proof.
  destruct s; unfold _debounceRotaryByTable.
  break_if; split; try reflexivity; solve_permitted.
Qed.

Lemma cleaning_trace_writes (i : Input) (s : State) :
  Forall (permitted false) (snd (_debounceRotaryByCleaning i s)) /\
  writes (snd (_debounceRotaryByCleaning i s)) = cleaning_writes i s.
Proof.
  destruct s; unfold _debounceRotaryByCleaning, cleaning_writes.
  break_if; split; try reflexivity; solve_permitted.
Qed.

Lemma button_keeps_mode (i : Input) (s : State) :
  _debouncingRotEncByTable (fst (_debounceButton i s)) =
  _debouncingRotEncByTable s.
Proof.
  destruct s; unfold _debounceButton. break_if; reflexivity.
Qed.

Lemma button_keeps_prevClk (i : Input) (s : State) :
  _prevClkState (fst (_debounceButton i s)) = _prevClkState s /\
  _prevDataState (fst (_debounceButton i s)) = _prevDataState s.
Proof.
  destruct s; unfold _debounceButton. break_if; split; reflexivity.
Qed.

Lemma writes_app (t1 t2 : Trace) : writes (t1 ++ t2) = writes t1 ++ writes t2.
Proof. apply filter_app. Qed.

(** C7 (as stated, refuted): the first poll in cleaning mode of a freshly
    constructed encoder at rest writes the cleaned clock level to GPIO 2
    (and the cleaned data level to GPIO 4). *)
Lemma cleaning_poll_writes_gpio :
  let s := setDebouncingRotEncByTable false (RotaryEncoder3 27 26 25 zeroed) in
  let i := mkInput true true true 0 0 0 in
  In (DigitalWrite GPIO_NUM_2 HIGH) (snd (loop i s)) /\
  writes (snd (loop i s)) =
    [DigitalWrite GPIO_NUM_2 HIGH; DigitalWrite GPIO_NUM_4 HIGH].
Proof. cbv zeta. split; [vm_compute; tauto | reflexivity]. Qed.

(** C7 (amended): a poll performs nothing but pin reads, clock reads and
    callback invocations, except that in cleaning mode it writes the
    cleaned clock level to GPIO 2 when the raw clock level changed and the
    cleaned data level to GPIO 4 when the raw data level changed.  In
    table mode it writes to no pin. *)
Theorem loop_pin_writes :
  forall (i : Input) (s : State),
    Forall (permitted (_debouncingRotEncByTable s)) (snd (loop i s)) /\
    writes (snd (loop i s)) =
      if _debouncingRotEncByTable s then [] else cleaning_writes i s.
Proof.
  intros i s. unfold loop.
  pose proof (button_keeps_mode i s) as Hm.
  pose proof (button_keeps_prevClk i s) as [Hc Hd].
  pose proof (button_trace_no_write i s (_debouncingRotEncByTable s))
    as [Hb Hbw].
  destruct (_debounceButton i s) as [s1 t1]. cbn [fst snd] in *.
  rewrite Hm.
  destruct (_debouncingRotEncByTable s).
  - pose proof (table_trace_no_write i s1 true) as [Ht Htw].
    destruct (_debounceRotaryByTable i s1) as [s2 t2]. cbn [fst snd] in *.
    split; [apply Forall_permitted_app; assumption|].
    rewrite writes_app, Hbw, Htw. reflexivity.
  - pose proof (cleaning_trace_writes i s1) as [Ht Htw].
    destruct (_debounceRotaryByCleaning i s1) as [s2 t2]. cbn [fst snd] in *.
    split; [apply Forall_permitted_app; assumption|].
    rewrite writes_app, Hbw, Htw. unfold cleaning_writes.
    rewrite Hc, Hd. reflexivity.
Qed.

(** ** The cleaning debouncer: events per poll *)

(** The two direction conditions of the cleaning debouncer exclude each
    other: clockwise needs the cleaned clock high, counter-clockwise needs
    it low. *)
Lemma cleaning_directions_exclusive (i : Input) (s : State) :
  In (Call onCW) (snd (_debounceRotaryByCleaning i s)) ->
  In (Call onCCW) (snd (_debounceRotaryByCleaning i s)) -> False.
Proof.
  destruct s; unfold _debounceRotaryByCleaning.
  break_if; intros Hcw Hccw;
    repeat match goal with
           | H : _ \/ _ |- _ => destruct H
           | H : False |- _ => destruct H
           | H : _ = _ :> Action |- _ => discriminate H
           end;
    repeat match goal with
           | H : _ && _ = true |- _ => apply andb_true_iff in H; destruct H
           | H : (_ =? _) = true |- _ => apply Z.eqb_eq in H
           end;
    unfold HIGH, LOW in *; congruence.
Qed.

(** C8 (as stated, refuted): no state and no input make the cleaning
    debouncer invoke both the clockwise and the counter-clockwise callback
    in one poll. *)
Lemma cleaning_never_both_directions :
  ~ exists (i : Input) (s : State),
      In (Call onCW) (snd (_debounceRotaryByCleaning i s)) /\
      In (Call onCCW) (snd (_debounceRotaryByCleaning i s)).
Proof.
  intros (i & s & Hcw & Hccw).
  exact (cleaning_directions_exclusive i s Hcw Hccw).
Qed.

(** C8 (amended): in one poll the cleaning debouncer invokes the clockwise
    callback at most once and the counter-clockwise callback at most once,
    and never both: a poll delivers at most one rotation event. *)
Theorem cleaning_at_most_one_rotation_event :
  forall (i : Input) (s : State),
    let t := snd (_debounceRotaryByCleaning i s) in
    (count_call onCW t <= 1)%nat /\
    (count_call onCCW t <= 1)%nat /\
    (count_call onCW t + count_call onCCW t <= 1)%nat.
Proof.
  intros i s. cbv zeta.
  pose proof (cleaning_directions_exclusive i s) as Hex. revert Hex.
  destruct s; unfold _debounceRotaryByCleaning.
  break_if; intros Hex; try lia;
    exfalso; apply Hex; cbn; tauto.
Qed.

(** ** Independence of the three machines *)

Lemma calls_app (t1 t2 : Trace) : calls (t1 ++ t2) = calls t1 ++ calls t2.
Proof. apply flat_map_app. Qed.

Lemma button_calls_app (t1 t2 : Trace) :
  button_calls (t1 ++ t2) = button_calls t1 ++ button_calls t2.
Proof. unfold button_calls. rewrite calls_app. apply filter_app. Qed.

Lemma rotary_calls_app (t1 t2 : Trace) :
  rotary_calls (t1 ++ t2) = rotary_calls t1 ++ rotary_calls t2.
Proof. unfold rotary_calls. rewrite calls_app. apply filter_app. Qed.

(** The button classifier touches only its own members and invokes no
    rotation callback. *)
Lemma button_frame (i : Input) (s : State) :
  table_members (fst (_debounceButton i s)) = table_members s /\
  cleaning_members (fst (_debounceButton i s)) = cleaning_members s /\
  config_members (fst (_debounceButton i s)) = config_members s /\
  rotary_calls (snd (_debounceButton i s)) = [].
Proof.
  destruct s; unfold _debounceButton. break_if; repeat split.
Qed.

(** The table debouncer touches only its own members and invokes no button
    callback. *)
Lemma table_frame (i : Input) (s : State) :
  button_members (fst (_debounceRotaryByTable i s)) = button_members s /\
  cleaning_members (fst (_debounceRotaryByTable i s)) = cleaning_members s /\
  config_members (fst (_debounceRotaryByTable i s)) = config_members s /\
  button_calls (snd (_debounceRotaryByTable i s)) = [].
Proof.
  destruct s; unfold _debounceRotaryByTable. break_if; repeat split.
Qed.

(** The cleaning debouncer touches only its own members and invokes no
    button callback. *)
Lemma cleaning_frame (i : Input) (s : State) :
  button_members (fst (_debounceRotaryByCleaning i s)) = button_members s /\
  table_members (fst (_debounceRotaryByCleaning i s)) = table_members s /\
  config_members (fst (_debounceRotaryByCleaning i s)) = config_members s /\
  button_calls (snd (_debounceRotaryByCleaning i s)) = [].
Proof.
  destruct s; unfold _debounceRotaryByCleaning. break_if; repeat split.
Qed.

(** The button side of a poll is the button classifier's. *)
Lemma loop_button (i : Input) (s : State) :
  button_members (fst (loop i s)) = button_members (fst (_debounceButton i s)) /\
  button_calls (snd (loop i s)) = button_calls (snd (_debounceButton i s)) /\
  config_members (fst (loop i s)) = config_members s.
Proof.
  unfold loop.
  pose proof (button_frame i s) as (_ & _ & Hg & _).
  destruct (_debounceButton i s) as [s1 t1]. cbn [fst snd] in *.
  pose proof (table_frame i s1) as (Hb1 & _ & Hg1 & Hc1).
  pose proof (cleaning_frame i s1) as (Hb2 & _ & Hg2 & Hc2).
  destruct (_debouncingRotEncByTable s1).
  - destruct (_debounceRotaryByTable i s1) as [s2 t2]. cbn [fst snd] in *.
    rewrite button_calls_app, Hc1, app_nil_r. repeat split; congruence.
  - destruct (_debounceRotaryByCleaning i s1) as [s2 t2]. cbn [fst snd] in *.
    rewrite button_calls_app, Hc2, app_nil_r. repeat split; congruence.
Qed.

Lemma loop_keeps_mode (i : Input) (s : State) :
  _debouncingRotEncByTable (fst (loop i s)) = _debouncingRotEncByTable s.
Proof.
  pose proof (loop_button i s) as (_ & _ & H).
  unfold config_members in H. congruence.
Qed.

(** The rotary side of a poll is the selected debouncer's, started from
    the state the button classifier leaves. *)
Lemma loop_rotary (i : Input) (s : State) :
  let s1 := fst (_debounceButton i s) in
  let r := if _debouncingRotEncByTable s
           then _debounceRotaryByTable i s1
           else _debounceRotaryByCleaning i s1 in
  fst (loop i s) = fst r /\
  rotary_calls (snd (loop i s)) = rotary_calls (snd r).
Proof.
  cbv zeta. unfold loop.
  pose proof (button_frame i s) as (_ & _ & Hg & Hr).
  destruct (_debounceButton i s) as [s1 t1]. cbn [fst snd] in *.
  assert (Hm : _debouncingRotEncByTable s1 = _debouncingRotEncByTable s)
    by (unfold config_members in Hg; congruence).
  rewrite Hm.
  destruct (_debouncingRotEncByTable s).
  - destruct (_debounceRotaryByTable i s1) as [s2 t2]. cbn [fst snd].
    rewrite rotary_calls_app, Hr. split; reflexivity.
  - destruct (_debounceRotaryByCleaning i s1) as [s2 t2]. cbn [fst snd].
    rewrite rotary_calls_app, Hr. split; reflexivity.
Qed.

(** ** The button classifier, one poll at a time *)

Ltac thresholds :=
  unfold _msDebounce, _msLongClick, _msDoubleClickGap, HIGH, LOW in *.

(** Decide the conditions of the code from the hypotheses. *)
Ltac decide_cond :=
  repeat match goal with
         | |- context [?a >? ?b] => rewrite (Z.gtb_ltb a b)
         | |- context [?a <? ?b] =>
             first [ rewrite (proj2 (Z.ltb_lt a b)) by lia
                   | rewrite (proj2 (Z.ltb_ge a b)) by lia ]
         | |- context [?a =? ?b] =>
             first [ rewrite (proj2 (Z.eqb_eq a b)) by lia
                   | rewrite (proj2 (Z.eqb_neq a b)) by lia ]
         end.

(** A press edge records the press time. *)
Lemma button_press (i : Input) (s : State) :
  _buttonState s = HIGH -> in_button i = false ->
  button_members (fst (_debounceButton i s)) =
    (LOW, HIGH, _clickCount s, in_millis1 i, _msFirstClick s) /\
  calls (snd (_debounceButton i s)) = [].
Proof.
  destruct s; cbn. intros -> Hi. unfold _debounceButton. rewrite Hi.
  unfold level. thresholds. cbn. decide_cond. cbn. split; reflexivity.
Qed.

(** A release edge sooner than the debounce window is ignored. *)
Lemma button_release_bounce (i : Input) (s : State) :
  _buttonState s = LOW -> in_button i = true ->
  wsub (in_millis1 i) (_msButtonDown s) < _msDebounce ->
  button_members (fst (_debounceButton i s)) =
    (HIGH, LOW, _clickCount s, _msButtonDown s, _msFirstClick s) /\
  calls (snd (_debounceButton i s)) = [].
Proof.
  destruct s; cbn. intros -> Hi H. unfold _debounceButton. rewrite Hi.
  unfold level. thresholds. cbn. decide_cond. cbn. split; reflexivity.
Qed.

(** A release edge after more than the long-click threshold. *)
Lemma button_release_long (i : Input) (s : State) :
  _buttonState s = LOW -> in_button i = true ->
  _msDebounce <= wsub (in_millis1 i) (_msButtonDown s) ->
  _msLongClick < wsub (in_millis2 i) (_msButtonDown s) ->
  button_members (fst (_debounceButton i s)) =
    (HIGH, LOW, _clickCount s, _msButtonDown s, _msFirstClick s) /\
  calls (snd (_debounceButton i s)) = [onLongClick].
Proof.
  destruct s; cbn. intros -> Hi H1 H2. unfold _debounceButton. rewrite Hi.
  unfold level. thresholds. cbn. decide_cond. cbn. split; reflexivity.
Qed.

(** A release edge in the click window counts one click; the first click
    of an accumulation records its time. *)
Lemma button_release_click (i : Input) (s : State) :
  _buttonState s = LOW -> in_button i = true ->
  _msDebounce <= wsub (in_millis1 i) (_msButtonDown s) ->
  wsub (in_millis2 i) (_msButtonDown s) <= _msLongClick ->
  button_members (fst (_debounceButton i s)) =
    (HIGH, LOW, u8 (_clickCount s + 1), _msButtonDown s,
     if u8 (_clickCount s + 1) =? 1 then in_millis3 i else _msFirstClick s) /\
  calls (snd (_debounceButton i s)) = [].
Proof.
  destruct s; cbn. intros -> Hi H1 H2. unfold _debounceButton. rewrite Hi.
  unfold level. thresholds. cbn. decide_cond. cbn.
  destruct (u8 (_clickCount0 + 1) =? 1); cbn; split; reflexivity.
Qed.

(** A poll that samples the level of the previous poll, pressed or
    released, runs the last branch: it consumes the accumulator or does
    nothing. *)
Lemma button_unchanged (i : Input) (s : State) :
  _buttonState s = level (in_button i) ->
  let fire1 := (_clickCount s =? 1) &&
               (wsub (in_millis1 i) (_msFirstClick s) >? _msDoubleClickGap) in
  let fire2 := negb fire1 && (_clickCount s >? 1) in
  button_members (fst (_debounceButton i s)) =
    (_buttonState s, _buttonState s,
     (if fire1 || fire2 then 0 else _clickCount s),
     _msButtonDown s,
     (if fire1 || fire2 then 0 else _msFirstClick s)) /\
  calls (snd (_debounceButton i s)) =
    (if fire1 then [onClick] else if fire2 then [onDoubleClick] else []).
Proof.
  destruct s; cbn. intros ->. unfold _debounceButton.
  destruct (in_button i); unfold level; thresholds; cbn;
    change (1 =? 0) with false; change (0 =? 1) with false;
    change (1 =? 1) with true; change (0 =? 0) with true; cbn.
  all: destruct (_clickCount0 =? 1) eqn:E1; cbn.
  all: try (destruct (wsub (in_millis1 i) _msFirstClick0 >? 250); cbn;
            try (split; reflexivity)).
  all: try (apply Z.eqb_eq in E1; subst; cbn; split; reflexivity).
  all: destruct (_clickCount0 >? 1); cbn; split; reflexivity.
Qed.

Lemma button_calls_of_calls (t : Trace) (l : list Callback) :
  calls t = l -> button_calls t = filter (fun c => negb (is_rotary c)) l.
Proof. intros <-. reflexivity. Qed.

(** ** Long click *)

(** C2 (as stated, refuted): a click of 100 ms leaves one pending click
    recorded at time 100; the button is pressed again at 150 and released
    at 460.  The poll that sees the release, 310 ms after the press,
    invokes the long-click callback and leaves [_clickCount] at 1 and
    [_msFirstClick] at 100. *)
Lemma long_click_keeps_accumulator :
  let s := fst (run [poll_at 0 false true true;
                     poll_at 100 true true true;
                     poll_at 150 false true true]
                    (RotaryEncoder3 27 26 25 zeroed)) in
  let i := poll_at 460 true true true in
  (_buttonState s = LOW /\ in_button i = true /\
   wsub (in_millis1 i) (_msButtonDown s) = 310 /\
   wsub (in_millis2 i) (_msButtonDown s) = 310) /\
  button_calls (snd (loop i s)) = [onLongClick] /\
  _clickCount (fst (loop i s)) = 1 /\
  _msFirstClick (fst (loop i s)) = 100 /\
  ~ (_clickCount (fst (loop i s)) = 0 /\ _msFirstClick (fst (loop i s)) = 0).
Proof.
  cbv zeta. repeat split; try reflexivity.
  intros [H _]. vm_compute in H. discriminate H.
Qed.

(** C2 (amended): a poll that sees a release edge at least the 50 ms
    debounce window and strictly more than the 300 ms long-click threshold
    after the press invokes the long-click callback and no other button
    callback; it leaves [_clickCount] and [_msFirstClick] as they are. *)
Theorem long_click_on_release :
  forall (i : Input) (s : State),
    _buttonState s = LOW -> in_button i = true ->
    _msDebounce <= wsub (in_millis1 i) (_msButtonDown s) ->
    _msLongClick < wsub (in_millis2 i) (_msButtonDown s) ->
    button_calls (snd (loop i s)) = [onLongClick] /\
    _clickCount (fst (loop i s)) = _clickCount s /\
    _msFirstClick (fst (loop i s)) = _msFirstClick s.
Proof.
  intros i s Hs Hi H1 H2.
  pose proof (loop_button i s) as (Hm & Hc & _).
  pose proof (button_release_long i s Hs Hi H1 H2) as (Hm' & Hc').
  rewrite Hm' in Hm. rewrite Hc, (button_calls_of_calls _ _ Hc').
  unfold button_members in Hm. injection Hm as _ _ Hn _ Hf.
  repeat split; assumption.
Qed.

(** A release 310 ms after the press, with one click pending. *)
Lemma long_click_on_release_witness :
  let s := fst (run [poll_at 0 false true true;
                     poll_at 100 true true true;
                     poll_at 150 false true true]
                    (RotaryEncoder3 27 26 25 zeroed)) in
  let i := poll_at 460 true true true in
  (_buttonState s = LOW /\ in_button i = true /\
   _msDebounce <= wsub (in_millis1 i) (_msButtonDown s) /\
   _msLongClick < wsub (in_millis2 i) (_msButtonDown s)) /\
  button_calls (snd (loop i s)) = [onLongClick] /\
  _clickCount (fst (loop i s)) = _clickCount s /\
  _msFirstClick (fst (loop i s)) = _msFirstClick s.
Proof.
  cbv zeta.
  assert (H1 : _msDebounce <= 310) by (vm_compute; discriminate).
  assert (H2 : _msLongClick < 310) by reflexivity.
  split; [repeat split; assumption|].
  apply long_click_on_release.
  - reflexivity.
  - reflexivity.
  - exact H1.
  - exact H2.
Defined.

(** ** Pending click while the button is held *)

(** C10: a poll that samples the same button level as the poll before it,
    pressed or released, takes the last branch of the classifier: it
    records no press time, and if one click is pending and more than the
    250 ms double-click gap has passed since [_msFirstClick], it invokes
    the click callback in this very poll and clears the accumulator. *)
Theorem pending_click_fires_on_unchanged_level :
  forall (i : Input) (s : State),
    _buttonState s = level (in_button i) ->
    _clickCount s = 1 ->
    _msDoubleClickGap < wsub (in_millis1 i) (_msFirstClick s) ->
    button_calls (snd (loop i s)) = [onClick] /\
    _clickCount (fst (loop i s)) = 0 /\
    _msFirstClick (fst (loop i s)) = 0 /\
    _msButtonDown (fst (loop i s)) = _msButtonDown s /\
    _buttonState (fst (loop i s)) = _buttonState s.
Proof.
  intros i s Hs Hn Hgap.
  pose proof (loop_button i s) as (Hm & Hc & _).
  pose proof (button_unchanged i s Hs) as (Hm' & Hc'). cbv zeta in *.
  assert (Hf : (_clickCount s =? 1) &&
               (wsub (in_millis1 i) (_msFirstClick s) >? _msDoubleClickGap)
               = true).
  { rewrite Hn, Z.gtb_ltb. apply andb_true_iff. split; [reflexivity|].
    apply Z.ltb_lt. exact Hgap. }
  rewrite Hf in Hm', Hc'. cbn in Hm', Hc'.
  rewrite Hm' in Hm. rewrite Hc, (button_calls_of_calls _ _ Hc').
  unfold button_members in Hm. injection Hm as Hb _ Hk Hd Hfc.
  repeat split; assumption.
Qed.

(** The instance of the claim: the button is held pressed (sampled level
    low) with one click pending since time 100; the poll at time 360,
    during the hold, delivers the click. *)
Lemma pending_click_fires_on_unchanged_level_witness :
  let s := fst (run [poll_at 0 false true true;
                     poll_at 100 true true true;
                     poll_at 200 false true true]
                    (RotaryEncoder3 27 26 25 zeroed)) in
  let i := poll_at 360 false true true in
  (_buttonState s = LOW /\ in_button i = false /\ _clickCount s = 1 /\
   _msDoubleClickGap < wsub (in_millis1 i) (_msFirstClick s)) /\
  button_calls (snd (loop i s)) = [onClick] /\
  _clickCount (fst (loop i s)) = 0 /\
  _msFirstClick (fst (loop i s)) = 0 /\
  _msButtonDown (fst (loop i s)) = _msButtonDown s /\
  _buttonState (fst (loop i s)) = _buttonState s.
Proof.
  cbv zeta. split; [repeat split|].
  apply pending_click_fires_on_unchanged_level.
  - reflexivity.
  - reflexivity.
  - reflexivity.
Defined.

(** ** Polls at unchanged levels *)

Lemma button_stores_level (i : Input) (s : State) :
  _buttonState (fst (_debounceButton i s)) = level (in_button i).
Proof. destruct s; unfold _debounceButton. break_if; reflexivity. Qed.

Lemma cleaning_polled (i : Input) (s : State) :
  let s' := fst (_debounceRotaryByCleaning i s) in
  _clkState s' = level (in_clk i) /\
  _prevClkState s' = level (in_clk i) /\
  _dataState s' = level (in_data i) /\
  _prevDataState s' = level (in_data i) /\
  _prevCleanedClkState s' = _cleanedClkState s' /\
  _prevCleanedDataState s' = _cleanedDataState s'.
Proof.
  destruct s; unfold _debounceRotaryByCleaning.
  break_if; repeat split;
    repeat match goal with
           | H : negb (_ =? _) = false |- _ =>
               apply negb_false_iff, Z.eqb_eq in H
           end; congruence.
Qed.

(** Every poll leaves a state that is [polled] at its input. *)
Lemma loop_polled (i : Input) (s : State) : polled i (fst (loop i s)).
Proof.
  unfold polled. rewrite loop_keeps_mode. split.
  - pose proof (loop_button i s) as (Hm & _ & _).
    unfold button_members in Hm. injection Hm as Hb _ _ _ _.
    rewrite Hb. apply button_stores_level.
  - pose proof (loop_rotary i s) as (Hs & _). cbv zeta in Hs. rewrite Hs.
    destruct (_debouncingRotEncByTable s).
    + change (_newTransition (fst (_debounceRotaryByTable i
                (fst (_debounceButton i s)))))
        with (looked_up i (fst (_debounceButton i s))).
      rewrite looked_up_formula.
      generalize (_newTransition (fst (_debounceButton i s)) mod 4).
      intros m.
      match goal with
      | |- (4 * m + ?a + ?b) mod 4 = _ =>
          replace (4 * m + a + b) with (a + b + m * 4) by lia
      end.
      rewrite Z.mod_add by lia.
      destruct (in_clk i), (in_data i); reflexivity.
    + apply cleaning_polled.
Qed.

(** A table poll at the pair of the previous poll looks up a repeat, which
    is invalid: only the packed index moves. *)
Lemma table_poll_repeat (i : Input) (s : State) :
  _newTransition s mod 4 = 2 * Z.b2z (in_clk i) + Z.b2z (in_data i) ->
  _debounceRotaryByTable i s =
    (set_newTransition (5 * (_newTransition s mod 4)) s,
     [DigitalRead (_pinClk s); DigitalRead (_pinData s)]).
Proof.
  intros H. rewrite table_poll. cbv zeta. rewrite looked_up_formula, H.
  destruct (in_clk i), (in_data i); reflexivity.
Qed.

(** A cleaning poll at the levels of the previous poll changes nothing. *)
Lemma cleaning_poll_repeat (i : Input) (s : State) :
  _clkState s = level (in_clk i) ->
  _prevClkState s = level (in_clk i) ->
  _dataState s = level (in_data i) ->
  _prevDataState s = level (in_data i) ->
  _prevCleanedClkState s = _cleanedClkState s ->
  _prevCleanedDataState s = _cleanedDataState s ->
  _debounceRotaryByCleaning i s =
    (s, [DigitalRead (_pinClk s); DigitalRead (_pinData s)]).
Proof.
  destruct s; cbn. intros -> -> -> -> -> ->.
  unfold _debounceRotaryByCleaning.
  repeat (cbn; rewrite ?Z.eqb_refl).
  break_if; try reflexivity; exfalso;
    repeat match goal with
           | H : _ && _ = true |- _ => apply andb_true_iff in H; destruct H
           | H : (_ =? _) = true |- _ => apply Z.eqb_eq in H
           end;
    unfold HIGH, LOW in *; congruence.
Qed.

(** The button classifier at an unchanged level, as a state. *)
Lemma button_poll_unchanged (i : Input) (s : State) :
  _buttonState s = level (in_button i) ->
  (fst (_debounceButton i s) = set_prevButtonState (_buttonState s) s /\
   calls (snd (_debounceButton i s)) = []) \/
  (fst (_debounceButton i s) =
     accumulator_cleared (set_prevButtonState (_buttonState s) s) /\
   (calls (snd (_debounceButton i s)) = [onClick] \/
    calls (snd (_debounceButton i s)) = [onDoubleClick])).
Proof.
  destruct s; cbn. intros ->. unfold _debounceButton, accumulator_cleared.
  destruct (in_button i); unfold level, HIGH, LOW; cbn;
    change (1 =? 0) with false; change (0 =? 1) with false;
    change (1 =? 1) with true; change (0 =? 0) with true; cbn.
  all: break_if; auto.
Qed.

Lemma caught_up_idempotent (s : State) : caught_up (caught_up s) = caught_up s.
Proof.
  destruct s; unfold caught_up; cbn.
  destruct _debouncingRotEncByTable0; cbn; [|reflexivity].
  pose proof (Z.mod_pos_bound _newTransition0 4).
  replace ((5 * (_newTransition0 mod 4)) mod 4) with (_newTransition0 mod 4);
    [reflexivity|].
  replace (5 * (_newTransition0 mod 4))
    with (_newTransition0 mod 4 + (_newTransition0 mod 4) * 4) by lia.
  rewrite Z.mod_add by lia. rewrite Z.mod_mod by lia. reflexivity.
Qed.

Lemma caught_up_cleared (s : State) :
  caught_up (accumulator_cleared s) = accumulator_cleared (caught_up s).
Proof.
  destruct s; unfold caught_up, accumulator_cleared; cbn.
  destruct _debouncingRotEncByTable0; reflexivity.
Qed.

(** A poll at the levels of the poll before it: the edge memories catch
    up, the accumulator may be consumed, nothing else happens. *)
Lemma loop_repeat (i1 i2 : Input) (s : State) :
  polled i1 s -> same_levels i1 i2 ->
  rotary_calls (snd (loop i2 s)) = [] /\
  ((fst (loop i2 s) = caught_up s /\ button_calls (snd (loop i2 s)) = []) \/
   (fst (loop i2 s) = accumulator_cleared (caught_up s) /\
    (button_calls (snd (loop i2 s)) = [onClick] \/
     button_calls (snd (loop i2 s)) = [onDoubleClick]))).
Proof.
  intros [Hb Hr] (Eb & Ec & Ed). rewrite Eb in Hb. rewrite Ec, Ed in Hr.
  pose proof (loop_rotary i2 s) as (Hs & Hrc).
  pose proof (loop_button i2 s) as (_ & Hbc & _).
  cbv zeta in Hs, Hrc. rewrite Hs, Hrc, Hbc. clear Hs Hrc Hbc.
  pose proof (button_poll_unchanged i2 s Hb) as Hcase.
  assert (Hrot :
    forall s1,
      s1 = set_prevButtonState (_buttonState s) s \/
      s1 = accumulator_cleared (set_prevButtonState (_buttonState s) s) ->
      (if _debouncingRotEncByTable s
       then _debounceRotaryByTable i2 s1
       else _debounceRotaryByCleaning i2 s1) =
      ((if _debouncingRotEncByTable s
        then set_newTransition (5 * (_newTransition s mod 4)) s1 else s1),
       [DigitalRead (_pinClk s); DigitalRead (_pinData s)])).
  { intros s1 Hs1.
    destruct (_debouncingRotEncByTable s) eqn:Em.
    - rewrite table_poll_repeat;
        destruct Hs1; subst s1; destruct s; cbn in *; auto.
    - destruct Hr as (H1 & H2 & H3 & H4 & H5 & H6).
      rewrite cleaning_poll_repeat;
        destruct Hs1; subst s1; destruct s; cbn in *; auto. }
  destruct Hcase as [[Hs1 Hc1] | [Hs1 Hc1]].
  - rewrite (Hrot _ (or_introl Hs1)). cbn [fst snd]. split; [reflexivity|].
    left. rewrite Hs1, (button_calls_of_calls _ _ Hc1). split; [|reflexivity].
    destruct s; unfold caught_up; cbn.
    destruct _debouncingRotEncByTable0; reflexivity.
  - rewrite (Hrot _ (or_intror Hs1)). cbn [fst snd]. split; [reflexivity|].
    right. rewrite Hs1. split.
    + destruct s; unfold caught_up, accumulator_cleared; cbn.
      destruct _debouncingRotEncByTable0; reflexivity.
    + destruct Hc1 as [Hc1|Hc1]; rewrite (button_calls_of_calls _ _ Hc1);
        [left|right]; reflexivity.
Qed.

(** C9 (as stated, refuted): a freshly constructed encoder at rest is
    polled twice at the same levels and the same time.  The second poll
    invokes no callback, so it is no gap-timeout transition, and yet it
    changes the state: [_newTransition] goes from 0b0011 to 0b1111 (and
    [_prevButtonState] catches up with [_buttonState]). *)
Lemma repeated_poll_changes_newTransition :
  let i := poll_at 0 true true true in
  let s1 := fst (loop i (RotaryEncoder3 27 26 25 zeroed)) in
  same_levels i i /\
  calls (snd (loop i s1)) = [] /\
  _newTransition s1 = 3 /\
  _newTransition (fst (loop i s1)) = 15 /\
  fst (loop i s1) <> s1.
Proof.
  cbv zeta. repeat split. intros H.
  apply (f_equal _newTransition) in H. vm_compute in H. discriminate H.
Qed.

(** C9 (amended): when a poll samples the same clock, data and button
    levels as the poll before it, in either debouncing mode, it invokes no
    rotation callback and changes nothing but (a) the edge memories
    [_prevButtonState] and, in table mode, [_newTransition], which catch
    up with the repeated levels, and (b) the click accumulator, which is
    cleared if and only if the poll delivers a pending Click or
    DoubleClick.  From the second such poll on the edge memories have
    caught up, and a poll changes nothing at all unless it delivers a
    pending Click or DoubleClick and clears the accumulator. *)
Theorem repeated_polls_settle :
  forall (i1 i2 i3 : Input) (s0 : State),
    same_levels i1 i2 -> same_levels i2 i3 ->
    let s1 := fst (loop i1 s0) in
    let s2 := fst (loop i2 s1) in
    let t2 := snd (loop i2 s1) in
    let s3 := fst (loop i3 s2) in
    let t3 := snd (loop i3 s2) in
    (rotary_calls t2 = [] /\
     ((s2 = caught_up s1 /\ button_calls t2 = []) \/
      (s2 = accumulator_cleared (caught_up s1) /\
       (button_calls t2 = [onClick] \/ button_calls t2 = [onDoubleClick]))))
    /\
    (rotary_calls t3 = [] /\
     ((s3 = s2 /\ button_calls t3 = []) \/
      (s3 = accumulator_cleared s2 /\
       (button_calls t3 = [onClick] \/ button_calls t3 = [onDoubleClick])))).
Proof.
  intros i1 i2 i3 s0 H12 H23. cbv zeta.
  pose proof (loop_repeat i1 i2 _ (loop_polled i1 s0) H12) as H2.
  pose proof (loop_repeat i2 i3 _ (loop_polled i2 (fst (loop i1 s0))) H23)
    as H3.
  split; [exact H2|].
  assert (Hfix : caught_up (fst (loop i2 (fst (loop i1 s0)))) =
                 fst (loop i2 (fst (loop i1 s0)))).
  { destruct H2 as (_ & [[E _] | [E _]]); rewrite E.
    - apply caught_up_idempotent.
    - rewrite caught_up_cleared, caught_up_idempotent. reflexivity. }
  rewrite Hfix in H3. exact H3.
Qed.

(** Three polls of an encoder at rest. *)
Lemma repeated_polls_settle_witness :
  let i := poll_at 0 true true true in
  let s1 := fst (loop i (RotaryEncoder3 27 26 25 zeroed)) in
  let s2 := fst (loop i s1) in
  same_levels i i /\
  rotary_calls (snd (loop i s2)) = [] /\
  ((fst (loop i s2) = s2 /\ button_calls (snd (loop i s2)) = []) \/
   (fst (loop i s2) = accumulator_cleared s2 /\
    (button_calls (snd (loop i s2)) = [onClick] \/
     button_calls (snd (loop i s2)) = [onDoubleClick]))).
Proof.
  cbv zeta. split; [repeat split|].
  apply (repeated_polls_settle (poll_at 0 true true true)
           (poll_at 0 true true true) (poll_at 0 true true true)
           (RotaryEncoder3 27 26 25 zeroed)); repeat split.
Defined.

(** ** The table debouncer along a detent *)

Lemma count_call_rotary (c : Callback) (t : Trace) :
  is_rotary c = true ->
  count_call c t = length (filter (Callback_eqb c) (rotary_calls t)).
Proof.
  intros Hc. unfold count_call, rotary_calls.
  induction (calls t) as [|a l IH]; [reflexivity|].
  cbn [filter]. destruct (is_rotary a) eqn:Ea.
  - cbn [filter]. destruct (Callback_eqb c a); cbn [length]; congruence.
  - destruct (Callback_eqb c a) eqn:Eca; [|exact IH].
    destruct c, a; discriminate.
Qed.

(** In table mode the rotary side of a poll is [table_step] on the view. *)
Lemma loop_table_view (i : Input) (s : State) :
  _debouncingRotEncByTable s = true ->
  table_view (fst (loop i s)) = fst (table_step (table_view s) (levels i)) /\
  rotary_calls (snd (loop i s)) = snd (table_step (table_view s) (levels i)).
Proof.
  intros Hm.
  pose proof (loop_rotary i s) as (Hs & Hc). cbv zeta in Hs, Hc.
  rewrite Hm in Hs, Hc. rewrite Hs, Hc. clear Hs Hc.
  pose proof (button_frame i s) as (Ht & _ & _ & _).
  unfold table_view, table_step, levels. cbn [fst snd].
  unfold table_members in Ht. injection Ht as Hn Hh.
  rewrite <- Hn, <- Hh.
  generalize (fst (_debounceButton i s)). intros s1.
  rewrite table_poll. cbv zeta. rewrite looked_up_formula.
  destruct s1; cbn [_newTransition _transitions _pinClk _pinData
                    set_newTransition set_transitions].
  break_if; split; reflexivity.
Qed.


Lemma run_table_view (ins : list Input) (s : State) :
  _debouncingRotEncByTable s = true ->
  table_view (fst (run ins s)) =
    fst (table_run (table_view s) (map levels ins)) /\
  rotary_calls (snd (run ins s)) =
    snd (table_run (table_view s) (map levels ins)).
Proof.
  revert s. induction ins as [|i ins IH]; intros s Hm.
  - split; reflexivity.
  - cbn [run map table_run].
    pose proof (loop_table_view i s Hm) as (Hv & Hc).
    pose proof (loop_keeps_mode i s) as Hk.
    destruct (loop i s) as [s1 t1]. cbn [fst snd] in *.
    destruct (table_step (table_view s) (levels i)) as [v1 c1].
    cbn [fst snd] in *. subst v1 c1.
    assert (Hm1 : _debouncingRotEncByTable s1 = true) by congruence.
    specialize (IH s1 Hm1). destruct IH as (IHv & IHc).
    destruct (run ins s1) as [s2 t2]. cbn [fst snd] in *.
    destruct (table_run (table_view s1) (map levels ins)) as [v2 c2].
    cbn [fst snd] in *. rewrite rotary_calls_app. split; congruence.
Qed.

(** After a step the view holds the sampled pair. *)
Lemma table_step_pair (v : Z * Z) (l : bool * bool) :
  fst (fst (table_step v l)) = pair_code l.
Proof.
  unfold table_step, pair_code. cbv zeta.
  assert (E : (4 * fst v + 2 * Z.b2z (fst l) + Z.b2z (snd l)) mod 4 =
              2 * Z.b2z (fst l) + Z.b2z (snd l)).
  { replace (4 * fst v + 2 * Z.b2z (fst l) + Z.b2z (snd l))
      with (2 * Z.b2z (fst l) + Z.b2z (snd l) + fst v * 4) by lia.
    rewrite Z.mod_add by lia. destruct l as [[] []]; reflexivity. }
  destruct (valid_at _ =? 0); cbn [fst]; exact E.
Qed.

(** Sampling the pair the view already holds is a repeat: no change. *)
Lemma table_step_repeat (v : Z * Z) (l : bool * bool) :
  fst v = pair_code l -> table_step v l = (v, []).
Proof.
  destruct v as [p h]. cbn [fst]. intros ->.
  destruct l as [[] []]; reflexivity.
Qed.

Lemma levels_eqb_eq (x y : bool * bool) : levels_eqb x y = true -> x = y.
Proof.
  destruct x as [[] []], y as [[] []]; cbn; intros H;
    try reflexivity; discriminate H.
Qed.

(** Polls that sample the pair of the poll before them can be dropped. *)
Lemma table_run_compress (ls : list (bool * bool)) (v : Z * Z) :
  table_run v ls = table_run v (compress ls).
Proof.
  revert v. induction ls as [|x r IH]; intros v; [reflexivity|].
  destruct r as [|y r'].
  - reflexivity.
  - change (compress (x :: y :: r'))
      with (if levels_eqb x y then compress (y :: r')
            else x :: compress (y :: r')).
    destruct (levels_eqb x y) eqn:E.
    + apply levels_eqb_eq in E. subst y.
      rewrite <- IH.
      cbn [table_run].
      pose proof (table_step_pair v x) as Hp.
      destruct (table_step v x) as [v1 c1]. cbn [fst] in Hp.
      rewrite (table_step_repeat v1 x Hp).
      destruct (table_run v1 r') as [v2 c2]. reflexivity.
    + change (table_run v (x :: y :: r'))
        with (let '(v1, c1) := table_step v x in
              let '(v2, c2) := table_run v1 (y :: r') in (v2, c1 ++ c2)).
      change (table_run v (x :: compress (y :: r')))
        with (let '(v1, c1) := table_step v x in
              let '(v2, c2) := table_run v1 (compress (y :: r')) in
              (v2, c1 ++ c2)).
      destruct (table_step v x) as [v1 c1]. rewrite <- IH. reflexivity.
Qed.

Lemma constructed_table_view (pinClk pinData pinButton : Z)
    (u : Indeterminate) :
  _debouncingRotEncByTable (RotaryEncoder3 pinClk pinData pinButton u) = true /\
  table_view (RotaryEncoder3 pinClk pinData pinButton u) = (0, 0).
Proof. split; reflexivity. Qed.

(** C1: a freshly constructed encoder (table mode) is polled along one
    clockwise detent 11 -> 10 -> 00 -> 01 -> 11, every pair sampled by one
    or more polls, for instance by 8 polls in all; whatever the button
    and the clock do meanwhile, the polls invoke the clockwise callback
    exactly once, on the poll that brings the low byte of the history to
    0b00010111, and never the counter-clockwise one.  Along the reverse
    detent 11 -> 01 -> 00 -> 10 -> 11 (low byte 0b00101011) they invoke the
    counter-clockwise callback exactly once and never the clockwise one. *)
Theorem table_detent_one_event :
  forall (pinClk pinData pinButton : Z) (u : Indeterminate)
         (ins : list Input),
    let r := run ins (RotaryEncoder3 pinClk pinData pinButton u) in
    (walks cw_detent ins ->
     count_call onCW (snd r) = 1%nat /\ count_call onCCW (snd r) = 0%nat /\
     Z.land (_transitions (fst r)) 255 = 23) /\
    (walks ccw_detent ins ->
     count_call onCCW (snd r) = 1%nat /\ count_call onCW (snd r) = 0%nat /\
     Z.land (_transitions (fst r)) 255 = 43).
Proof.
  intros pinClk pinData pinButton u ins. cbv zeta.
  pose proof (constructed_table_view pinClk pinData pinButton u) as (Hm & Hv).
  pose proof (run_table_view ins _ Hm) as (Hview & Hcalls).
  rewrite Hv, table_run_compress in Hview, Hcalls.
  rewrite !count_call_rotary by reflexivity. rewrite Hcalls.
  assert (Hh : _transitions
                 (fst (run ins (RotaryEncoder3 pinClk pinData pinButton u))) =
               snd (fst (table_run (0, 0) (compress (map levels ins))))).
  { rewrite <- Hview. reflexivity. }
  rewrite Hh.
  split; intros [E | E]; rewrite E; repeat split.
Qed.

(** Two 8-poll walks, one per direction: the rest position once, each
    intermediate pair twice, the rest position again. *)
Lemma table_detent_one_event_witness :
  let cw := [poll_at 0 true true true; poll_at 1 true true false;
             poll_at 2 true true false; poll_at 3 true false false;
             poll_at 4 true false false; poll_at 5 true false true;
             poll_at 6 true false true; poll_at 7 true true true] in
  let ccw := [poll_at 0 true true true; poll_at 1 true false true;
              poll_at 2 true false true; poll_at 3 true false false;
              poll_at 4 true false false; poll_at 5 true true false;
              poll_at 6 true true false; poll_at 7 true true true] in
  (length cw = 8%nat /\ walks cw_detent cw /\
   count_call onCW (snd (run cw (RotaryEncoder3 27 26 25 zeroed))) = 1%nat /\
   count_call onCCW (snd (run cw (RotaryEncoder3 27 26 25 zeroed))) = 0%nat) /\
  (length ccw = 8%nat /\ walks ccw_detent ccw /\
   count_call onCCW (snd (run ccw (RotaryEncoder3 27 26 25 zeroed))) = 1%nat /\
   count_call onCW (snd (run ccw (RotaryEncoder3 27 26 25 zeroed))) = 0%nat).
Proof.
  cbv zeta. split.
  - split; [reflexivity|]. split; [left; reflexivity|].
    pose proof (table_detent_one_event 27 26 25 zeroed
      [poll_at 0 true true true; poll_at 1 true true false;
       poll_at 2 true true false; poll_at 3 true false false;
       poll_at 4 true false false; poll_at 5 true false true;
       poll_at 6 true false true; poll_at 7 true true true]) as [H _].
    cbv zeta in H. specialize (H (or_introl eq_refl)).
    split; [exact (proj1 H) | exact (proj1 (proj2 H))].
  - split; [reflexivity|]. split; [left; reflexivity|].
    pose proof (table_detent_one_event 27 26 25 zeroed
      [poll_at 0 true true true; poll_at 1 true false true;
       poll_at 2 true false true; poll_at 3 true false false;
       poll_at 4 true false false; poll_at 5 true true false;
       poll_at 6 true true false; poll_at 7 true true true]) as [_ H].
    cbv zeta in H. specialize (H (or_introl eq_refl)).
    split; [exact (proj1 H) | exact (proj1 (proj2 H))].
Defined.

(** ** Runs of polls *)

Lemma run_cons_fst (i : Input) (ins : list Input) (s : State) :
  fst (run (i :: ins) s) = fst (run ins (fst (loop i s))).
Proof.
  cbn [run]. destruct (loop i s) as [s1 t1]. cbn [fst].
  destruct (run ins s1) as [s2 t2]. reflexivity.
Qed.

Lemma run_cons_snd (i : Input) (ins : list Input) (s : State) :
  snd (run (i :: ins) s) = snd (loop i s) ++ snd (run ins (fst (loop i s))).
Proof.
  cbn [run]. destruct (loop i s) as [s1 t1]. cbn [fst snd].
  destruct (run ins s1) as [s2 t2]. reflexivity.
Qed.

Lemma run_app_fst (a b : list Input) (s : State) :
  fst (run (a ++ b) s) = fst (run b (fst (run a s))).
Proof.
  revert s. induction a as [|i a IH]; intros s; [reflexivity|].
  rewrite <- app_comm_cons, !run_cons_fst. apply IH.
Qed.

Lemma run_app_snd (a b : list Input) (s : State) :
  snd (run (a ++ b) s) = snd (run a s) ++ snd (run b (fst (run a s))).
Proof.
  revert s. induction a as [|i a IH]; intros s; [reflexivity|].
  rewrite <- app_comm_cons, !run_cons_snd, run_cons_fst, IH.
  apply app_assoc.
Qed.

(** ** Clock differences *)

Lemma wsub_at_ms (t0 a b : Z) :
  0 <= a - b < 4294967296 -> wsub (at_ms t0 a) (at_ms t0 b) = a - b.
Proof.
  intros H. unfold wsub, at_ms, u32.
  rewrite Zminus_mod_idemp_l, Zminus_mod_idemp_r.
  replace (t0 + a - (t0 + b)) with (a - b) by lia.
  apply Z.mod_small. exact H.
Qed.

(** ** The button classifier over a poll of [loop] *)

Lemma button_core_of_members (s : State) (a b c d e : Z) :
  button_members s = (a, b, c, d, e) -> button_core s = (a, c, d, e).
Proof.
  unfold button_members, button_core. intros H.
  injection H as <- _ <- <- <-. reflexivity.
Qed.

Lemma loop_press (i : Input) (s : State) :
  _buttonState s = HIGH -> in_button i = false ->
  button_core (fst (loop i s)) =
    (LOW, _clickCount s, in_millis1 i, _msFirstClick s) /\
  button_calls (snd (loop i s)) = [].
Proof.
  intros Hs Hi.
  pose proof (loop_button i s) as (Hm & Hc & _).
  pose proof (button_press i s Hs Hi) as (Hm' & Hc').
  rewrite Hm' in Hm. rewrite Hc, (button_calls_of_calls _ _ Hc').
  split; [exact (button_core_of_members _ _ _ _ _ _ Hm) | reflexivity].
Qed.

Lemma loop_release_click (i : Input) (s : State) :
  _buttonState s = LOW -> in_button i = true ->
  _msDebounce <= wsub (in_millis1 i) (_msButtonDown s) ->
  wsub (in_millis2 i) (_msButtonDown s) <= _msLongClick ->
  button_core (fst (loop i s)) =
    (HIGH, u8 (_clickCount s + 1), _msButtonDown s,
     if u8 (_clickCount s + 1) =? 1 then in_millis3 i else _msFirstClick s) /\
  button_calls (snd (loop i s)) = [].
Proof.
  intros Hs Hi H1 H2.
  pose proof (loop_button i s) as (Hm & Hc & _).
  pose proof (button_release_click i s Hs Hi H1 H2) as (Hm' & Hc').
  rewrite Hm' in Hm. rewrite Hc, (button_calls_of_calls _ _ Hc').
  split; [exact (button_core_of_members _ _ _ _ _ _ Hm) | reflexivity].
Qed.

(** At an unchanged level nothing happens while no click is pending, or
    one is pending and the gap has not run out. *)
Lemma loop_quiet (i : Input) (s : State) :
  _buttonState s = level (in_button i) ->
  _clickCount s = 0 \/
  (_clickCount s = 1 /\
   wsub (in_millis1 i) (_msFirstClick s) <= _msDoubleClickGap) ->
  button_core (fst (loop i s)) = button_core s /\
  button_calls (snd (loop i s)) = [].
Proof.
  intros Hs Hq.
  pose proof (loop_button i s) as (Hm & Hc & _).
  pose proof (button_unchanged i s Hs) as (Hm' & Hc'). cbv zeta in *.
  assert (Hf1 : (_clickCount s =? 1) &&
                (wsub (in_millis1 i) (_msFirstClick s) >? _msDoubleClickGap)
                = false).
  { destruct Hq as [H0 | [H1 Hg]].
    - rewrite H0. reflexivity.
    - rewrite Z.gtb_ltb. apply andb_false_iff. right.
      apply Z.ltb_ge. exact Hg. }
  assert (Hf2 : (_clickCount s >? 1) = false).
  { rewrite Z.gtb_ltb. apply Z.ltb_ge. destruct Hq as [H0 | [H1 _]]; lia. }
  rewrite Hf1, Hf2 in Hm', Hc'. cbn in Hm', Hc'.
  rewrite Hm' in Hm. rewrite Hc, (button_calls_of_calls _ _ Hc').
  split; [|reflexivity].
  rewrite (button_core_of_members _ _ _ _ _ _ Hm). reflexivity.
Qed.

(** At an unchanged level, more than one pending click is delivered as a
    double click at once. *)
Lemma loop_double (i : Input) (s : State) :
  _buttonState s = level (in_button i) ->
  1 < _clickCount s ->
  button_core (fst (loop i s)) = (_buttonState s, 0, _msButtonDown s, 0) /\
  button_calls (snd (loop i s)) = [onDoubleClick].
Proof.
  intros Hs Hn.
  pose proof (loop_button i s) as (Hm & Hc & _).
  pose proof (button_unchanged i s Hs) as (Hm' & Hc'). cbv zeta in *.
  assert (Hf1 : (_clickCount s =? 1) = false) by (apply Z.eqb_neq; lia).
  assert (Hf2 : (_clickCount s >? 1) = true)
    by (rewrite Z.gtb_ltb; apply Z.ltb_lt; exact Hn).
  rewrite Hf1, Hf2 in Hm', Hc'. cbn in Hm', Hc'.
  rewrite Hm' in Hm. rewrite Hc, (button_calls_of_calls _ _ Hc').
  split; [exact (button_core_of_members _ _ _ _ _ _ Hm) | reflexivity].
Qed.

(** ** Double click *)

(** A stretch of polls at the level of the poll before them, while no
    click is pending or one is pending within the gap, changes nothing. *)
Lemma run_quiet_polls (b : bool) (t0 : Z) (offs : list Z) :
  forall (seg : list Input) (s : State),
    Forall2 observes seg (polls b t0 offs) ->
    _buttonState s = level b ->
    _clickCount s = 0 \/
    (_clickCount s = 1 /\
     Forall (fun o => wsub (at_ms t0 o) (_msFirstClick s)
                      <= _msDoubleClickGap) offs) ->
    button_core (fst (run seg s)) = button_core s /\
    button_calls (snd (run seg s)) = [].
Proof.
  induction offs as [|o offs IH]; intros seg s Hobs Hs Hq.
  - inversion Hobs; subst. split; reflexivity.
  - cbn [polls map] in Hobs. inversion Hobs as [|i p seg' l' Hi Hrest];
      subst. destruct Hi as (Hb & Hm1 & _ & _). cbn [fst snd] in Hb, Hm1.
    rewrite run_cons_fst, run_cons_snd, button_calls_app.
    assert (Hstep : button_core (fst (loop i s)) = button_core s /\
                    button_calls (snd (loop i s)) = []).
    { apply loop_quiet; [rewrite Hb; exact Hs|].
      destruct Hq as [H0 | [H1 Hall]]; [left; exact H0|right].
      split; [exact H1|]. rewrite Hm1.
      inversion Hall; subst; assumption. }
    destruct Hstep as (Hcore & Hcalls). rewrite Hcalls.
    pose proof Hcore as Hcore'. unfold button_core in Hcore'.
    injection Hcore' as E1 E2 E3 E4.
    destruct (IH seg' (fst (loop i s)) Hrest) as (IHc & IHt).
    + congruence.
    + rewrite E2, E4. destruct Hq as [H0 | [H1 Hall]]; [left; exact H0|].
      right. split; [exact H1|]. inversion Hall; subst; assumption.
    + rewrite IHc, IHt. split; [exact Hcore | reflexivity].
Qed.

Ltac core_fields H :=
  let E1 := fresh "Ebs" in
  let E2 := fresh "Ecc" in
  let E3 := fresh "Edn" in
  let E4 := fresh "Efc" in
  unfold button_core in H; injection H as E1 E2 E3 E4.

(** Peel the next single poll, or the next stretch of polls, off a run
    that follows a schedule. *)
Ltac next_poll H i Hb Hm :=
  let p := fresh "p" in
  let l := fresh "l" in
  let Hi := fresh "Hobs" in
  let Hr := fresh "Hrest" in
  let tl := fresh "ins" in
  cbn [app] in H;
  inversion H as [|i p tl l Hi Hr]; subst; clear H;
  destruct Hi as (Hb & Hm); cbn [fst snd] in Hb, Hm;
  rewrite run_cons_snd, button_calls_app; rename Hr into H.

Ltac next_stretch H seg :=
  let Hs := fresh "Hseg" in
  let tl := fresh "ins" in
  apply Forall2_app_inv_r in H;
  destruct H as (seg & tl & Hs & H & ->);
  rewrite run_app_snd, button_calls_app.

(** C6 (as stated, refuted): two presses of 100 ms, the second 200 ms
    after the first release, polled once during the second press at
    offset 360, that is 260 ms after the first release.  That poll
    delivers the pending click as a Click; the second release starts a
    new accumulation, which times out as a second Click.  No DoubleClick
    is delivered. *)
Lemma double_click_lost_when_gap_expires_in_second_press :
  let sched := double_press 0 200 [] [] [360] 410 [700] in
  let ins := map (fun p => poll_at (snd p) (fst p) true true) sched in
  let s := RotaryEncoder3 27 26 25 zeroed in
  (_buttonState s = HIGH /\ _clickCount s = 0 /\
   double_press_timed 200 [] [] [360] /\
   Forall2 observes ins sched) /\
  button_calls (snd (run ins s)) = [onClick; onClick] /\
  count_call onDoubleClick (snd (run ins s)) = 0%nat /\
  count_call onClick (snd (run ins s)) = 2%nat.
Proof.
  cbv zeta. split; [|repeat split].
  split; [reflexivity|]. split; [reflexivity|]. split.
  - unfold double_press_timed, within.
    split; [lia|]. repeat split; repeat constructor; lia.
  - repeat constructor.
Qed.

(** C6 (amended): from an idle classifier (button released, no click
    pending), two presses of 100 ms each, the second starting less than
    250 ms after the first release, with any polls in between, yield
    exactly one DoubleClick and no other button event, delivered by the
    first poll after the second release, provided no poll during the
    second press comes later than 250 ms after the first release (offset
    350 from the first press).  That proviso holds for every polling
    schedule when the gap between the first release and the second press
    is at most 150 ms. *)
Theorem double_click_within_gap :
  forall (t0 gap : Z) (hold1 idle hold2 : list Z) (after : Z)
         (rest : list Z) (ins : list Input) (s : State),
    _buttonState s = HIGH -> _clickCount s = 0 ->
    double_press_timed gap hold1 idle hold2 ->
    within 0 350 hold2 ->
    Forall2 observes ins (double_press t0 gap hold1 idle hold2 after rest) ->
    button_calls (snd (run ins s)) = [onDoubleClick].
Proof.
  intros t0 gap hold1 idle hold2 after rest ins s Hs Hn
    (Hgap & Hh1 & Hidle & Hh2) Hlate H.
  unfold double_press in H.
  (* first press *)
  next_poll H i1 Hb1 Hm1.
  destruct (loop_press i1 s Hs Hb1) as (Hc1 & Ht1). rewrite Ht1.
  set (s1 := fst (loop i1 s)) in *. core_fields Hc1.
  (* held *)
  next_stretch H seg1.
  destruct (run_quiet_polls false t0 hold1 seg1 s1 Hseg Ebs) as (Hc2 & Ht2);
    [left; congruence|]. rewrite Ht2.
  set (s2 := fst (run seg1 s1)) in *. core_fields Hc2.
  (* first release *)
  next_poll H i2 Hb2 Hm2. destruct Hm1 as (Hm1 & _).
  destruct Hm2 as (Hm21 & Hm22 & Hm23).
  assert (Hd2 : _msButtonDown s2 = at_ms t0 0) by congruence.
  destruct (loop_release_click i2 s2) as (Hc3 & Ht3);
    [congruence | assumption | | |].
  { rewrite Hm21, Hd2, wsub_at_ms by lia. thresholds. lia. }
  { rewrite Hm22, Hd2, wsub_at_ms by lia. thresholds. lia. }
  rewrite Ht3. set (s3 := fst (loop i2 s2)) in *.
  assert (Hn2 : _clickCount s2 = 0) by congruence.
  rewrite Hn2 in Hc3. change (u8 (0 + 1)) with 1 in Hc3.
  change (1 =? 1) with true in Hc3. cbv iota in Hc3. core_fields Hc3.
  (* released, one click pending *)
  next_stretch H seg2.
  destruct (run_quiet_polls true t0 idle seg2 s3 Hseg0 Ebs1) as (Hc4 & Ht4).
  { right. split; [assumption|]. rewrite Efc1, Hm23.
    eapply Forall_impl; [|exact Hidle]. cbv beta. intros o Ho.
    rewrite wsub_at_ms by lia. thresholds. lia. }
  rewrite Ht4. set (s4 := fst (run seg2 s3)) in *. core_fields Hc4.
  (* second press *)
  next_poll H i3 Hb3 Hm3. destruct Hm3 as (Hm3 & _).
  destruct (loop_press i3 s4) as (Hc5 & Ht5); [congruence | assumption |].
  rewrite Ht5. set (s5 := fst (loop i3 s4)) in *. core_fields Hc5.
  (* held, one click pending *)
  next_stretch H seg3.
  destruct (run_quiet_polls false t0 hold2 seg3 s5 Hseg1 Ebs3) as (Hc6 & Ht6).
  { right. split; [congruence|].
    replace (_msFirstClick s5) with (at_ms t0 100) by congruence.
    unfold within in Hh2, Hlate.
    rewrite Forall_forall in *. intros o Ho.
    specialize (Hh2 o Ho). specialize (Hlate o Ho).
    rewrite wsub_at_ms by lia. thresholds. lia. }
  rewrite Ht6. set (s6 := fst (run seg3 s5)) in *. core_fields Hc6.
  (* second release *)
  next_poll H i4 Hb4 Hm4. destruct Hm4 as (Hm41 & Hm42 & Hm43).
  assert (Hd6 : _msButtonDown s6 = at_ms t0 (100 + gap)) by congruence.
  destruct (loop_release_click i4 s6) as (Hc7 & Ht7);
    [congruence | assumption | | |].
  { rewrite Hm41, Hd6, wsub_at_ms by lia. thresholds. lia. }
  { rewrite Hm42, Hd6, wsub_at_ms by lia. thresholds. lia. }
  rewrite Ht7. set (s7 := fst (loop i4 s6)) in *.
  assert (Hn6 : _clickCount s6 = 1) by congruence.
  rewrite Hn6 in Hc7. change (u8 (1 + 1)) with 2 in Hc7.
  change (2 =? 1) with false in Hc7. cbv iota in Hc7. core_fields Hc7.
  (* the poll after the second release delivers the double click *)
  change (polls true t0 (after :: rest))
    with ((true, at_ms t0 after) :: polls true t0 rest) in H.
  next_poll H i5 Hb5 Hm5.
  destruct (loop_double i5 s7) as (Hc8 & Ht8);
    [rewrite Hb5; assumption | lia |].
  rewrite Ht8. set (s8 := fst (loop i5 s7)) in *. core_fields Hc8.
  (* nothing afterwards *)
  destruct (run_quiet_polls true t0 rest _ s8 H) as (_ & Ht9);
    [change (level true) with HIGH; congruence | left; assumption |].
  rewrite Ht9. reflexivity.
Qed.

(** Two presses 100 ms apart, polled once in every phase. *)
Lemma double_click_within_gap_witness :
  let sched := double_press 1000 100 [50] [150] [250] 310 [600] in
  let ins := map (fun p => poll_at (snd p) (fst p) true true) sched in
  let s := RotaryEncoder3 27 26 25 zeroed in
  (_buttonState s = HIGH /\ _clickCount s = 0 /\
   double_press_timed 100 [50] [150] [250] /\
   within 0 350 [250] /\
   Forall2 observes ins sched) /\
  button_calls (snd (run ins s)) = [onDoubleClick].
Proof.
  cbv zeta.
  assert (Ht : double_press_timed 100 [50] [150] [250]).
  { unfold double_press_timed, within.
    split; [lia|]. repeat split; repeat constructor; lia. }
  assert (Hl : within 0 350 [250]).
  { unfold within. repeat constructor; lia. }
  assert (Ho : Forall2 observes
                 (map (fun p => poll_at (snd p) (fst p) true true)
                    (double_press 1000 100 [50] [150] [250] 310 [600]))
                 (double_press 1000 100 [50] [150] [250] 310 [600])).
  { repeat constructor. }
  split; [split; [reflexivity|]; split; [reflexivity|]; auto|].
  apply (double_click_within_gap 1000 100 [50] [150] [250] 310 [600]).
  - reflexivity.
  - reflexivity.
  - exact Ht.
  - exact Hl.
  - exact Ho.
Defined.

(** ** Encoders without pushbutton *)

(** Every poll reads the level of the pin [_pinButton] names. *)
Lemma loop_reads_button_pin (i : Input) (s : State) :
  hd_error (snd (loop i s)) = Some (DigitalRead (_pinButton s)).
Proof.
  unfold loop.
  assert (H : exists t, snd (_debounceButton i s) =
                        DigitalRead (_pinButton s) :: t).
  { destruct s; unfold _debounceButton. break_if; eexists; reflexivity. }
  destruct H as (t & Ht).
  destruct (_debounceButton i s) as [s1 t1]. cbn [snd] in Ht. subst t1.
  destruct (if _debouncingRotEncByTable s1
            then _debounceRotaryByTable i s1
            else _debounceRotaryByCleaning i s1) as [s2 t2].
  reflexivity.
Qed.

(** C3 (the code at the failing input): an encoder constructed with the
    two rotary pins only, in zero-initialised storage, so that the
    untouched [_pinButton] holds 0.  Every poll starts by reading pin 0,
    and the classifier runs on what it reads: low at time 0, high at 100
    and still high at 400 yields a Click; low at 0 and high at 310 yields a
    LongClick. *)
Theorem two_pin_encoder_classifies_button :
  let s := RotaryEncoder2 27 26 zeroed in
  (forall i : Input, hd_error (snd (loop i s)) = Some (DigitalRead 0)) /\
  calls (snd (run [poll_at 0 false true true; poll_at 100 true true true;
                   poll_at 400 true true true] s)) = [onClick] /\
  calls (snd (run [poll_at 0 false true true;
                   poll_at 310 true true true] s)) = [onLongClick].
Proof.
  cbv zeta. split; [|split; reflexivity].
  intros i. apply loop_reads_button_pin.
Qed.

(* ================================================================== *)
(** * Further properties of the code *)

(** ** Bits of the history *)

Lemma land_mul16_small (q k : Z) : 0 <= k < 16 -> Z.land (16 * q) k = 0.
Proof.
  intros Hk.
  rewrite <- (Z.mod_small k 16) by lia. rewrite <- land15.
  rewrite Z.land_assoc, (Z.land_comm _ k), <- Z.land_assoc, land15.
  rewrite Z.mul_comm, Z.mod_mul by lia. apply Z.land_0_r.
Qed.

Lemma lor_mul16_small (q k : Z) :
  0 <= k < 16 -> Z.lor (16 * q) k = 16 * q + k.
Proof.
  intros Hk. pose proof (land_mul16_small q k Hk) as H.
  rewrite <- (Z.lxor_lor _ _ H). symmetry. apply Z.add_nocarry_lxor. exact H.
Qed.

(** The history after an accepted transition [k]: the old history moved
    up by one nibble, within 16 bits, and [k] in the low nibble. *)
Lemma history_shift (h k : Z) :
  0 <= k < 16 ->
  Z.lor (u16 (Z.shiftl h 4)) k = 16 * (h mod 4096) + k.
Proof.
  intros Hk. unfold u16. rewrite Z.shiftl_mul_pow2 by lia.
  change (2 ^ 4) with 16. change 65536 with (16 * 4096).
  rewrite (Z.mul_comm h 16), Z.mul_mod_distr_l by lia.
  apply lor_mul16_small. exact Hk.
Qed.

Lemma history_low_byte (h k : Z) :
  0 <= k < 16 ->
  Z.land (Z.lor (u16 (Z.shiftl h 4)) k) 255 = 16 * (h mod 16) + k.
Proof.
  intros Hk. rewrite history_shift by exact Hk.
  change 255 with (Z.ones 8). rewrite Z.land_ones by lia.
  change (2 ^ 8) with 256.
  pose proof (Z.mod_pos_bound h 16).
  replace (16 * (h mod 4096) + k) with (k + 16 * (h mod 4096)) by lia.
  rewrite Z.add_mod, (Z.mod_small k 256) by lia.
  change 256 with (16 * 16). rewrite Z.mul_mod_distr_l by lia.
  rewrite Z.mod_mod_divide by (exists 256; reflexivity).
  rewrite Z.mod_small by lia. lia.
Qed.

(** ** The table debouncer: bounds *)

(** X1: whatever the members hold (for instance after a switch of the
    debouncing mode) and whatever is sampled, the index a poll looks up
    lies within the 16 entries of [_validTransitions]. *)
Theorem table_index_in_bounds :
  forall (i : Input) (s : State),
    0 <= looked_up i s < 16 /\
    (Z.to_nat (looked_up i s) < length _validTransitions)%nat.
Proof.
  intros i s. rewrite looked_up_formula.
  pose proof (Z.mod_pos_bound (_newTransition s) 4).
  assert (Hr : 0 <= 4 * (_newTransition s mod 4) + 2 * Z.b2z (in_clk i)
                    + Z.b2z (in_data i) < 16)
    by (destruct (in_clk i), (in_data i); cbn [Z.b2z]; lia).
  split; [exact Hr|]. change (length _validTransitions) with 16%nat. lia.
Qed.

Lemma table_poll_in_range (i : Input) (s : State) :
  0 <= _transitions s < 65536 ->
  table_in_range (fst (_debounceRotaryByTable i s)).
Proof.
  intros Hh. unfold table_in_range.
  pose proof (looked_up_range i s) as Hk.
  rewrite table_poll. cbv zeta.
  destruct (valid_at (looked_up i s) =? 0).
  - destruct s; cbn in *. split; assumption.
  - rewrite history_shift by exact Hk.
    pose proof (Z.mod_pos_bound (_transitions s) 4096).
    destruct s; cbn in *. split; [assumption | lia].
Qed.

Lemma loop_in_range (i : Input) (s : State) :
  table_in_range s -> table_in_range (fst (loop i s)).
Proof.
  intros [Hn Hh].
  pose proof (loop_rotary i s) as (Hs & _). cbv zeta in Hs. rewrite Hs.
  pose proof (button_frame i s) as (Ht & _ & _ & _).
  unfold table_members in Ht. injection Ht as En Eh.
  destruct (_debouncingRotEncByTable s).
  - apply table_poll_in_range. rewrite Eh. exact Hh.
  - pose proof (cleaning_frame i (fst (_debounceButton i s)))
      as (_ & Ht' & _ & _).
    unfold table_members in Ht'. injection Ht' as En' Eh'.
    unfold table_in_range. rewrite En', Eh', En, Eh. split; assumption.
Qed.

(** X2: the packed index stays a 4-bit value and the history a 16-bit
    value over any number of polls, in either mode. *)
Theorem table_members_stay_in_range :
  forall (ins : list Input) (s : State),
    table_in_range s -> table_in_range (fst (run ins s)).
Proof.
  induction ins as [|i ins IH]; intros s H; [exact H|].
  rewrite run_cons_fst. apply IH, loop_in_range, H.
Qed.

(** A constructed encoder, polled along a clockwise detent. *)
Lemma table_members_stay_in_range_witness :
  let s := RotaryEncoder3 27 26 25 zeroed in
  let ins := [poll_at 0 true true true; poll_at 1 true true false;
              poll_at 2 true false false; poll_at 3 true false true;
              poll_at 4 true true true] in
  table_in_range s /\ table_in_range (fst (run ins s)).
Proof.
  cbv zeta.
  assert (H : table_in_range (RotaryEncoder3 27 26 25 zeroed))
    by (unfold table_in_range; cbn; lia).
  split; [exact H|].
  apply table_members_stay_in_range. exact H.
Defined.

(** ** The table debouncer: when a step is reported *)

(** [table_step] reports a step on the strength of the pair sampled
    before, the last accepted transition and the sampled pair. *)
Lemma table_step_calls (p h : Z) (l : bool * bool) :
  0 <= p < 4 ->
  snd (table_step (p, h) l) =
    if (p =? 1) && (h mod 16 =? 1) && fst l && snd l then [onCW]
    else if (p =? 2) && (h mod 16 =? 2) && fst l && snd l then [onCCW]
    else [].
Proof.
  intros Hp. destruct l as [c d].
  unfold table_step. cbn [fst snd]. cbv zeta.
  pose proof (Z.mod_pos_bound h 16) as Ha.
  set (a := h mod 16) in *.
  assert (Hk : 0 <= 4 * p + 2 * Z.b2z c + Z.b2z d < 16)
    by (destruct c, d; cbn [Z.b2z]; lia).
  destruct (valid_at (4 * p + 2 * Z.b2z c + Z.b2z d) =? 0) eqn:Ev.
  - cbn [snd].
    assert (Hp4 : p = 0 \/ p = 1 \/ p = 2 \/ p = 3) by lia.
    destruct c, d; destruct Hp4 as [-> | [-> | [-> | ->]]];
      try discriminate Ev; cbn [Z.b2z andb]; decide_cond;
      rewrite ?andb_false_r; reflexivity.
  - cbn [snd]. rewrite history_low_byte by exact Hk. fold a.
    assert (Hp4 : p = 0 \/ p = 1 \/ p = 2 \/ p = 3) by lia.
    assert (Ha3 : a = 1 \/ a = 2 \/ (a <> 1 /\ a <> 2)) by lia.
    clearbody a.
    destruct c, d; destruct Hp4 as [-> | [-> | [-> | ->]]];
      destruct Ha3 as [-> | [-> | [? ?]]];
      cbn [Z.b2z]; decide_cond; reflexivity.
Qed.

(** X3: in table mode a poll reports a clockwise step exactly when it
    samples the rest position 11, the pair sampled before was 01 and the
    last accepted transition was 00 -> 01; it reports a counter-clockwise
    step exactly when it samples 11, the pair before was 10 and the last
    accepted transition was 00 -> 10.  Nothing else is reported. *)
Theorem table_reports_step_on_last_two_transitions :
  forall (i : Input) (s : State),
    _debouncingRotEncByTable s = true ->
    rotary_calls (snd (loop i s)) =
      if (_newTransition s mod 4 =? 1) && (_transitions s mod 16 =? 1)
         && in_clk i && in_data i
      then [onCW]
      else if (_newTransition s mod 4 =? 2) && (_transitions s mod 16 =? 2)
              && in_clk i && in_data i
      then [onCCW]
      else [].
Proof.
  intros i s Hm.
  destruct (loop_table_view i s Hm) as (_ & Hc). rewrite Hc.
  unfold table_view. rewrite table_step_calls; [reflexivity|].
  apply Z.mod_pos_bound. lia.
Qed.

Lemma table_reports_step_on_last_two_transitions_witness :
  let s := fst (run [poll_at 0 true true true; poll_at 1 true true false;
                     poll_at 2 true false false; poll_at 3 true false true]
                    (RotaryEncoder3 27 26 25 zeroed)) in
  let i := poll_at 4 true true true in
  _debouncingRotEncByTable s = true /\
  rotary_calls (snd (loop i s)) = [onCW].
Proof.
  cbv zeta. split; [reflexivity|].
  exact (table_reports_step_on_last_two_transitions
           (poll_at 4 true true true)
           (fst (run [poll_at 0 true true true; poll_at 1 true true false;
                      poll_at 2 true false false; poll_at 3 true false true]
                     (RotaryEncoder3 27 26 25 zeroed)))
           eq_refl).
Defined.

(** ** Events per poll *)

Lemma button_at_most_one_call (i : Input) (s : State) :
  (length (calls (snd (_debounceButton i s))) <= 1)%nat.
Proof.
  destruct s; unfold _debounceButton. break_if; lia.
Qed.

Lemma table_at_most_one_call (i : Input) (s : State) :
  (length (calls (snd (_debounceRotaryByTable i s))) <= 1)%nat.
Proof.
  rewrite table_poll. cbv zeta. break_if; lia.
Qed.

Lemma cleaning_at_most_one_call (i : Input) (s : State) :
  (length (calls (snd (_debounceRotaryByCleaning i s))) <= 1)%nat.
Proof.
  pose proof (cleaning_directions_exclusive i s) as Hex. revert Hex.
  destruct s; unfold _debounceRotaryByCleaning.
  break_if; intros Hex; try lia;
    exfalso; apply Hex; cbn; tauto.
Qed.

Lemma filter_length_le {A : Type} (f : A -> bool) (l : list A) :
  (length (filter f l) <= length l)%nat.
Proof.
  induction l as [|a l IH]; cbn [filter length]; [lia|].
  destruct (f a); cbn [length]; lia.
Qed.

(** X4: one poll invokes at most one rotation callback and at most one
    button callback, whatever the state, the input and the debouncing
    mode. *)
Theorem poll_at_most_one_event_per_channel :
  forall (i : Input) (s : State),
    (length (rotary_calls (snd (loop i s))) <= 1)%nat /\
    (length (button_calls (snd (loop i s))) <= 1)%nat /\
    (length (calls (snd (loop i s))) <= 2)%nat.
Proof.
  intros i s.
  pose proof (button_at_most_one_call i s) as Hb.
  pose proof (table_at_most_one_call i (fst (_debounceButton i s))) as Ht.
  pose proof (cleaning_at_most_one_call i (fst (_debounceButton i s))) as Hc.
  pose proof (button_frame i s) as (_ & _ & _ & Hbr).
  pose proof (table_frame i (fst (_debounceButton i s))) as (_ & _ & _ & Htb).
  pose proof (cleaning_frame i (fst (_debounceButton i s)))
    as (_ & _ & _ & Hcb).
  unfold loop.
  destruct (_debounceButton i s) as [s1 t1]. cbn [fst snd] in *.
  assert (Hr : (length (calls (snd
                 (if _debouncingRotEncByTable s1
                  then _debounceRotaryByTable i s1
                  else _debounceRotaryByCleaning i s1))) <= 1)%nat)
    by (destruct (_debouncingRotEncByTable s1); assumption).
  assert (Hrb : button_calls (snd
                 (if _debouncingRotEncByTable s1
                  then _debounceRotaryByTable i s1
                  else _debounceRotaryByCleaning i s1)) = [])
    by (destruct (_debouncingRotEncByTable s1); assumption).
  destruct (if _debouncingRotEncByTable s1
            then _debounceRotaryByTable i s1
            else _debounceRotaryByCleaning i s1) as [s2 t2].
  cbn [fst snd] in *.
  rewrite rotary_calls_app, button_calls_app, calls_app, !length_app.
  rewrite Hbr, Hrb. cbn [length]. unfold rotary_calls, button_calls.
  pose proof (filter_length_le is_rotary (calls t2)).
  pose proof (filter_length_le (fun c => negb (is_rotary c)) (calls t1)).
  lia.
Qed.

(** ** The table debouncer: contact bounce *)

Lemma pair_code_range (l : bool * bool) : 0 <= pair_code l < 4.
Proof. destruct l as [[] []]; unfold pair_code; cbn; lia. Qed.

Lemma pair_code_zero (l : bool * bool) :
  pair_code l = 0 -> l = (false, false).
Proof. destruct l as [[] []]; unfold pair_code; cbn; intros H; try lia; reflexivity. Qed.

(** One step of the view: the sampled pair is recorded; the low nibble of
    the history is either kept, and then nothing is reported, or it is the
    accepted index. *)
Lemma table_step_low_nibble (p h : Z) (l : bool * bool) :
  0 <= p < 4 ->
  fst (fst (table_step (p, h) l)) = pair_code l /\
  ((snd (fst (table_step (p, h) l)) mod 16 = h mod 16 /\
    snd (table_step (p, h) l) = []) \/
   snd (fst (table_step (p, h) l)) mod 16 = 4 * p + pair_code l).
Proof.
  intros Hp. split; [apply table_step_pair|].
  pose proof (pair_code_range l) as Hl.
  unfold table_step, pair_code in *. cbn [fst snd]. cbv zeta.
  destruct (valid_at _ =? 0); cbn [fst snd].
  - left. split; reflexivity.
  - right. rewrite history_shift by lia.
    match goal with
    | |- (16 * ?q + ?k) mod 16 = _ =>
        replace (16 * q + k) with (k + q * 16) by lia
    end.
    rewrite Z.mod_add by lia. rewrite Z.mod_small by lia. lia.
Qed.

Lemma table_step_calls_length (p h : Z) (l : bool * bool) :
  0 <= p < 4 -> (length (snd (table_step (p, h) l)) <= 1)%nat.
Proof.
  intros Hp. rewrite table_step_calls by exact Hp.
  break_if; lia.
Qed.

(** Away from the pair 00 and with a low nibble other than 00 -> 01 and
    00 -> 10, nothing is reported as long as 00 is not sampled. *)
Lemma table_run_spent (ls : list (bool * bool)) :
  forall p h,
    1 <= p < 4 -> h mod 16 <> 1 -> h mod 16 <> 2 ->
    Forall (fun l => l <> (false, false)) ls ->
    snd (table_run (p, h) ls) = [].
Proof.
  induction ls as [|l ls IH]; intros p h Hp H1 H2 Hall; [reflexivity|].
  inversion Hall as [|? ? Hl Hls]; subst.
  cbn [table_run].
  assert (Hp' : 0 <= p < 4) by lia.
  pose proof (table_step_low_nibble p h l Hp') as (Hpair & Hnib).
  pose proof (table_step_calls p h l Hp') as Hc.
  pose proof (pair_code_range l) as Hr.
  assert (Hnz : pair_code l <> 0)
    by (intros E; apply Hl, pair_code_zero, E).
  destruct (table_step (p, h) l) as [[p1 h1] c1]. cbn [fst snd] in *.
  assert (Hc1 : c1 = []).
  { rewrite Hc.
    rewrite (proj2 (Z.eqb_neq (h mod 16) 1)), (proj2 (Z.eqb_neq (h mod 16) 2))
      by assumption.
    rewrite !andb_false_r. reflexivity. }
  clear Hc. specialize (IH p1 h1). subst p1 c1.
  destruct (table_run (pair_code l, h1) ls) as [v2 c2]. cbn [snd app] in *.
  apply IH; try lia; try assumption.
Qed.

(** Away from the pair 00, at most one step is reported as long as 00 is
    not sampled. *)
Lemma table_run_once (ls : list (bool * bool)) :
  forall p h,
    1 <= p < 4 ->
    Forall (fun l => l <> (false, false)) ls ->
    (length (snd (table_run (p, h) ls)) <= 1)%nat.
Proof.
  induction ls as [|l ls IH]; intros p h Hp Hall; [cbn; lia|].
  inversion Hall as [|? ? Hl Hls]; subst.
  cbn [table_run].
  assert (Hp' : 0 <= p < 4) by lia.
  pose proof (table_step_low_nibble p h l Hp') as (Hpair & Hnib).
  pose proof (table_step_calls_length p h l Hp') as Hc.
  pose proof (pair_code_range l) as Hr.
  assert (Hnz : pair_code l <> 0)
    by (intros E; apply Hl, pair_code_zero, E).
  destruct (table_step (p, h) l) as [[p1 h1] c1]. cbn [fst snd] in *.
  subst p1.
  destruct Hnib as [[E Ec] | E].
  - subst c1. specialize (IH (pair_code l) h1).
    destruct (table_run (pair_code l, h1) ls) as [v2 c2]. cbn [snd app] in *.
    apply IH; [lia | assumption].
  - pose proof (table_run_spent ls (pair_code l) h1) as Hs.
    destruct (table_run (pair_code l, h1) ls) as [v2 c2]. cbn [snd] in *.
    rewrite Hs, app_nil_r; [exact Hc | lia | lia | lia | assumption].
Qed.

(** X5: in table mode, polls that never sample the pair 00 report at most
    one step in all, however the contacts chatter between the other three
    pairs. *)
Theorem table_bounce_reports_at_most_one_step :
  forall (ins : list Input) (s : State),
    _debouncingRotEncByTable s = true ->
    Forall (fun i => levels i <> (false, false)) ins ->
    (length (rotary_calls (snd (run ins s))) <= 1)%nat.
Proof.
  intros ins s Hm Hall.
  destruct (run_table_view ins s Hm) as (_ & Hc). rewrite Hc.
  unfold table_view.
  pose proof (Z.mod_pos_bound (_newTransition s) 4) as Hp.
  generalize dependent (_newTransition s mod 4). intros p Hp.
  generalize (_transitions s). intros h.
  assert (Hls : Forall (fun l => l <> (false, false)) (map levels ins)).
  { apply Forall_map. exact Hall. }
  clear Hc Hall. generalize dependent (map levels ins). intros ls Hls.
  destruct (Z.eq_dec p 0) as [-> | Hnz].
  - destruct ls as [|l ls]; [cbn; lia|].
    inversion Hls as [|? ? Hl Hls']; subst.
    cbn [table_run].
    pose proof (table_step_calls 0 h l ltac:(lia)) as Hc.
    pose proof (table_step_pair (0, h) l) as Hpair.
    pose proof (pair_code_range l) as Hr.
    assert (Hnz : pair_code l <> 0)
      by (intros E; apply Hl, pair_code_zero, E).
    destruct (table_step (0, h) l) as [[p1 h1] c1]. cbn [fst snd] in *.
    subst p1. change (0 =? 1) with false in Hc.
    change (0 =? 2) with false in Hc. cbn in Hc. subst c1.
    pose proof (table_run_once ls (pair_code l) h1) as Ho.
    destruct (table_run (pair_code l, h1) ls) as [v2 c2]. cbn [snd app] in *.
    apply Ho; [lia | assumption].
  - apply table_run_once; [lia | assumption].
Qed.

(** Chatter around the rest position after the first half of a clockwise
    detent. *)
Lemma table_bounce_reports_at_most_one_step_witness :
  let s := fst (run [poll_at 0 true true true; poll_at 1 true true false;
                     poll_at 2 true false false; poll_at 3 true false true]
                    (RotaryEncoder3 27 26 25 zeroed)) in
  let ins := [poll_at 4 true true true; poll_at 5 true false true;
              poll_at 6 true true true; poll_at 7 true false true;
              poll_at 8 true true true; poll_at 9 true true false;
              poll_at 10 true true true] in
  Forall (fun i => levels i <> (false, false)) ins /\
  rotary_calls (snd (run ins s)) = [onCW] /\
  (length (rotary_calls (snd (run ins s))) <= 1)%nat.
Proof.
  cbv zeta.
  assert (H : Forall (fun i => levels i <> (false, false))
                [poll_at 4 true true true; poll_at 5 true false true;
                 poll_at 6 true true true; poll_at 7 true false true;
                 poll_at 8 true true true; poll_at 9 true true false;
                 poll_at 10 true true true])
    by (repeat constructor; discriminate).
  split; [exact H|]. split; [reflexivity|].
  apply table_bounce_reports_at_most_one_step; [reflexivity | exact H].
Defined.

(** ** Half a detent and back, table mode *)

(** X6: a freshly constructed encoder (table mode) that is turned half a
    detent clockwise, 11 -> 10 -> 00, and back, 00 -> 10 -> 11, reports one
    counter-clockwise step and no clockwise one, although it is back where
    it started: the last two transitions are those that end a
    counter-clockwise detent.  Symmetrically, half a detent
    counter-clockwise and back reports one clockwise step. *)
Theorem table_half_step_and_back_reports_step :
  forall (pinClk pinData pinButton : Z) (u : Indeterminate)
         (ins : list Input),
    let r := run ins (RotaryEncoder3 pinClk pinData pinButton u) in
    (walks cw_half_and_back ins ->
     count_call onCCW (snd r) = 1%nat /\ count_call onCW (snd r) = 0%nat) /\
    (walks ccw_half_and_back ins ->
     count_call onCW (snd r) = 1%nat /\ count_call onCCW (snd r) = 0%nat).
Proof.
  intros pinClk pinData pinButton u ins. cbv zeta.
  pose proof (constructed_table_view pinClk pinData pinButton u) as (Hm & Hv).
  pose proof (run_table_view ins _ Hm) as (_ & Hcalls).
  rewrite Hv, table_run_compress in Hcalls.
  rewrite !count_call_rotary by reflexivity. rewrite Hcalls.
  split; intros [E | E]; rewrite E; split; reflexivity.
Qed.

Lemma table_half_step_and_back_reports_step_witness :
  let ins := [poll_at 0 true true true; poll_at 1 true true false;
              poll_at 2 true false false; poll_at 3 true true false;
              poll_at 4 true true true] in
  walks cw_half_and_back ins /\
  count_call onCCW (snd (run ins (RotaryEncoder3 27 26 25 zeroed))) = 1%nat /\
  count_call onCW (snd (run ins (RotaryEncoder3 27 26 25 zeroed))) = 0%nat.
Proof.
  cbv zeta. split; [left; reflexivity|].
  pose proof (table_half_step_and_back_reports_step 27 26 25 zeroed
    [poll_at 0 true true true; poll_at 1 true true false;
     poll_at 2 true false false; poll_at 3 true true false;
     poll_at 4 true true true]) as [H _].
  cbv zeta in H. exact (H (or_introl eq_refl)).
Defined.

(** ** The cleaning debouncer on its own members *)

Lemma cleaning_view_step (i : Input) (s : State) :
  cleaning_members (fst (_debounceRotaryByCleaning i s)) =
    fst (cleaning_step (cleaning_members s) (levels i)) /\
  rotary_calls (snd (_debounceRotaryByCleaning i s)) =
    snd (cleaning_step (cleaning_members s) (levels i)).
Proof.
  destruct s, i; unfold cleaning_step, cleaning_members, cleaning_state_of,
    levels, _debounceRotaryByCleaning.
  break_if; split; reflexivity.
Qed.

(** In cleaning mode the rotary side of a poll is [cleaning_step]. *)
Lemma loop_cleaning_view (i : Input) (s : State) :
  _debouncingRotEncByTable s = false ->
  cleaning_members (fst (loop i s)) =
    fst (cleaning_step (cleaning_members s) (levels i)) /\
  rotary_calls (snd (loop i s)) =
    snd (cleaning_step (cleaning_members s) (levels i)).
Proof.
  intros Hm.
  pose proof (loop_rotary i s) as (Hs & Hc). cbv zeta in Hs, Hc.
  rewrite Hm in Hs, Hc. rewrite Hs, Hc.
  pose proof (button_frame i s) as (_ & Hcm & _ & _). rewrite <- Hcm.
  apply cleaning_view_step.
Qed.

Lemma run_cleaning_view (ins : list Input) (s : State) :
  _debouncingRotEncByTable s = false ->
  cleaning_members (fst (run ins s)) =
    fst (cleaning_run (cleaning_members s) (map levels ins)) /\
  rotary_calls (snd (run ins s)) =
    snd (cleaning_run (cleaning_members s) (map levels ins)).
Proof.
  revert s. induction ins as [|i ins IH]; intros s Hm.
  - split; reflexivity.
  - cbn [run map cleaning_run].
    pose proof (loop_cleaning_view i s Hm) as (Hv & Hc).
    pose proof (loop_keeps_mode i s) as Hk.
    destruct (loop i s) as [s1 t1]. cbn [fst snd] in *.
    destruct (cleaning_step (cleaning_members s) (levels i)) as [v1 c1].
    cbn [fst snd] in *. subst v1 c1.
    assert (Hm1 : _debouncingRotEncByTable s1 = false) by congruence.
    specialize (IH s1 Hm1). destruct IH as (IHv & IHc).
    destruct (run ins s1) as [s2 t2]. cbn [fst snd] in *.
    destruct (cleaning_run (cleaning_members s1) (map levels ins)) as [v2 c2].
    cbn [fst snd] in *. rewrite rotary_calls_app. split; congruence.
Qed.

Lemma cleaning_step_settles (v : Z * Z * Z * Z * Z * Z * Z * Z)
    (l : bool * bool) :
  cleaning_settled l (fst (cleaning_step v l)).
Proof.
  unfold cleaning_step. cbn [fst].
  pose proof (cleaning_polled (mkInput true (fst l) (snd l) 0 0 0)
                (cleaning_state_of v)) as H.
  cbv zeta in H. cbn [in_clk in_data] in H.
  destruct (fst (_debounceRotaryByCleaning _ (cleaning_state_of v))).
  unfold cleaning_settled, cleaning_members. cbn in *. tauto.
Qed.

Lemma cleaning_step_repeat (v : Z * Z * Z * Z * Z * Z * Z * Z)
    (l : bool * bool) :
  cleaning_settled l v -> cleaning_step v l = (v, []).
Proof.
  destruct v as [[[[[[[a b] c] d] e] f] g] h].
  unfold cleaning_settled. intros (-> & -> & -> & -> & -> & ->).
  unfold cleaning_step.
  rewrite cleaning_poll_repeat; reflexivity.
Qed.

Lemma cleaning_run_compress (ls : list (bool * bool))
    (v : Z * Z * Z * Z * Z * Z * Z * Z) :
  cleaning_run v ls = cleaning_run v (compress ls).
Proof.
  revert v. induction ls as [|x r IH]; intros v; [reflexivity|].
  destruct r as [|y r'].
  - reflexivity.
  - change (compress (x :: y :: r'))
      with (if levels_eqb x y then compress (y :: r')
            else x :: compress (y :: r')).
    destruct (levels_eqb x y) eqn:E.
    + apply levels_eqb_eq in E. subst y.
      rewrite <- IH.
      cbn [cleaning_run].
      pose proof (cleaning_step_settles v x) as Hp.
      destruct (cleaning_step v x) as [v1 c1]. cbn [fst] in Hp.
      rewrite (cleaning_step_repeat v1 x Hp).
      destruct (cleaning_run v1 r') as [v2 c2]. reflexivity.
    + change (cleaning_run v (x :: y :: r'))
        with (let '(v1, c1) := cleaning_step v x in
              let '(v2, c2) := cleaning_run v1 (y :: r') in (v2, c1 ++ c2)).
      change (cleaning_run v (x :: compress (y :: r')))
        with (let '(v1, c1) := cleaning_step v x in
              let '(v2, c2) := cleaning_run v1 (compress (y :: r')) in
              (v2, c1 ++ c2)).
      destruct (cleaning_step v x) as [v1 c1]. rewrite <- IH. reflexivity.
Qed.

(** ** The cleaning debouncer along a detent *)

(** Run one step of the cleaning debouncer symbolically. *)
Ltac simp_conds :=
  repeat (progress (cbn; decide_cond;
                    rewrite ?andb_false_r, ?andb_true_r, ?orb_false_r,
                      ?orb_true_r)).

Ltac split_conds :=
  repeat (simp_conds;
          match goal with
          | |- context [if ?c then _ else _] => destruct c eqn:?
          end);
  simp_conds.

Ltac bool_hyps :=
  repeat match goal with
         | H : _ && _ = true |- _ => apply andb_true_iff in H; destruct H
         | H : negb _ = true |- _ => apply negb_true_iff in H
         | H : negb _ = false |- _ => apply negb_false_iff in H
         end.

Ltac step_cleaning :=
  unfold cleaning_step, cleaning_state_of,
    _debounceRotaryByCleaning, cleaning_members, level, HIGH, LOW;
  split_conds.

Lemma cleaning_constructed_view (pinClk pinData pinButton : Z)
    (u : Indeterminate) :
  let s := setDebouncingRotEncByTable false
             (RotaryEncoder3 pinClk pinData pinButton u) in
  _debouncingRotEncByTable s = false /\
  cleaning_members s =
    (HIGH, LOW, any_cleanedClkState u, HIGH,
     HIGH, any_prevDataState u, any_cleanedDataState u,
     any_prevCleanedDataState u).
Proof. split; reflexivity. Qed.

(** The first poll at rest brings all members but the cleaned data to
    the rest levels and reports nothing. *)
Lemma cleaning_step_first_rest (g1 g2 g3 g4 : Z) :
  exists x,
    cleaning_step (HIGH, LOW, g1, HIGH, HIGH, g2, g3, g4) (true, true) =
      ((1, 1, 1, 1, 1, 1, x, x), []).
Proof.
  step_cleaning;
    repeat match goal with
           | H : negb (_ =? _) = false |- _ =>
               apply negb_false_iff, Z.eqb_eq in H; subst
           end;
    eexists; reflexivity.
Qed.

Lemma cleaning_step_rest_10 (x : Z) :
  cleaning_step (1, 1, 1, 1, 1, 1, x, x) (true, false) =
    ((1, 1, 1, 1, 0, 0, 1, 1), []).
Proof. step_cleaning; reflexivity. Qed.

Lemma cleaning_step_rest_01 (x : Z) :
  cleaning_step (1, 1, 1, 1, 1, 1, x, x) (false, true) =
    ((0, 0, 1, 1, 1, 1, x, x), []).
Proof. step_cleaning; reflexivity. Qed.

Lemma cleaning_step_01_00 (x : Z) :
  cleaning_step (0, 0, 1, 1, 1, 1, x, x) (false, false) =
    ((0, 0, 1, 1, 0, 0, 0, 0), []).
Proof. step_cleaning; reflexivity. Qed.

Lemma cleaning_paths (g1 g2 g3 g4 : Z) :
  let v := (HIGH, LOW, g1, HIGH, HIGH, g2, g3, g4) in
  snd (cleaning_run v cw_detent) = [onCW] /\
  snd (cleaning_run v ccw_detent) = [onCCW] /\
  snd (cleaning_run v cw_half_and_back) = [] /\
  snd (cleaning_run v ccw_half_and_back) = [].
Proof.
  cbv zeta.
  destruct (cleaning_step_first_rest g1 g2 g3 g4) as (x & H1).
  unfold cw_detent, ccw_detent, cw_half_and_back, ccw_half_and_back.
  repeat split.
  - cbn [cleaning_run]. rewrite H1, cleaning_step_rest_10. reflexivity.
  - cbn [cleaning_run].
    rewrite H1, cleaning_step_rest_01, cleaning_step_01_00. reflexivity.
  - cbn [cleaning_run]. rewrite H1, cleaning_step_rest_10. reflexivity.
  - cbn [cleaning_run].
    rewrite H1, cleaning_step_rest_01, cleaning_step_01_00. reflexivity.
Qed.



(** X8: in cleaning mode, half a detent and back to rest, in either
    direction, reports no step at all. *)
Theorem cleaning_half_step_and_back_reports_nothing :
  forall (pinClk pinData pinButton : Z) (u : Indeterminate)
         (ins : list Input),
    walks_from_rest cw_half_and_back ins \/
    walks_from_rest ccw_half_and_back ins ->
    rotary_calls
      (snd (run ins (setDebouncingRotEncByTable false
                       (RotaryEncoder3 pinClk pinData pinButton u)))) = [].
Proof.
  intros pinClk pinData pinButton u ins H.
  pose proof (cleaning_constructed_view pinClk pinData pinButton u)
    as (Hm & Hv).
  pose proof (run_cleaning_view ins _ Hm) as (_ & Hcalls).
  rewrite Hv, cleaning_run_compress in Hcalls. rewrite Hcalls.
  pose proof (cleaning_paths (any_cleanedClkState u) (any_prevDataState u)
                (any_cleanedDataState u) (any_prevCleanedDataState u))
    as (_ & _ & Hcw & Hccw).
  cbv zeta in Hcw, Hccw. unfold walks_from_rest in H.
  destruct H as [E | E]; rewrite E; assumption.
Qed.

Lemma cleaning_half_step_and_back_reports_nothing_witness :
  let ins := [poll_at 0 true true true; poll_at 1 true true false;
              poll_at 2 true false false; poll_at 3 true true false;
              poll_at 4 true true true] in
  walks_from_rest cw_half_and_back ins /\
  rotary_calls
    (snd (run ins (setDebouncingRotEncByTable false
                     (RotaryEncoder3 27 26 25 zeroed)))) = [].
Proof.
  cbv zeta. split; [reflexivity|].
  apply cleaning_half_step_and_back_reports_nothing.
  left. reflexivity.
Defined.

(** ** The cleaning debouncer: contact bounce on one line *)

(** While the data line is steady, a step of the cleaning debouncer
    reports nothing, or reports a clockwise step and leaves the cleaned
    clock at the data level. *)
Lemma cleaning_step_data_steady (d c : bool)
    (v : Z * Z * Z * Z * Z * Z * Z * Z) :
  data_steady d v ->
  data_steady d (fst (cleaning_step v (c, d))) /\
  cleaned_data_of (fst (cleaning_step v (c, d))) = cleaned_data_of v /\
  ((snd (cleaning_step v (c, d)) = [] /\
    (cleaned_clk_of (fst (cleaning_step v (c, d))) = cleaned_clk_of v \/
     cleaned_clk_of (fst (cleaning_step v (c, d))) = level d)) \/
   (snd (cleaning_step v (c, d)) = [onCW] /\
    cleaned_clk_of v = LOW /\
    cleaned_clk_of (fst (cleaning_step v (c, d))) = HIGH /\ d = true)).
Proof.
  destruct v as [[[[[[[a b] cc] pcc] e] f] cd] pcd].
  unfold data_steady. intros (-> & -> & ->).
  unfold cleaning_step, cleaning_state_of, _debounceRotaryByCleaning,
    cleaning_members, cleaned_clk_of, cleaned_data_of, data_steady.
  destruct c, d; unfold level, HIGH, LOW; split_conds;
    repeat split; auto; try lia;
    bool_hyps; right; repeat split; auto; lia.
Qed.

(** The same with the lines exchanged: while the clock line is steady, a
    step reports nothing or a counter-clockwise step. *)
Lemma cleaning_step_clk_steady (c d : bool)
    (v : Z * Z * Z * Z * Z * Z * Z * Z) :
  clk_steady c v ->
  clk_steady c (fst (cleaning_step v (c, d))) /\
  cleaned_clk_of (fst (cleaning_step v (c, d))) = cleaned_clk_of v /\
  ((snd (cleaning_step v (c, d)) = [] /\
    (cleaned_data_of (fst (cleaning_step v (c, d))) = cleaned_data_of v \/
     cleaned_data_of (fst (cleaning_step v (c, d))) = level c)) \/
   (snd (cleaning_step v (c, d)) = [onCCW] /\
    cleaned_data_of v = LOW /\
    cleaned_data_of (fst (cleaning_step v (c, d))) = HIGH /\ c = true)).
Proof.
  destruct v as [[[[[[[a b] cc] pcc] e] f] cd] pcd].
  unfold clk_steady. intros (-> & -> & ->).
  unfold cleaning_step, cleaning_state_of, _debounceRotaryByCleaning,
    cleaning_members, cleaned_clk_of, cleaned_data_of, clk_steady.
  destruct c, d; unfold level, HIGH, LOW; split_conds;
    repeat split; auto; try lia;
    bool_hyps; right; repeat split; auto; lia.
Qed.

Lemma cleaning_run_data_steady_silent (d : bool) (ls : list (bool * bool)) :
  forall v,
    data_steady d v ->
    d = false \/ cleaned_clk_of v <> LOW ->
    Forall (fun l => snd l = d) ls ->
    snd (cleaning_run v ls) = [].
Proof.
  induction ls as [|[c d'] ls IH]; intros v Hv Hs Hall; [reflexivity|].
  inversion Hall as [|? ? Hd Hls]; subst. cbn [snd] in *.
  cbn [cleaning_run].
  pose proof (cleaning_step_data_steady d' c v Hv) as (Hv1 & _ & Hcase).
  destruct (cleaning_step v (c, d')) as [v1 c1]. cbn [fst snd] in *.
  specialize (IH v1 Hv1).
  destruct (cleaning_run v1 ls) as [v2 c2]. cbn [snd] in *.
  destruct Hcase as [(-> & Hcc) | (_ & Hlow & _ & Ht)].
  - cbn [app]. apply IH; [|assumption].
    destruct Hs as [-> | Hnz]; [left; reflexivity|].
    destruct Hcc as [E | E]; rewrite E; [right; assumption|].
    destruct d'; [right; discriminate | left; reflexivity].
  - exfalso. destruct Hs as [-> | Hnz]; [discriminate Ht | exact (Hnz Hlow)].
Qed.

Lemma cleaning_run_data_steady (d : bool) (ls : list (bool * bool)) :
  forall v,
    data_steady d v ->
    Forall (fun l => snd l = d) ls ->
    snd (cleaning_run v ls) = [] \/ snd (cleaning_run v ls) = [onCW].
Proof.
  induction ls as [|[c d'] ls IH]; intros v Hv Hall; [left; reflexivity|].
  inversion Hall as [|? ? Hd Hls]; subst. cbn [snd] in *.
  cbn [cleaning_run].
  pose proof (cleaning_step_data_steady d' c v Hv) as (Hv1 & _ & Hcase).
  pose proof (cleaning_run_data_steady_silent d' ls) as Hsil.
  destruct (cleaning_step v (c, d')) as [v1 c1]. cbn [fst snd] in *.
  specialize (IH v1 Hv1 Hls). specialize (Hsil v1 Hv1).
  destruct (cleaning_run v1 ls) as [v2 c2]. cbn [snd] in *.
  destruct Hcase as [(-> & _) | (-> & _ & Hhigh & _)].
  - exact IH.
  - right. rewrite Hsil; [reflexivity | | assumption].
    right. rewrite Hhigh. discriminate.
Qed.

Lemma cleaning_run_clk_steady_silent (c : bool) (ls : list (bool * bool)) :
  forall v,
    clk_steady c v ->
    c = false \/ cleaned_data_of v <> LOW ->
    Forall (fun l => fst l = c) ls ->
    snd (cleaning_run v ls) = [].
Proof.
  induction ls as [|[c' d] ls IH]; intros v Hv Hs Hall; [reflexivity|].
  inversion Hall as [|? ? Hd Hls]; subst. cbn [fst] in *.
  cbn [cleaning_run].
  pose proof (cleaning_step_clk_steady c' d v Hv) as (Hv1 & _ & Hcase).
  destruct (cleaning_step v (c', d)) as [v1 c1]. cbn [fst snd] in *.
  specialize (IH v1 Hv1).
  destruct (cleaning_run v1 ls) as [v2 c2]. cbn [snd] in *.
  destruct Hcase as [(-> & Hcc) | (_ & Hlow & _ & Ht)].
  - cbn [app]. apply IH; [|assumption].
    destruct Hs as [-> | Hnz]; [left; reflexivity|].
    destruct Hcc as [E | E]; rewrite E; [right; assumption|].
    destruct c'; [right; discriminate | left; reflexivity].
  - exfalso. destruct Hs as [-> | Hnz]; [discriminate Ht | exact (Hnz Hlow)].
Qed.

Lemma cleaning_run_clk_steady (c : bool) (ls : list (bool * bool)) :
  forall v,
    clk_steady c v ->
    Forall (fun l => fst l = c) ls ->
    snd (cleaning_run v ls) = [] \/ snd (cleaning_run v ls) = [onCCW].
Proof.
  induction ls as [|[c' d] ls IH]; intros v Hv Hall; [left; reflexivity|].
  inversion Hall as [|? ? Hd Hls]; subst. cbn [fst] in *.
  cbn [cleaning_run].
  pose proof (cleaning_step_clk_steady c' d v Hv) as (Hv1 & _ & Hcase).
  pose proof (cleaning_run_clk_steady_silent c' ls) as Hsil.
  destruct (cleaning_step v (c', d)) as [v1 c1]. cbn [fst snd] in *.
  specialize (IH v1 Hv1 Hls). specialize (Hsil v1 Hv1).
  destruct (cleaning_run v1 ls) as [v2 c2]. cbn [snd] in *.
  destruct Hcase as [(-> & _) | (-> & _ & Hhigh & _)].
  - exact IH.
  - right. rewrite Hsil; [reflexivity | | assumption].
    right. rewrite Hhigh. discriminate.
Qed.

Lemma polled_cleaning_steady (i : Input) (s : State) :
  _debouncingRotEncByTable s = false -> polled i s ->
  data_steady (in_data i) (cleaning_members s) /\
  clk_steady (in_clk i) (cleaning_members s).
Proof.
  intros Hm [_ Hp]. rewrite Hm in Hp.
  destruct Hp as (_ & H2 & _ & H4 & H5 & H6).
  unfold data_steady, clk_steady, cleaning_members. tauto.
Qed.

(** X9: in cleaning mode, after any poll, contact bounce on one line while
    the other line holds its level reports at most one step in all: polls
    that all sample the data level of that poll, however the clock level
    jumps, report nothing or one clockwise step; polls that all sample its
    clock level, however the data level jumps, report nothing or one
    counter-clockwise step. *)
Theorem cleaning_bounce_on_one_line :
  forall (i0 : Input) (s0 : State) (ins : list Input),
    _debouncingRotEncByTable s0 = false ->
    let s := fst (loop i0 s0) in
    (Forall (fun i => in_data i = in_data i0) ins ->
     rotary_calls (snd (run ins s)) = [] \/
     rotary_calls (snd (run ins s)) = [onCW]) /\
    (Forall (fun i => in_clk i = in_clk i0) ins ->
     rotary_calls (snd (run ins s)) = [] \/
     rotary_calls (snd (run ins s)) = [onCCW]).
Proof.
  intros i0 s0 ins Hm0. cbv zeta.
  assert (Hm : _debouncingRotEncByTable (fst (loop i0 s0)) = false)
    by (rewrite loop_keeps_mode; exact Hm0).
  pose proof (polled_cleaning_steady i0 _ Hm (loop_polled i0 s0)) as (Hd & Hc).
  destruct (run_cleaning_view ins _ Hm) as (_ & Hcalls). rewrite Hcalls.
  split; intros Hall.
  - apply (cleaning_run_data_steady (in_data i0)); [exact Hd|].
    apply Forall_map. exact Hall.
  - apply (cleaning_run_clk_steady (in_clk i0)); [exact Hc|].
    apply Forall_map. exact Hall.
Qed.

(** The clock contact chatters while it closes, data high. *)
Lemma cleaning_bounce_on_one_line_witness :
  let s0 := setDebouncingRotEncByTable false
              (RotaryEncoder3 27 26 25 zeroed) in
  let i0 := poll_at 0 true true true in
  let ins := [poll_at 1 true false true; poll_at 2 true true true;
              poll_at 3 true false true; poll_at 4 true true true] in
  _debouncingRotEncByTable s0 = false /\
  Forall (fun i => in_data i = in_data i0) ins /\
  (rotary_calls (snd (run ins (fst (loop i0 s0)))) = [] \/
   rotary_calls (snd (run ins (fst (loop i0 s0)))) = [onCW]).
Proof.
  cbv zeta. split; [reflexivity|].
  assert (H : Forall (fun i => in_data i = true)
                [poll_at 1 true false true; poll_at 2 true true true;
                 poll_at 3 true false true; poll_at 4 true true true])
    by (repeat constructor).
  split; [exact H|].
  apply (proj1 (cleaning_bounce_on_one_line (poll_at 0 true true true)
                  (setDebouncingRotEncByTable false
                     (RotaryEncoder3 27 26 25 zeroed)) _ eq_refl)).
  exact H.
Defined.

(** ** The channels do not interfere *)

Lemma button_view_step (i : Input) (s : State) :
  button_core (fst (_debounceButton i s)) =
    fst (button_step (button_core s) (button_input i)) /\
  calls (snd (_debounceButton i s)) =
    snd (button_step (button_core s) (button_input i)).
Proof.
  destruct s, i; unfold button_step, button_core, button_state_of,
    button_input, _debounceButton.
  break_if; split; reflexivity.
Qed.

Lemma button_calls_button (i : Input) (s : State) :
  button_calls (snd (_debounceButton i s)) = calls (snd (_debounceButton i s)).
Proof.
  destruct s; unfold _debounceButton. break_if; reflexivity.
Qed.

Lemma loop_button_view (i : Input) (s : State) :
  button_core (fst (loop i s)) =
    fst (button_step (button_core s) (button_input i)) /\
  button_calls (snd (loop i s)) =
    snd (button_step (button_core s) (button_input i)).
Proof.
  pose proof (loop_button i s) as (Hm & Hc & _).
  pose proof (button_view_step i s) as (Hv & Hcs).
  rewrite Hc, button_calls_button, Hcs. split; [|reflexivity].
  rewrite <- Hv. unfold button_core, button_members in *.
  injection Hm as -> _ -> -> ->. reflexivity.
Qed.

Lemma run_button_view (ins : list Input) (s : State) :
  button_core (fst (run ins s)) =
    fst (button_run (button_core s) (map button_input ins)) /\
  button_calls (snd (run ins s)) =
    snd (button_run (button_core s) (map button_input ins)).
Proof.
  revert s. induction ins as [|i ins IH]; intros s.
  - split; reflexivity.
  - cbn [run map button_run].
    pose proof (loop_button_view i s) as (Hv & Hc).
    destruct (loop i s) as [s1 t1]. cbn [fst snd] in *.
    destruct (button_step (button_core s) (button_input i)) as [v1 c1].
    cbn [fst snd] in *. subst v1 c1.
    specialize (IH s1). destruct IH as (IHv & IHc).
    destruct (run ins s1) as [s2 t2]. cbn [fst snd] in *.
    destruct (button_run (button_core s1) (map button_input ins)) as [v2 c2].
    cbn [fst snd] in *. rewrite button_calls_app. split; congruence.
Qed.

(** Polled without mode-selecting callbacks, the two channels are
    independent of each other. *)
Lemma run_channels (ins ins' : list Input) (s s' : State) :
  (_debouncingRotEncByTable s = _debouncingRotEncByTable s' ->
   table_view s = table_view s' ->
   cleaning_members s = cleaning_members s' ->
   map levels ins = map levels ins' ->
   rotary_calls (snd (run ins s)) = rotary_calls (snd (run ins' s'))) /\
  (button_core s = button_core s' ->
   map button_input ins = map button_input ins' ->
   button_calls (snd (run ins s)) = button_calls (snd (run ins' s'))).
Proof.
  split.
  - intros Hm Ht Hc Hl.
    destruct (_debouncingRotEncByTable s) eqn:E.
    + destruct (run_table_view ins s E) as (_ & H1).
      destruct (run_table_view ins' s' (eq_sym Hm)) as (_ & H2).
      congruence.
    + destruct (run_cleaning_view ins s E) as (_ & H1).
      destruct (run_cleaning_view ins' s' (eq_sym Hm)) as (_ & H2).
      congruence.
  - intros Hb Hi.
    destruct (run_button_view ins s) as (_ & H1).
    destruct (run_button_view ins' s') as (_ & H2).
    congruence.
Qed.

(** ** The debouncer that is not selected *)



(** ** One press of the button *)

Lemma loop_release_bounce (i : Input) (s : State) :
  _buttonState s = LOW -> in_button i = true ->
  wsub (in_millis1 i) (_msButtonDown s) < _msDebounce ->
  button_core (fst (loop i s)) =
    (HIGH, _clickCount s, _msButtonDown s, _msFirstClick s) /\
  button_calls (snd (loop i s)) = [].
Proof.
  intros Hs Hi H1.
  pose proof (loop_button i s) as (Hm & Hc & _).
  pose proof (button_release_bounce i s Hs Hi H1) as (Hm' & Hc').
  rewrite Hm' in Hm. rewrite Hc, (button_calls_of_calls _ _ Hc').
  split; [exact (button_core_of_members _ _ _ _ _ _ Hm) | reflexivity].
Qed.

Lemma loop_release_long (i : Input) (s : State) :
  _buttonState s = LOW -> in_button i = true ->
  _msDebounce <= wsub (in_millis1 i) (_msButtonDown s) ->
  _msLongClick < wsub (in_millis2 i) (_msButtonDown s) ->
  button_core (fst (loop i s)) =
    (HIGH, _clickCount s, _msButtonDown s, _msFirstClick s) /\
  button_calls (snd (loop i s)) = [onLongClick].
Proof.
  intros Hs Hi H1 H2.
  pose proof (loop_button i s) as (Hm & Hc & _).
  pose proof (button_release_long i s Hs Hi H1 H2) as (Hm' & Hc').
  rewrite Hm' in Hm. rewrite Hc, (button_calls_of_calls _ _ Hc').
  split; [exact (button_core_of_members _ _ _ _ _ _ Hm) | reflexivity].
Qed.

Lemma loop_click (i : Input) (s : State) :
  _buttonState s = level (in_button i) ->
  _clickCount s = 1 ->
  _msDoubleClickGap < wsub (in_millis1 i) (_msFirstClick s) ->
  button_core (fst (loop i s)) = (_buttonState s, 0, _msButtonDown s, 0) /\
  button_calls (snd (loop i s)) = [onClick].
Proof.
  intros Hs Hn Hg.
  pose proof (loop_button i s) as (Hm & Hc & _).
  pose proof (button_unchanged i s Hs) as (Hm' & Hc'). cbv zeta in *.
  assert (Hf : (_clickCount s =? 1) &&
               (wsub (in_millis1 i) (_msFirstClick s) >? _msDoubleClickGap)
               = true).
  { rewrite Hn, Z.gtb_ltb. apply andb_true_iff. split; [reflexivity|].
    apply Z.ltb_lt. exact Hg. }
  rewrite Hf in Hm', Hc'. cbn in Hm', Hc'.
  rewrite Hm' in Hm. rewrite Hc, (button_calls_of_calls _ _ Hc').
  split; [exact (button_core_of_members _ _ _ _ _ _ Hm) | reflexivity].
Qed.

(** The press edge and the polls while the button is held, from an idle
    classifier: nothing is reported and the press time is recorded. *)
Lemma run_press_and_hold (t0 : Z) (hold : list Z) (i1 : Input)
    (seg : list Input) (s : State) :
  _buttonState s = HIGH -> _clickCount s = 0 ->
  observes i1 (false, at_ms t0 0) ->
  Forall2 observes seg (polls false t0 hold) ->
  let s2 := fst (run seg (fst (loop i1 s))) in
  button_core s2 = (LOW, 0, at_ms t0 0, _msFirstClick s) /\
  button_calls (snd (loop i1 s)) = [] /\
  button_calls (snd (run seg (fst (loop i1 s)))) = [].
Proof.
  intros Hs Hn (Hb & Hm & _) Hseg. cbn [fst snd] in Hb, Hm. cbv zeta.
  destruct (loop_press i1 s Hs Hb) as (Hc1 & Ht1).
  pose proof Hc1 as Hc1'. core_fields Hc1'.
  destruct (run_quiet_polls false t0 hold seg (fst (loop i1 s)) Hseg Ebs)
    as (Hc2 & Ht2); [left; congruence|].
  rewrite Hc2, Hc1, Hn, Hm. repeat split; assumption.
Qed.

(** X12: from an idle classifier, a press that is released less than the
    50 ms debounce window after it was seen reports nothing, however the
    button is polled meanwhile and however long it is polled afterwards,
    and also when the millisecond clock wraps around meanwhile. *)
Theorem press_within_debounce_window_ignored :
  forall (t0 d : Z) (hold idle : list Z) (ins : list Input) (s : State),
    _buttonState s = HIGH -> _clickCount s = 0 ->
    0 <= d < _msDebounce ->
    Forall2 observes ins (single_press t0 d hold idle) ->
    button_calls (snd (run ins s)) = [].
Proof.
  intros t0 d hold idle ins s Hs Hn Hd H. unfold single_press in H.
  next_poll H i1 Hb1 Hm1. next_stretch H seg1.
  destruct (run_press_and_hold t0 hold i1 seg1 s Hs Hn
              (conj Hb1 Hm1) Hseg) as (Hc2 & Ht1 & Ht2).
  cbv zeta in Hc2. rewrite Ht1, Ht2.
  set (s2 := fst (run seg1 (fst (loop i1 s)))) in *. core_fields Hc2.
  next_poll H i2 Hb2 Hm2. destruct Hm2 as (Hm21 & _).
  destruct (loop_release_bounce i2 s2) as (Hc3 & Ht3);
    [assumption | assumption | |].
  { rewrite Hm21, Edn, wsub_at_ms; thresholds; lia. }
  rewrite Ht3. set (s3 := fst (loop i2 s2)) in *. core_fields Hc3.
  destruct (run_quiet_polls true t0 idle _ s3 H) as (_ & Ht4);
    [assumption | left; congruence |].
  rewrite Ht4. reflexivity.
Qed.

Lemma press_within_debounce_window_ignored_witness :
  let sched := single_press 4294967290 20 [5; 10] [30; 500; 1000] in
  let ins := map (fun p => poll_at (snd p) (fst p) true true) sched in
  let s := RotaryEncoder3 27 26 25 zeroed in
  (_buttonState s = HIGH /\ _clickCount s = 0 /\ 0 <= 20 < _msDebounce /\
   Forall2 observes ins sched) /\
  button_calls (snd (run ins s)) = [].
Proof.
  cbv zeta.
  assert (Hd : 0 <= 20 < _msDebounce) by (unfold _msDebounce; lia).
  assert (Ho : Forall2 observes
                 (map (fun p => poll_at (snd p) (fst p) true true)
                    (single_press 4294967290 20 [5; 10] [30; 500; 1000]))
                 (single_press 4294967290 20 [5; 10] [30; 500; 1000]))
    by (repeat constructor).
  split; [split; [reflexivity|]; split; [reflexivity|]; auto|].
  apply (press_within_debounce_window_ignored
           4294967290 20 [5; 10] [30; 500; 1000]).
  - reflexivity.
  - reflexivity.
  - exact Hd.
  - exact Ho.
Defined.

(** X13: from an idle classifier, a press that is released more than the
    300 ms long-click threshold after it was seen reports exactly one
    LongClick, on the poll that sees the release, and nothing else,
    however the button is polled meanwhile and afterwards. *)
Theorem long_press_reports_one_long_click :
  forall (t0 d : Z) (hold idle : list Z) (ins : list Input) (s : State),
    _buttonState s = HIGH -> _clickCount s = 0 ->
    _msLongClick < d < 4294967296 ->
    Forall2 observes ins (single_press t0 d hold idle) ->
    button_calls (snd (run ins s)) = [onLongClick].
Proof.
  intros t0 d hold idle ins s Hs Hn Hd H. unfold single_press in H.
  next_poll H i1 Hb1 Hm1. next_stretch H seg1.
  destruct (run_press_and_hold t0 hold i1 seg1 s Hs Hn
              (conj Hb1 Hm1) Hseg) as (Hc2 & Ht1 & Ht2).
  cbv zeta in Hc2. rewrite Ht1, Ht2.
  set (s2 := fst (run seg1 (fst (loop i1 s)))) in *. core_fields Hc2.
  next_poll H i2 Hb2 Hm2. destruct Hm2 as (Hm21 & Hm22 & _).
  destruct (loop_release_long i2 s2) as (Hc3 & Ht3);
    [assumption | assumption | | |].
  { rewrite Hm21, Edn, wsub_at_ms; thresholds; lia. }
  { rewrite Hm22, Edn, wsub_at_ms; thresholds; lia. }
  rewrite Ht3. set (s3 := fst (loop i2 s2)) in *. core_fields Hc3.
  destruct (run_quiet_polls true t0 idle _ s3 H) as (_ & Ht4);
    [assumption | left; congruence |].
  rewrite Ht4. reflexivity.
Qed.

Lemma long_press_reports_one_long_click_witness :
  let sched := single_press 1000 310 [100; 200; 300] [320; 1000] in
  let ins := map (fun p => poll_at (snd p) (fst p) true true) sched in
  let s := RotaryEncoder3 27 26 25 zeroed in
  (_buttonState s = HIGH /\ _clickCount s = 0 /\
   _msLongClick < 310 < 4294967296 /\ Forall2 observes ins sched) /\
  button_calls (snd (run ins s)) = [onLongClick].
Proof.
  cbv zeta.
  assert (Hd : _msLongClick < 310 < 4294967296)
    by (unfold _msLongClick; lia).
  assert (Ho : Forall2 observes
                 (map (fun p => poll_at (snd p) (fst p) true true)
                    (single_press 1000 310 [100; 200; 300] [320; 1000]))
                 (single_press 1000 310 [100; 200; 300] [320; 1000]))
    by (repeat constructor).
  split; [split; [reflexivity|]; split; [reflexivity|]; auto|].
  apply (long_press_reports_one_long_click
           1000 310 [100; 200; 300] [320; 1000]).
  - reflexivity.
  - reflexivity.
  - exact Hd.
  - exact Ho.
Defined.

(** A stretch of polls at the level of the poll before them, judged by
    the clock reading each poll compares: while no click is pending, or
    one is pending within the gap, nothing changes. *)
Lemma run_quiet (b : bool) (seg : list Input) :
  forall (s : State),
    Forall (fun i => in_button i = b) seg ->
    _buttonState s = level b ->
    _clickCount s = 0 \/
    (_clickCount s = 1 /\
     Forall (fun i => wsub (in_millis1 i) (_msFirstClick s)
                      <= _msDoubleClickGap) seg) ->
    button_core (fst (run seg s)) = button_core s /\
    button_calls (snd (run seg s)) = [].
Proof.
  induction seg as [|i seg IH]; intros s Hb Hs Hq; [split; reflexivity|].
  inversion Hb as [|? ? Hi Hb']; subst.
  rewrite run_cons_fst, run_cons_snd, button_calls_app.
  destruct (loop_quiet i s) as (Hcore & Hcalls); [exact Hs | |].
  { destruct Hq as [H0 | [H1 Hall]]; [left; exact H0|right].
    split; [exact H1|]. inversion Hall; subst; assumption. }
  rewrite Hcalls.
  pose proof Hcore as Hcore'. unfold button_core in Hcore'.
  injection Hcore' as E1 E2 E3 E4.
  destruct (IH (fst (loop i s)) Hb') as (IHc & IHt).
  - congruence.
  - rewrite E2, E4. destruct Hq as [H0 | [H1 Hall]]; [left; exact H0|].
    right. split; [exact H1|]. inversion Hall; subst; assumption.
  - rewrite IHc, IHt. split; [exact Hcore | reflexivity].
Qed.

(** X14: one press from an idle classifier, followed by no further press,
    judged by the clock readings the polls take (a poll reads the clock up
    to three times, and the clock may tick in between).  Let the poll that
    sees the release read the clock, first, at least 50 ms after the first
    reading of the poll that saw the press and, second, at most 300 ms
    after it; its third reading starts the gap.  Then nothing is reported
    as long as every later poll first reads the clock within 250 ms of
    that third reading, and exactly one Click in all once a poll first
    reads it later than that: the Click is delivered by the first such
    poll.  Differences are taken modulo 2^32, as the clock wraps. *)
Theorem single_press_reports_one_click :
  forall (press release late : Input) (hold early rest : list Input)
         (s : State),
    _buttonState s = HIGH -> _clickCount s = 0 ->
    in_button press = false ->
    Forall (fun i => in_button i = false) hold ->
    in_button release = true ->
    Forall (fun i => in_button i = true) early ->
    in_button late = true ->
    Forall (fun i => in_button i = true) rest ->
    _msDebounce <= wsub (in_millis1 release) (in_millis1 press) ->
    wsub (in_millis2 release) (in_millis1 press) <= _msLongClick ->
    Forall (fun i => wsub (in_millis1 i) (in_millis3 release)
                     <= _msDoubleClickGap) early ->
    _msDoubleClickGap < wsub (in_millis1 late) (in_millis3 release) ->
    button_calls (snd (run (press :: hold ++ release :: early) s)) = [] /\
    button_calls
      (snd (run (press :: hold ++ release :: early ++ late :: rest) s))
      = [onClick].
Proof.
  intros press release late hold early rest s Hs Hn Hbp Hbh Hbr Hbe Hbl
    Hbq Hmin Hmax Hearly Hlate.
  (* the press edge *)
  destruct (loop_press press s Hs Hbp) as (Hc1 & Ht1).
  set (s1 := fst (loop press s)) in *. core_fields Hc1.
  (* held *)
  destruct (run_quiet false hold s1 Hbh Ebs) as (Hc2 & Ht2);
    [left; congruence|].
  set (s2 := fst (run hold s1)) in *. core_fields Hc2.
  (* the release edge *)
  assert (Hd2 : _msButtonDown s2 = in_millis1 press) by congruence.
  assert (Hn2 : _clickCount s2 = 0) by congruence.
  destruct (loop_release_click release s2) as (Hc3 & Ht3);
    [congruence | assumption | rewrite Hd2; exact Hmin
     | rewrite Hd2; exact Hmax |].
  rewrite Hn2 in Hc3. change (u8 (0 + 1)) with 1 in Hc3.
  change (1 =? 1) with true in Hc3. cbv iota in Hc3.
  set (s3 := fst (loop release s2)) in *. core_fields Hc3.
  (* released, the click pending *)
  destruct (run_quiet true early s3 Hbe Ebs1) as (Hc4 & Ht4).
  { right. split; [assumption|]. rewrite Efc1. exact Hearly. }
  set (s4 := fst (run early s3)) in *. core_fields Hc4.
  assert (Hhead : forall tl,
    button_calls (snd (run (press :: hold ++ release :: tl) s)) =
      button_calls (snd (run tl s3))).
  { intros tl. rewrite run_cons_snd, button_calls_app, Ht1.
    fold s1. rewrite run_app_snd, button_calls_app, Ht2. fold s2.
    rewrite run_cons_snd, button_calls_app, Ht3. reflexivity. }
  split; rewrite Hhead.
  - exact Ht4.
  - rewrite run_app_snd, button_calls_app, Ht4. fold s4.
    rewrite run_cons_snd, button_calls_app.
    destruct (loop_click late s4) as (Hc5 & Ht5).
    { rewrite Hbl. change (level true) with HIGH. congruence. }
    { congruence. }
    { replace (_msFirstClick s4) with (in_millis3 release) by congruence.
      exact Hlate. }
    rewrite Ht5. set (s5 := fst (loop late s4)) in *. core_fields Hc5.
    destruct (run_quiet true rest s5 Hbq) as (_ & Ht6);
      [change (level true) with HIGH; congruence | left; assumption |].
    rewrite Ht6. reflexivity.
Qed.

(** A press whose release poll sees the clock tick between its readings:
    1299, 1300 and 1301 ms for a press seen at 1000 ms. *)
Lemma single_press_reports_one_click_witness :
  let s := RotaryEncoder3 27 26 25 zeroed in
  let press := poll_at 1000 false true true in
  let hold := [poll_at 1050 false true true] in
  let release := mkInput true true true 1299 1300 1301 in
  let early := [poll_at 1400 true true true; poll_at 1551 true true true] in
  let late := mkInput true true true 1552 1552 1553 in
  let rest := [poll_at 1600 true true true; poll_at 2000 true true true] in
  (_msDebounce <= wsub (in_millis1 release) (in_millis1 press) /\
   wsub (in_millis2 release) (in_millis1 press) <= _msLongClick /\
   _msDoubleClickGap < wsub (in_millis1 late) (in_millis3 release)) /\
  button_calls (snd (run (press :: hold ++ release :: early) s)) = [] /\
  button_calls
    (snd (run (press :: hold ++ release :: early ++ late :: rest) s))
    = [onClick].
Proof.
  intros s press hold release early late rest.
  assert (H1 : _msDebounce <= wsub (in_millis1 release) (in_millis1 press))
    by (vm_compute; discriminate).
  assert (H2 : wsub (in_millis2 release) (in_millis1 press) <= _msLongClick)
    by (vm_compute; discriminate).
  assert (H3 : _msDoubleClickGap
               < wsub (in_millis1 late) (in_millis3 release))
    by (vm_compute; reflexivity).
  split; [split; [exact H1 | split; [exact H2 | exact H3]]|].
  apply (single_press_reports_one_click press release late hold early rest s);
    try reflexivity; try assumption.
  - repeat constructor.
  - repeat constructor.
  - repeat constructor.
  - repeat constructor; vm_compute; discriminate.
Defined.

(** ** The sketch: angular position *)

(** X15: the angle the sketch prints on a double click,
    [(18 * counter) % 360], is a multiple of 18 strictly between -360 and
    360 that carries the sign of the counter: for a counter of zero or
    more it is the angle within one revolution, [18 * (counter mod 20)];
    for a negative counter it is the negated angle of [-counter], for
    instance -18 and not 342 for a counter of -1. *)
Theorem position_follows_sign_of_counter :
  forall c : Z,
    int_range (18 * c) ->
    -360 < position c < 360 /\
    (18 | position c) /\
    (0 <= c -> position c = 18 * (c mod 20)) /\
    (c <= 0 -> position c = - (18 * ((- c) mod 20))).
Proof.
  intros c _. unfold position.
  assert (Hpos : forall x, 0 <= x -> Z.rem (18 * x) 360 = 18 * (x mod 20)).
  { intros x Hx. rewrite Z.rem_mod_nonneg by lia.
    change 360 with (18 * 20). apply Z.mul_mod_distr_l; lia. }
  assert (Hneg : forall x, x <= 0 ->
                 Z.rem (18 * x) 360 = - (18 * ((- x) mod 20))).
  { intros x Hx. replace (18 * x) with (- (18 * - x)) by lia.
    rewrite Z.rem_opp_l by lia. rewrite Hpos by lia. reflexivity. }
  split; [|split; [|split; [apply Hpos | apply Hneg]]].
  - destruct (Z.le_ge_cases 0 c) as [H | H].
    + rewrite Hpos by exact H. pose proof (Z.mod_pos_bound c 20). lia.
    + rewrite Hneg by exact H. pose proof (Z.mod_pos_bound (- c) 20). lia.
  - destruct (Z.le_ge_cases 0 c) as [H | H].
    + rewrite Hpos by exact H. exists (c mod 20). lia.
    + rewrite Hneg by exact H. exists (- ((- c) mod 20)). lia.
Qed.

Lemma position_follows_sign_of_counter_witness :
  int_range (18 * -1) /\ position (-1) = -18 /\
  -360 < position (-1) < 360.
Proof.
  assert (H : int_range (18 * -1)) by (unfold int_range; lia).
  split; [exact H|]. split; [reflexivity|].
  exact (proj1 (position_follows_sign_of_counter (-1) H)).
Defined.

(** ** The sketch: the counter *)

Lemma button_calls_cases (i : Input) (s : State) :
  calls (snd (_debounceButton i s)) = [] \/
  calls (snd (_debounceButton i s)) = [onClick] \/
  calls (snd (_debounceButton i s)) = [onLongClick] \/
  calls (snd (_debounceButton i s)) = [onDoubleClick].
Proof.
  destruct s; unfold _debounceButton. break_if; tauto.
Qed.

Lemma table_calls_cases (i : Input) (s : State) :
  calls (snd (_debounceRotaryByTable i s)) = [] \/
  calls (snd (_debounceRotaryByTable i s)) = [onCW] \/
  calls (snd (_debounceRotaryByTable i s)) = [onCCW].
Proof.
  rewrite table_poll. cbv zeta. break_if; try tauto. exfalso. lia.
Qed.

Lemma cleaning_calls_cases (i : Input) (s : State) :
  calls (snd (_debounceRotaryByCleaning i s)) = [] \/
  calls (snd (_debounceRotaryByCleaning i s)) = [onCW] \/
  calls (snd (_debounceRotaryByCleaning i s)) = [onCCW].
Proof.
  pose proof (cleaning_directions_exclusive i s) as Hex. revert Hex.
  destruct s; unfold _debounceRotaryByCleaning.
  break_if; intros Hex; try tauto; exfalso; apply Hex; cbn; tauto.
Qed.

(** A poll of the sketch that delivers neither a Click nor a LongClick is
    a poll of the encoder, with the counter moved by the step reported. *)
Lemma sketch_loop_tracks (i : Input) (k : Sketch) :
  ~ In onClick (calls (snd (loop i (ctrlKnob k)))) ->
  ~ In onLongClick (calls (snd (loop i (ctrlKnob k)))) ->
  ctrlKnob (sketch_loop i k) = fst (loop i (ctrlKnob k)) /\
  counter (sketch_loop i k) =
    counter k + net_steps (snd (loop i (ctrlKnob k))).
Proof.
  unfold sketch_loop, loop, net_steps, count_call.
  pose proof (button_calls_cases i (ctrlKnob k)) as Hb.
  destruct (_debounceButton i (ctrlKnob k)) as [s1 t1]. cbn [snd] in Hb.
  pose proof (table_calls_cases i s1) as Ht.
  pose proof (cleaning_calls_cases i s1) as Hc.
  assert (Hk1 : calls t1 = [] \/ calls t1 = [onDoubleClick] ->
                ctrlKnob (dispatch s1 t1 k) = s1 /\
                counter (dispatch s1 t1 k) = counter k).
  { unfold dispatch. intros [E | E]; rewrite E; split; reflexivity. }
  intros Hn1 Hn2.
  assert (Hb' : calls t1 = [] \/ calls t1 = [onDoubleClick]).
  { destruct (if _debouncingRotEncByTable s1
              then _debounceRotaryByTable i s1
              else _debounceRotaryByCleaning i s1) as [s2 t2].
    cbn [snd] in Hn1, Hn2. rewrite calls_app in Hn1, Hn2.
    destruct Hb as [E | [E | [E | E]]]; auto; exfalso;
      [apply Hn1 | apply Hn2]; rewrite E; cbn; tauto. }
  destruct (Hk1 Hb') as (Ek & Ec). clear Hk1.
  remember (dispatch s1 t1 k) as k1 eqn:Hk1def. clear Hk1def.
  rewrite Ek.
  assert (Hr : calls (snd (if _debouncingRotEncByTable s1
                           then _debounceRotaryByTable i s1
                           else _debounceRotaryByCleaning i s1)) = [] \/
               calls (snd (if _debouncingRotEncByTable s1
                           then _debounceRotaryByTable i s1
                           else _debounceRotaryByCleaning i s1)) = [onCW] \/
               calls (snd (if _debouncingRotEncByTable s1
                           then _debounceRotaryByTable i s1
                           else _debounceRotaryByCleaning i s1)) = [onCCW])
    by (destruct (_debouncingRotEncByTable s1); assumption).
  destruct (if _debouncingRotEncByTable s1
            then _debounceRotaryByTable i s1
            else _debounceRotaryByCleaning i s1) as [s2 t2].
  cbn [fst snd] in *. rewrite calls_app.
  unfold dispatch.
  destruct Hb' as [E1 | E1]; destruct Hr as [E2 | [E2 | E2]];
    rewrite E1, E2; cbn; rewrite ?Ec; split; try reflexivity; lia.
Qed.

Lemma net_steps_app (t1 t2 : Trace) :
  net_steps (t1 ++ t2) = net_steps t1 + net_steps t2.
Proof.
  unfold net_steps, count_call.
  rewrite !calls_app, !filter_app, !length_app. lia.
Qed.

Lemma sketch_run_tracks (ins : list Input) :
  forall k : Sketch,
    ~ In onClick (calls (snd (run ins (ctrlKnob k)))) ->
    ~ In onLongClick (calls (snd (run ins (ctrlKnob k)))) ->
    ctrlKnob (sketch_run ins k) = fst (run ins (ctrlKnob k)) /\
    counter (sketch_run ins k) =
      counter k + net_steps (snd (run ins (ctrlKnob k))).
Proof.
  induction ins as [|i ins IH]; intros k Hn1 Hn2.
  - split; [reflexivity|]. cbn. unfold net_steps. cbn. lia.
  - rewrite run_cons_fst, run_cons_snd in *. rewrite calls_app in Hn1, Hn2.
    rewrite in_app_iff in Hn1, Hn2.
    destruct (sketch_loop_tracks i k) as (Ek & Ec); [tauto | tauto |].
    cbn [sketch_run].
    destruct (IH (sketch_loop i k)) as (IHk & IHc);
      [rewrite Ek; tauto | rewrite Ek; tauto |].
    rewrite IHk, IHc, Ek, Ec, net_steps_app. split; [reflexivity | lia].
Qed.

(** X16: as long as the polls deliver neither a Click nor a LongClick
    (and the counter has room within [int] for one step per poll), the
    sketch's encoder goes through the states of the encoder polled on its
    own and the counter moves by the net rotation reported: one up for
    every clockwise step, one down for every counter-clockwise step. *)
Theorem sketch_counter_tracks_rotation :
  forall (ins : list Input) (k : Sketch),
    int_range (counter k - Z.of_nat (length ins)) ->
    int_range (counter k + Z.of_nat (length ins)) ->
    ~ In onClick (calls (snd (run ins (ctrlKnob k)))) ->
    ~ In onLongClick (calls (snd (run ins (ctrlKnob k)))) ->
    ctrlKnob (sketch_run ins k) = fst (run ins (ctrlKnob k)) /\
    counter (sketch_run ins k) =
      counter k + net_steps (snd (run ins (ctrlKnob k))).
Proof. intros ins k _ _. apply sketch_run_tracks. Qed.

(** One clockwise detent and half a detent back, the button at rest. *)
Lemma sketch_counter_tracks_rotation_witness :
  let ins := [poll_at 0 true true true; poll_at 1 true true false;
              poll_at 2 true false false; poll_at 3 true false true;
              poll_at 4 true true true; poll_at 5 true false true;
              poll_at 6 true false false] in
  (int_range (counter sketch_start - Z.of_nat (length ins)) /\
   int_range (counter sketch_start + Z.of_nat (length ins)) /\
   ~ In onClick (calls (snd (run ins (ctrlKnob sketch_start)))) /\
   ~ In onLongClick (calls (snd (run ins (ctrlKnob sketch_start))))) /\
  counter (sketch_run ins sketch_start) =
    counter sketch_start + net_steps (snd (run ins (ctrlKnob sketch_start))).
Proof.
  intros ins.
  assert (R1 : int_range (counter sketch_start - Z.of_nat (length ins)))
    by (unfold int_range, ins; cbn; lia).
  assert (R2 : int_range (counter sketch_start + Z.of_nat (length ins)))
    by (unfold int_range, ins; cbn; lia).
  assert (H1 : ~ In onClick (calls (snd (run ins (ctrlKnob sketch_start)))))
    by (vm_compute; intros [H | []]; discriminate H).
  assert (H2 : ~ In onLongClick
                 (calls (snd (run ins (ctrlKnob sketch_start)))))
    by (vm_compute; intros [H | []]; discriminate H).
  split; [split; [exact R1 | split; [exact R2 | split; [exact H1 | exact H2]]]|].
  exact (proj2 (sketch_counter_tracks_rotation ins sketch_start R1 R2 H1 H2)).
Defined.

(** While the button is at rest, the classifier reports nothing. *)
Lemma run_button_at_rest (ins : list Input) :
  forall s,
    _buttonState s = HIGH -> _clickCount s = 0 ->
    Forall (fun i => in_button i = true) ins ->
    button_calls (snd (run ins s)) = [].
Proof.
  induction ins as [|i ins IH]; intros s Hs Hn Hall; [reflexivity|].
  inversion Hall as [|? ? Hi Hins]; subst.
  rewrite run_cons_snd, button_calls_app.
  destruct (loop_quiet i s) as (Hc & Ht);
    [rewrite Hi; exact Hs | left; exact Hn |].
  rewrite Ht. core_fields Hc.
  apply IH; [congruence | congruence | assumption].
Qed.

Lemma not_button_call (c : Callback) (t : Trace) :
  is_rotary c = false -> button_calls t = [] -> ~ In c (calls t).
Proof.
  intros Hc Hb Hin.
  assert (H : In c (button_calls t)).
  { unfold button_calls. apply filter_In. split; [exact Hin|].
    rewrite Hc. reflexivity. }
  rewrite Hb in H. exact H.
Qed.

(** X17: in the sketch as it starts, with the button untouched, polls
    along one clockwise detent leave the counter at 1 and polls along one
    counter-clockwise detent leave it at -1, every pair sampled by one or
    more polls: no step is lost and none is added. *)
Theorem sketch_detent_moves_counter_by_one :
  forall ins : list Input,
    Forall (fun i => in_button i = true) ins ->
    (walks cw_detent ins -> counter (sketch_run ins sketch_start) = 1) /\
    (walks ccw_detent ins -> counter (sketch_run ins sketch_start) = -1).
Proof.
  intros ins Hrest.
  pose proof (run_button_at_rest ins (ctrlKnob sketch_start)
                eq_refl eq_refl Hrest) as Hb.
  destruct (sketch_run_tracks ins sketch_start) as (_ & Hc);
    [apply not_button_call; [reflexivity | exact Hb]
    |apply not_button_call; [reflexivity | exact Hb] |].
  rewrite Hc. unfold net_steps.
  pose proof (constructed_table_view 27 26 25 zeroed) as (Hm & Hv).
  pose proof (run_table_view ins _ Hm) as (_ & Hcalls).
  rewrite Hv, table_run_compress in Hcalls.
  change (ctrlKnob sketch_start) with (RotaryEncoder3 27 26 25 zeroed).
  rewrite !count_call_rotary by reflexivity. rewrite Hcalls.
  split; intros [E | E]; rewrite E; reflexivity.
Qed.

Lemma sketch_detent_moves_counter_by_one_witness :
  let ins := [poll_at 0 true true true; poll_at 1 true true false;
              poll_at 2 true true false; poll_at 3 true false false;
              poll_at 4 true false false; poll_at 5 true false true;
              poll_at 6 true false true; poll_at 7 true true true] in
  Forall (fun i => in_button i = true) ins /\
  walks cw_detent ins /\
  counter (sketch_run ins sketch_start) = 1.
Proof.
  cbv zeta.
  assert (H : Forall (fun i => in_button i = true)
                [poll_at 0 true true true; poll_at 1 true true false;
                 poll_at 2 true true false; poll_at 3 true false false;
                 poll_at 4 true false false; poll_at 5 true false true;
                 poll_at 6 true false true; poll_at 7 true true true])
    by (repeat constructor).
  split; [exact H|]. split; [left; reflexivity|].
  apply (proj1 (sketch_detent_moves_counter_by_one _ H)).
  left. reflexivity.
Defined.

(** ** The sketch: selecting the debouncer *)

(** The rotation callbacks leave the encoder alone and move the counter
    by at most one. *)
Lemma dispatch_rotary (s : State) (t : Trace) (k : Sketch) :
  calls t = [] \/ calls t = [onCW] \/ calls t = [onCCW] ->
  ctrlKnob (dispatch s t k) = s /\
  counter k - 1 <= counter (dispatch s t k) <= counter k + 1.
Proof.
  unfold dispatch. intros [E | [E | E]]; rewrite E; cbn; split;
    try reflexivity; lia.
Qed.


(** The rotation callbacks add the net rotation to the counter. *)
Lemma dispatch_rotary_net (s : State) (t : Trace) (k : Sketch) :
  calls t = [] \/ calls t = [onCW] \/ calls t = [onCCW] ->
  counter (dispatch s t k) = counter k + net_steps t.
Proof.
  unfold dispatch, net_steps, count_call.
  intros [E | [E | E]]; rewrite E; cbn; lia.
Qed.

(** The sketch's poll when the button classifier delivers exactly the
    callback [cb], which selects mode [byTable] and clears the counter:
    the debouncer of that mode runs on the levels of this poll, from the
    state the button classifier leaves. *)
Lemma sketch_loop_selected (i : Input) (k : Sketch) (cb : Callback)
    (byTable : bool) :
  calls (snd (_debounceButton i (ctrlKnob k))) = [cb] ->
  (forall k0, ctrlKnob (registered cb k0) =
                setDebouncingRotEncByTable byTable (ctrlKnob k0)) ->
  (forall k0, counter (registered cb k0) = 0) ->
  let s1 := setDebouncingRotEncByTable byTable
              (fst (_debounceButton i (ctrlKnob k))) in
  let r := if byTable then _debounceRotaryByTable i s1
           else _debounceRotaryByCleaning i s1 in
  ctrlKnob (sketch_loop i k) = fst r /\
  counter (sketch_loop i k) = net_steps (snd r).
Proof.
  intros E Hsel Hzero. cbv zeta. unfold sketch_loop.
  destruct (_debounceButton i (ctrlKnob k)) as [s1 t1]. cbn [fst snd] in *.
  assert (Hk1 : ctrlKnob (dispatch s1 t1 k) =
                  setDebouncingRotEncByTable byTable s1 /\
                counter (dispatch s1 t1 k) = 0).
  { unfold dispatch. rewrite E. cbn [fold_left]. rewrite Hsel, Hzero.
    split; reflexivity. }
  destruct Hk1 as (Ek & Ec).
  remember (dispatch s1 t1 k) as k1 eqn:Hdef. clear Hdef.
  rewrite Ek.
  replace (_debouncingRotEncByTable (setDebouncingRotEncByTable byTable s1))
    with byTable by (destruct s1; reflexivity).
  assert (Hcc : forall r : State * Trace,
            r = (if byTable
                 then _debounceRotaryByTable i
                        (setDebouncingRotEncByTable byTable s1)
                 else _debounceRotaryByCleaning i
                        (setDebouncingRotEncByTable byTable s1)) ->
            calls (snd r) = [] \/ calls (snd r) = [onCW] \/
            calls (snd r) = [onCCW]).
  { intros r ->. destruct byTable;
      [apply table_calls_cases | apply cleaning_calls_cases]. }
  specialize (Hcc _ eq_refl).
  destruct (if byTable
            then _debounceRotaryByTable i
                   (setDebouncingRotEncByTable byTable s1)
            else _debounceRotaryByCleaning i
                   (setDebouncingRotEncByTable byTable s1)) as [s2 t2].
  cbn [fst snd] in *.
  destruct (dispatch_rotary s2 t2 k1 Hcc) as (Ek2 & _).
  rewrite Ek2, (dispatch_rotary_net s2 t2 k1 Hcc), Ec.
  split; reflexivity.
Qed.

(** X18: in the sketch, the poll that delivers a LongClick already runs
    the cleaning debouncer on the levels it samples, whichever debouncer
    was selected when the poll began: the encoder after the poll is the
    encoder the button classifier left, switched to cleaning and passed
    through [_debounceRotaryByCleaning] with the clock and data levels of
    this poll, and the counter is the net rotation that pass reports, so
    0, or 1 or -1 if that very poll reports a step; the mode is cleaning
    after the poll and the table debouncer's members are untouched.
    Likewise the poll that delivers a Click already runs
    [_debounceRotaryByTable] on the levels it samples and leaves the
    cleaning debouncer's members untouched. *)
Theorem sketch_click_selects_debouncer_within_poll :
  forall (i : Input) (k : Sketch),
    (In onLongClick (calls (snd (_debounceButton i (ctrlKnob k)))) ->
     ctrlKnob (sketch_loop i k) =
       fst (_debounceRotaryByCleaning i
              (setDebouncingRotEncByTable false
                 (fst (_debounceButton i (ctrlKnob k))))) /\
     counter (sketch_loop i k) =
       net_steps
         (snd (_debounceRotaryByCleaning i
                 (setDebouncingRotEncByTable false
                    (fst (_debounceButton i (ctrlKnob k)))))) /\
     _debouncingRotEncByTable (ctrlKnob (sketch_loop i k)) = false /\
     table_members (ctrlKnob (sketch_loop i k)) =
       table_members (ctrlKnob k) /\
     -1 <= counter (sketch_loop i k) <= 1) /\
    (In onClick (calls (snd (_debounceButton i (ctrlKnob k)))) ->
     ctrlKnob (sketch_loop i k) =
       fst (_debounceRotaryByTable i
              (setDebouncingRotEncByTable true
                 (fst (_debounceButton i (ctrlKnob k))))) /\
     counter (sketch_loop i k) =
       net_steps
         (snd (_debounceRotaryByTable i
                 (setDebouncingRotEncByTable true
                    (fst (_debounceButton i (ctrlKnob k)))))) /\
     _debouncingRotEncByTable (ctrlKnob (sketch_loop i k)) = true /\
     cleaning_members (ctrlKnob (sketch_loop i k)) =
       cleaning_members (ctrlKnob k) /\
     -1 <= counter (sketch_loop i k) <= 1).
Proof.
  intros i k.
  pose proof (button_calls_cases i (ctrlKnob k)) as Hb.
  pose proof (button_frame i (ctrlKnob k)) as (Ht & Hc & _ & _).
  split; intros Hin.
  - assert (E : calls (snd (_debounceButton i (ctrlKnob k)))
                = [onLongClick]).
    { destruct Hb as [E | [E | [E | E]]]; rewrite E in Hin; cbn in Hin;
        try tauto; destruct Hin as [H | []]; discriminate H. }
    destruct (sketch_loop_selected i k onLongClick false E)
      as (Ek & En); [reflexivity | reflexivity |].
    cbv zeta in Ek, En. rewrite Ek, En.
    set (s1 := fst (_debounceButton i (ctrlKnob k))) in *.
    pose proof (cleaning_calls_cases i (setDebouncingRotEncByTable false s1))
      as Hcc.
    pose proof (cleaning_frame i (setDebouncingRotEncByTable false s1))
      as (_ & Hcf & Hcg & _).
    split; [reflexivity|]. split; [reflexivity|]. split; [|split].
    + unfold config_members in Hcg. injection Hcg as _ _ _ Hm.
      rewrite Hm. destruct s1; reflexivity.
    + rewrite Hcf, <- Ht. destruct s1; reflexivity.
    + unfold net_steps, count_call.
      destruct Hcc as [Ec | [Ec | Ec]]; rewrite Ec; cbn; lia.
  - assert (E : calls (snd (_debounceButton i (ctrlKnob k))) = [onClick]).
    { destruct Hb as [E | [E | [E | E]]]; rewrite E in Hin; cbn in Hin;
        try tauto; destruct Hin as [H | []]; discriminate H. }
    destruct (sketch_loop_selected i k onClick true E)
      as (Ek & En); [reflexivity | reflexivity |].
    cbv zeta in Ek, En. rewrite Ek, En.
    set (s1 := fst (_debounceButton i (ctrlKnob k))) in *.
    pose proof (table_calls_cases i (setDebouncingRotEncByTable true s1))
      as Htc.
    pose proof (table_frame i (setDebouncingRotEncByTable true s1))
      as (_ & Htf & Htg & _).
    split; [reflexivity|]. split; [reflexivity|]. split; [|split].
    + unfold config_members in Htg. injection Htg as _ _ _ Hm.
      rewrite Hm. destruct s1; reflexivity.
    + rewrite Htf, <- Hc. destruct s1; reflexivity.
    + unfold net_steps, count_call.
      destruct Htc as [Ec | [Ec | Ec]]; rewrite Ec; cbn; lia.
Qed.

(** A long press in the sketch as it starts: the poll that sees the
    release begins with the table debouncer selected and ends with the
    members of the cleaning debouncer brought up to the sampled levels. *)
Lemma sketch_click_selects_debouncer_within_poll_witness :
  let k := sketch_run [poll_at 0 false true true] sketch_start in
  let i := poll_at 310 true true true in
  In onLongClick (calls (snd (_debounceButton i (ctrlKnob k)))) /\
  _debouncingRotEncByTable (ctrlKnob k) = true /\
  cleaning_members (ctrlKnob k) = (1, 0, 0, 1, 1, 0, 0, 0) /\
  cleaning_members (ctrlKnob (sketch_loop i k)) = (1, 1, 1, 1, 1, 1, 1, 1) /\
  ctrlKnob (sketch_loop i k) =
    fst (_debounceRotaryByCleaning i
           (setDebouncingRotEncByTable false
              (fst (_debounceButton i (ctrlKnob k))))).
Proof.
  cbv zeta.
  assert (H : In onLongClick
                (calls (snd (_debounceButton (poll_at 310 true true true)
                   (ctrlKnob (sketch_run [poll_at 0 false true true]
                                sketch_start))))))
    by (vm_compute; left; reflexivity).
  split; [exact H|]. split; [reflexivity|]. split; [reflexivity|].
  split; [reflexivity|].
  exact (proj1 (proj1 (sketch_click_selects_debouncer_within_poll _ _) H)).
Defined.

(* ================================================================== *)
(** * Callbacks that select the debouncing mode *)

Lemma select_mode_frame (sel : Selection) (s : State) (c : Callback) :
  button_core (select_mode sel s c) = button_core s /\
  table_members (select_mode sel s c) = table_members s /\
  cleaning_members (select_mode sel s c) = cleaning_members s /\
  pins (select_mode sel s c) = pins s.
Proof.
  unfold select_mode. destruct (sel c); destruct s; repeat split.
Qed.

(** Selecting a mode changes the mode and nothing else. *)
Lemma selecting_frame (sel : Selection) (t : Trace) (s : State) :
  button_core (selecting sel t s) = button_core s /\
  table_members (selecting sel t s) = table_members s /\
  cleaning_members (selecting sel t s) = cleaning_members s /\
  pins (selecting sel t s) = pins s.
Proof.
  unfold selecting. revert s.
  induction (calls t) as [|c l IH]; intros s; [repeat split|].
  cbn [fold_left].
  destruct (IH (select_mode sel s c)) as (H1 & H2 & H3 & H4).
  destruct (select_mode_frame sel s c) as (E1 & E2 & E3 & E4).
  repeat split; congruence.
Qed.

Lemma selecting_nothing (sel : Selection) (t : Trace) (s : State) :
  selects_nothing sel t -> selecting sel t s = s.
Proof.
  unfold selects_nothing, selecting. revert s.
  induction (calls t) as [|c l IH]; intros s H; [reflexivity|].
  cbn [fold_left]. unfold select_mode at 2.
  rewrite (H c (or_introl eq_refl)).
  apply IH. intros c' Hc'. apply H. right. exact Hc'.
Qed.

Lemma selects_nothing_app (sel : Selection) (t1 t2 : Trace) :
  selects_nothing sel (t1 ++ t2) <->
  selects_nothing sel t1 /\ selects_nothing sel t2.
Proof.
  unfold selects_nothing. rewrite calls_app. split.
  - intros H. split; intros c Hc; apply H, in_app_iff; tauto.
  - intros [H1 H2] c Hc. apply in_app_iff in Hc.
    destruct Hc; [apply H1 | apply H2]; assumption.
Qed.

(** A poll whose callbacks select no mode is a poll of [loop]. *)
Lemma loop_selecting_inert (sel : Selection) (i : Input) (s : State) :
  selects_nothing sel (snd (loop_selecting sel i s)) ->
  loop_selecting sel i s = loop i s.
Proof.
  unfold loop_selecting, loop.
  destruct (_debounceButton i s) as [s1 t1].
  destruct (if _debouncingRotEncByTable (selecting sel t1 s1)
            then _debounceRotaryByTable i (selecting sel t1 s1)
            else _debounceRotaryByCleaning i (selecting sel t1 s1))
    as [s2 t2] eqn:E.
  cbn [snd]. intros H. apply selects_nothing_app in H. destruct H as [H1 H2].
  rewrite (selecting_nothing sel t1 s1 H1) in E. rewrite E.
  rewrite (selecting_nothing sel t2 s2 H2). reflexivity.
Qed.

Lemma run_selecting_cons (sel : Selection) (i : Input) (ins : list Input)
    (s : State) :
  fst (run_selecting sel (i :: ins) s) =
    fst (run_selecting sel ins (fst (loop_selecting sel i s))) /\
  snd (run_selecting sel (i :: ins) s) =
    snd (loop_selecting sel i s) ++
    snd (run_selecting sel ins (fst (loop_selecting sel i s))).
Proof.
  cbn [run_selecting]. destruct (loop_selecting sel i s) as [s1 t1].
  cbn [fst snd]. destruct (run_selecting sel ins s1) as [s2 t2].
  split; reflexivity.
Qed.

(** A run whose callbacks select no mode is a run of [loop]. *)
Lemma run_selecting_inert (sel : Selection) (ins : list Input) :
  forall s,
    selects_nothing sel (snd (run_selecting sel ins s)) ->
    run_selecting sel ins s = run ins s.
Proof.
  induction ins as [|i ins IH]; intros s H; [reflexivity|].
  destruct (run_selecting_cons sel i ins s) as (_ & Es).
  rewrite Es in H. apply selects_nothing_app in H. destruct H as [H1 H2].
  cbn [run_selecting run].
  rewrite (loop_selecting_inert sel i s H1) in *.
  destruct (loop i s) as [s1 t1]. cbn [fst] in H2.
  rewrite (IH s1 H2). reflexivity.
Qed.

Lemma button_core_of_members_eq (s s' : State) :
  button_members s = button_members s' -> button_core s = button_core s'.
Proof.
  unfold button_members, button_core. intros H.
  injection H as -> _ -> -> ->. reflexivity.
Qed.

Lemma pins_of_config_eq (s s' : State) :
  config_members s = config_members s' -> pins s = pins s'.
Proof.
  unfold config_members, pins. intros H.
  injection H as -> -> -> _. reflexivity.
Qed.

(** Whatever the callbacks select, the button side of a poll is the
    button classifier on its own members, and the pins stay. *)
Lemma loop_selecting_button (sel : Selection) (i : Input) (s : State) :
  button_core (fst (loop_selecting sel i s)) =
    fst (button_step (button_core s) (button_input i)) /\
  button_calls (snd (loop_selecting sel i s)) =
    snd (button_step (button_core s) (button_input i)) /\
  pins (fst (loop_selecting sel i s)) = pins s.
Proof.
  unfold loop_selecting.
  pose proof (button_view_step i s) as (Hv & Hc).
  pose proof (button_calls_button i s) as Hbb.
  pose proof (button_frame i s) as (_ & _ & Hg & _).
  destruct (_debounceButton i s) as [s1 t1]. cbn [fst snd] in *.
  destruct (selecting_frame sel t1 s1) as (F1 & _ & _ & F4).
  set (s1' := selecting sel t1 s1) in *.
  pose proof (table_frame i s1') as (Tb & _ & Tg & Tc).
  pose proof (cleaning_frame i s1') as (Cb & _ & Cg & Cc).
  assert (R : button_members (fst (if _debouncingRotEncByTable s1'
                                   then _debounceRotaryByTable i s1'
                                   else _debounceRotaryByCleaning i s1')) =
              button_members s1' /\
              config_members (fst (if _debouncingRotEncByTable s1'
                                   then _debounceRotaryByTable i s1'
                                   else _debounceRotaryByCleaning i s1')) =
              config_members s1' /\
              button_calls (snd (if _debouncingRotEncByTable s1'
                                 then _debounceRotaryByTable i s1'
                                 else _debounceRotaryByCleaning i s1')) = [])
    by (destruct (_debouncingRotEncByTable s1'); repeat split; assumption).
  destruct (if _debouncingRotEncByTable s1'
            then _debounceRotaryByTable i s1'
            else _debounceRotaryByCleaning i s1') as [s2 t2].
  cbn [fst snd] in *. destruct R as (Rb & Rg & Rc).
  destruct (selecting_frame sel t2 s2) as (G1 & _ & _ & G4).
  rewrite G1, G4, button_calls_app, Rc, app_nil_r, Hbb, Hc.
  split; [|split; [reflexivity|]].
  - rewrite (button_core_of_members_eq _ _ Rb), F1. exact Hv.
  - rewrite (pins_of_config_eq _ _ Rg), F4. apply pins_of_config_eq, Hg.
Qed.

Lemma run_selecting_button (sel : Selection) (ins : list Input) :
  forall s,
    button_calls (snd (run_selecting sel ins s)) =
      snd (button_run (button_core s) (map button_input ins)) /\
    pins (fst (run_selecting sel ins s)) = pins s.
Proof.
  induction ins as [|i ins IH]; intros s; [split; reflexivity|].
  destruct (run_selecting_cons sel i ins s) as (Ef & Es).
  rewrite Ef, Es, button_calls_app.
  destruct (loop_selecting_button sel i s) as (Hv & Hc & Hp).
  destruct (IH (fst (loop_selecting sel i s))) as (IHc & IHp).
  rewrite IHc, IHp, Hc, Hv, Hp. cbn [map button_run].
  destruct (button_step (button_core s) (button_input i)) as [v1 c1].
  cbn [fst snd].
  destruct (button_run v1 (map button_input ins)) as [v2 c2].
  split; reflexivity.
Qed.

(** The encoder of the sketch is the encoder polled with the callbacks'
    selections. *)
Lemma sketch_loop_selecting (i : Input) (k : Sketch) :
  ctrlKnob (sketch_loop i k) =
    fst (loop_selecting sketch_selects i (ctrlKnob k)).
Proof.
  assert (Hf : forall l k1,
            ctrlKnob (fold_left (fun k0 cb => registered cb k0) l k1) =
              fold_left (select_mode sketch_selects) l (ctrlKnob k1)).
  { induction l as [|c l IH]; intros k1; [reflexivity|].
    cbn [fold_left]. rewrite IH. f_equal.
    destruct c; reflexivity. }
  assert (Hd : forall t s k0,
            ctrlKnob (dispatch s t k0) = selecting sketch_selects t s).
  { intros t s k0. unfold dispatch, selecting. rewrite Hf. reflexivity. }
  unfold sketch_loop, loop_selecting.
  destruct (_debounceButton i (ctrlKnob k)) as [s1 t1].
  rewrite Hd.
  destruct (if _debouncingRotEncByTable (selecting sketch_selects t1 s1)
            then _debounceRotaryByTable i (selecting sketch_selects t1 s1)
            else _debounceRotaryByCleaning i (selecting sketch_selects t1 s1))
    as [s2 t2].
  rewrite Hd. reflexivity.
Qed.

(** With the callbacks of the sketch the proviso of the next two
    properties is needed: the same clock and data levels, a half step and
    back, report a step while the button rests, and none after a long
    press has selected the cleaning debouncer. *)
Lemma selection_couples_channels :
  let s := RotaryEncoder3 27 26 25 zeroed in
  let ins := [poll_at 0 true true true; poll_at 400 true true true;
              poll_at 401 true true false; poll_at 402 true false false;
              poll_at 403 true true false; poll_at 404 true true true] in
  let ins' := [poll_at 0 false true true; poll_at 400 true true true;
               poll_at 401 true true false; poll_at 402 true false false;
               poll_at 403 true true false; poll_at 404 true true true] in
  map levels ins = map levels ins' /\
  rotary_calls (snd (run_selecting sketch_selects ins s)) = [onCCW] /\
  rotary_calls (snd (run_selecting sketch_selects ins' s)) = [] /\
  button_calls (snd (run_selecting sketch_selects ins' s)) = [onLongClick] /\
  _debouncingRotEncByTable s = true /\
  _debouncingRotEncByTable (fst (run_selecting sketch_selects ins' s))
    = false.
Proof. cbv zeta. repeat split; vm_compute; reflexivity. Qed.

(** X10: with callbacks that may select the debouncing mode, the button
    callbacks a run of polls invokes depend on nothing but the button
    members at the start, the sampled button levels and the clock
    readings: not on the rotary pins, not on the mode and not on what the
    callbacks select.  The rotation callbacks depend on the button and
    the clock only through a callback that selects a mode: two runs in
    which no invoked callback selects a mode, started in the same mode with
    the same rotary members and sampling the same clock and data levels,
    invoke the same rotation callbacks. *)
Theorem channels_do_not_interfere :
  forall (sel sel' : Selection) (ins ins' : list Input) (s s' : State),
    (button_core s = button_core s' ->
     map button_input ins = map button_input ins' ->
     button_calls (snd (run_selecting sel ins s)) =
       button_calls (snd (run_selecting sel' ins' s'))) /\
    (selects_nothing sel (snd (run_selecting sel ins s)) ->
     selects_nothing sel' (snd (run_selecting sel' ins' s')) ->
     _debouncingRotEncByTable s = _debouncingRotEncByTable s' ->
     table_view s = table_view s' ->
     cleaning_members s = cleaning_members s' ->
     map levels ins = map levels ins' ->
     rotary_calls (snd (run_selecting sel ins s)) =
       rotary_calls (snd (run_selecting sel' ins' s'))).
Proof.
  intros sel sel' ins ins' s s'. split.
  - intros Hb Hi.
    destruct (run_selecting_button sel ins s) as (H1 & _).
    destruct (run_selecting_button sel' ins' s') as (H2 & _).
    congruence.
  - intros Hn Hn' Hm Ht Hc Hl.
    rewrite (run_selecting_inert sel ins s Hn).
    rewrite (run_selecting_inert sel' ins' s' Hn').
    apply (proj1 (run_channels ins ins' s s')); assumption.
Qed.

(** The sketch's callbacks: the same detent with the button at rest, and
    with a bounce of the button meanwhile. *)
Lemma channels_do_not_interfere_witness :
  let s := RotaryEncoder3 27 26 25 zeroed in
  let ins := [poll_at 0 true true true; poll_at 1 true true false;
              poll_at 2 true false false; poll_at 3 true false true;
              poll_at 4 true true true] in
  let ins' := [poll_at 0 true true true; poll_at 100 false true false;
               poll_at 120 true false false; poll_at 500 true false true;
               poll_at 900 true true true] in
  (selects_nothing sketch_selects (snd (run_selecting sketch_selects ins s)) /\
   selects_nothing sketch_selects (snd (run_selecting sketch_selects ins' s)) /\
   map levels ins = map levels ins') /\
  rotary_calls (snd (run_selecting sketch_selects ins s)) =
    rotary_calls (snd (run_selecting sketch_selects ins' s)).
Proof.
  intros s ins ins'.
  assert (H1 : selects_nothing sketch_selects
                 (snd (run_selecting sketch_selects ins s)))
    by (intros c Hc; vm_compute in Hc; destruct Hc as [<- | []];
        reflexivity).
  assert (H2 : selects_nothing sketch_selects
                 (snd (run_selecting sketch_selects ins' s)))
    by (intros c Hc; vm_compute in Hc; destruct Hc as [<- | []];
        reflexivity).
  split; [split; [exact H1 | split; [exact H2 | reflexivity]]|].
  apply (proj2 (channels_do_not_interfere sketch_selects sketch_selects
                  ins ins' s s) H1 H2); reflexivity.
Defined.


